(** * FIO monitor and analyzer: a shallow embedding and its properties

    The development follows [fio-collector/fio_monitor.py] (class
    [FIOMonitor]) and [fio_analyzer.py] (class [FIOAnalyzer]).

    Python objects that travel through the program are JSON documents; they
    are embedded as the type [value].  A [dict] is an association list in
    insertion order, which is the order [items()] and [json.dump] follow.
    Methods that can raise are embedded in an error monad; methods of the
    monitor that touch the object, the output directory or the clock are
    embedded in a state monad over [monitor] whose state survives a raised
    exception, as a Python object does.

    A Python [float] is an IEEE 754 binary64 number: it is embedded as a
    [spec_float] of the standard library's specification of floating-point
    arithmetic, so a quotient or a sum is rounded as Python rounds it, and
    an integer beyond the range of a double raises [OverflowError] where
    Python converts or divides it.

    What the embedding leaves out:
    - dictionary keys are strings (those of every JSON document); where the
      program would use another object as a key the embedding stops with
      [OutsideModel], an outcome about which nothing is proved;
    - a file written by [json.dump] holds the document that was dumped, and
      [json.load] gives it back; the text in between is not modelled;
    - logging is not modelled, and neither is a [KeyboardInterrupt] that
      ends the monitoring loop from outside. *)

From Stdlib Require Import ZArith Bool List String Ascii Lia.
From Stdlib Require Import DecimalString Permutation SpecFloat.
Import ListNotations.

Local Open Scope string_scope.
Local Open Scope Z_scope.
Local Open Scope list_scope.

(** ** Python values *)

Set Warnings "-register-all".

Inductive value : Type :=
| VNone
| VBool (b : bool)
| VInt (n : Z)
| VFloat (x : spec_float)
| VStr (s : string)
| VList (l : list value)
| VDict (d : list (string * value)).

Definition dict := list (string * value).

(** Exceptions the program can meet.  All of them derive from Python's
    [Exception]; [OutsideModel] is not a Python exception, it marks the
    border of the embedding. *)
Inductive exn : Type :=
| AttributeError
| KeyError
| TypeError
| ValueError
| ZeroDivisionError
| OverflowError
| JSONDecodeError
| TimeoutExpired
| OSError
| OutsideModel.

Inductive result (A : Type) : Type :=
| Ok (a : A)
| Raise (e : exn).
Arguments Ok {A} a.
Arguments Raise {A} e.

Definition rbind {A B} (c : result A) (k : A -> result B) : result B :=
  match c with
  | Ok a => k a
  | Raise e => Raise e
  end.

Declare Scope py_scope.
Delimit Scope py_scope with py.
Notation "x <- c ;; k" := (rbind c (fun x => k))
  (at level 61, c at next level, right associativity) : py_scope.

(** *** Dictionaries *)

Fixpoint assoc (k : string) (d : dict) : option value :=
  match d with
  | [] => None
  | (k', v) :: d' => if String.eqb k k' then Some v else assoc k d'
  end.

(** [d[k] = v]: an existing key keeps its place, a new key goes last. *)
Fixpoint dict_set (k : string) (v : value) (d : dict) : dict :=
  match d with
  | [] => [(k, v)]
  | (k', v') :: d' =>
      if String.eqb k k' then (k', v) :: d' else (k', v') :: dict_set k v d'
  end.

Definition keys (d : dict) : list string := map fst d.

(** The value under [k], or [dflt] when [k] is not a key. *)
Definition get_or (d : dict) (k : string) (dflt : value) : value :=
  match assoc k d with
  | Some v => v
  | None => dflt
  end.

(** [o.get(k, dflt)] *)
Definition py_get (o : value) (k : string) (dflt : value) : result value :=
  match o with
  | VDict d => Ok (get_or d k dflt)
  | _ => Raise AttributeError
  end.

(** [o[k]] for a string [k] *)
Definition py_getitem (o : value) (k : string) : result value :=
  match o with
  | VDict d => match assoc k d with Some v => Ok v | None => Raise KeyError end
  | _ => Raise TypeError
  end.

(** [o.items()] *)
Definition py_items (o : value) : result dict :=
  match o with
  | VDict d => Ok d
  | _ => Raise AttributeError
  end.

(** The object used as a key of a dictionary the program builds. *)
Definition as_key (v : value) : result string :=
  match v with
  | VStr s => Ok s
  | _ => Raise OutsideModel
  end.

(** *** Iteration, truth, equality with a string *)

Fixpoint chars (s : string) : list value :=
  match s with
  | EmptyString => []
  | String c s' => VStr (String c EmptyString) :: chars s'
  end.

(** [for x in o] *)
Definition py_iter (o : value) : result (list value) :=
  match o with
  | VList l => Ok l
  | VDict d => Ok (map (fun kv => VStr (fst kv)) d)
  | VStr s => Ok (chars s)
  | _ => Raise TypeError
  end.

(** Binary64: 53 bits of precision, exponents below 1024. *)
Definition prec : Z := 53.
Definition emax : Z := 1024.

Definition is_finite (x : spec_float) : bool :=
  match x with
  | S754_zero _ | S754_finite _ _ _ => true
  | S754_infinity _ | S754_nan => false
  end.

Definition is_zero (x : spec_float) : bool :=
  match x with
  | S754_zero _ => true
  | _ => false
  end.

(** [bool(o)], the test of [if o] and [if not o] *)
Definition truthy (o : value) : bool :=
  match o with
  | VNone => false
  | VBool b => b
  | VInt n => negb (n =? 0)
  | VFloat x => negb (is_zero x)
  | VStr s => negb (String.eqb s EmptyString)
  | VList l => match l with [] => false | _ => true end
  | VDict d => match d with [] => false | _ => true end
  end.

(** [o == s] for a string [s]: among JSON values only an equal string is
    equal to a string. *)
Definition py_eq_str (o : value) (s : string) : bool :=
  match o with
  | VStr s' => String.eqb s' s
  | _ => false
  end.

(** *** Numbers *)

(** [bool] is a subclass of [int]. *)
Definition int_of (v : value) : option Z :=
  match v with
  | VInt n => Some n
  | VBool b => Some (if b then 1 else 0)
  | _ => None
  end.

Definition is_number (v : value) : bool :=
  match v with
  | VInt _ | VBool _ | VFloat _ => true
  | _ => false
  end.

(** The float [0.0]. *)
Definition float_zero : spec_float := S754_zero false.

(** [float(n)]: the double nearest to the integer [n], ties to even; an
    infinity when [n] is beyond the range of a double. *)
Definition float_of_int (n : Z) : spec_float :=
  binary_normalize prec emax n 0 false.

(** An integer as it stands, as an operand of a quotient that is rounded
    once: Python divides two integers without converting them to floats
    first, so that the quotient is rounded to the nearest double even when
    the integers themselves are not doubles.  The integer is the mantissa,
    the exponent is zero. *)
Definition exact_int (n : Z) : spec_float :=
  match n with
  | Z0 => S754_zero false
  | Zpos p => S754_finite false p 0
  | Zneg p => S754_finite true p 0
  end.

(** The quotient of two integers, rounded once to the nearest double, ties
    to even; an infinity when it is beyond the range of a double.  [SFdiv]
    divides the mantissas with enough bits for the rounding, whatever their
    size. *)
Definition int_quotient (a b : Z) : spec_float :=
  SFdiv prec emax (exact_int a) (exact_int b).

(** The operand of a float operation: an [int] is converted to a float,
    which raises [OverflowError] when the integer is too large. *)
Definition to_float (v : value) : result spec_float :=
  match v with
  | VFloat x => Ok x
  | VInt n =>
      if is_finite (float_of_int n) then Ok (float_of_int n)
      else Raise OverflowError
  | VBool b => Ok (float_of_int (if b then 1 else 0))
  | _ => Raise TypeError
  end.

(** [a / b], true division: always a float.  The quotient of two integers
    is rounded once and raises [OverflowError] when it is too large for a
    float; with a float operand the other operand is converted first and
    the quotient is that of IEEE 754. *)
Definition py_truediv (a b : value) : result value :=
  match int_of a, int_of b with
  | Some x, Some y =>
      if y =? 0 then Raise ZeroDivisionError
      else if is_finite (int_quotient x y) then Ok (VFloat (int_quotient x y))
      else Raise OverflowError
  | _, _ =>
      if is_number a && is_number b then
        (x <- to_float a ;;
         y <- to_float b ;;
         if is_zero y then Raise ZeroDivisionError
         else Ok (VFloat (SFdiv prec emax x y)))%py
      else Raise TypeError
  end.

(** [a + b]: exact on integers; with a float operand the other operand is
    converted first and the sum is that of IEEE 754. *)
Definition py_add (a b : value) : result value :=
  match int_of a, int_of b with
  | Some x, Some y => Ok (VInt (x + y))
  | _, _ =>
      if is_number a && is_number b then
        (x <- to_float a ;;
         y <- to_float b ;;
         Ok (VFloat (SFadd prec emax x y)))%py
      else
        match a, b with
        | VStr s, VStr t => Ok (VStr (s ++ t))
        | VList l, VList l' => Ok (VList (l ++ l'))
        | _, _ => Raise TypeError
        end
  end.

(** [len(l)] of a list *)
Definition py_len {A} (l : list A) : value := VInt (Z.of_nat (List.length l)).

(** ** The result normalizer *)

(** [convert_latency_to_us] *)
Definition convert_latency_to_us (latency_ns : value) : result value :=
  (mn <- py_get latency_ns "min" (VInt 0) ;;
   mn_us <- py_truediv mn (VInt 1000) ;;
   mx <- py_get latency_ns "max" (VInt 0) ;;
   mx_us <- py_truediv mx (VInt 1000) ;;
   me <- py_get latency_ns "mean" (VInt 0) ;;
   me_us <- py_truediv me (VInt 1000) ;;
   Ok (VDict [("min", mn_us); ("max", mx_us); ("mean", me_us)]))%py.

(** The dictionary display the source writes out once for [read_stats] and
    once for [write_stats]; its entries are evaluated in this order. *)
Definition io_stats (stats : value) : result value :=
  (iops <- py_get stats "iops" (VInt 0) ;;
   bw_bytes <- py_get stats "bw_bytes" (VInt 0) ;;
   bw_kbps <- py_get stats "bw_kbps" (VInt 0) ;;
   lat1 <- py_get stats "lat_ns" (VDict []) ;;
   mn <- py_get lat1 "min" (VInt 0) ;;
   lat2 <- py_get stats "lat_ns" (VDict []) ;;
   mx <- py_get lat2 "max" (VInt 0) ;;
   lat3 <- py_get stats "lat_ns" (VDict []) ;;
   me <- py_get lat3 "mean" (VInt 0) ;;
   clat <- py_get stats "clat_ns" (VDict []) ;;
   percentiles <- py_get clat "percentile" (VDict []) ;;
   lat4 <- py_get stats "lat_ns" (VDict []) ;;
   latency_us <- convert_latency_to_us lat4 ;;
   Ok (VDict [("iops", iops);
              ("bw_bytes", bw_bytes);
              ("bw_kbps", bw_kbps);
              ("latency_ns", VDict [("min", mn); ("max", mx); ("mean", me)]);
              ("percentiles", percentiles);
              ("latency_us", latency_us)]))%py.

(** The body of the loop over the jobs, up to [job_results]: the name under
    which the job is stored and its sub-record. *)
Definition job_results (job : value) : result (value * value) :=
  (job_name <- py_get job "jobname" (VStr "unknown") ;;
   read_stats <- py_get job "read" (VDict []) ;;
   write_stats <- py_get job "write" (VDict []) ;;
   rd <- io_stats read_stats ;;
   wr <- io_stats write_stats ;;
   usr <- py_get job "usr_cpu" (VInt 0) ;;
   sys <- py_get job "sys_cpu" (VInt 0) ;;
   cpu <- py_add usr sys ;;
   Ok (job_name, VDict [("read", rd); ("write", wr); ("cpu", cpu)]))%py.

(** [for job in ...: ... results[job_name] = job_results]; a job name
    that is not a string is outside the embedding. *)
Fixpoint store_jobs (jobs : list value) (results : dict) : result dict :=
  match jobs with
  | [] => Ok results
  | job :: jobs' =>
      (nr <- job_results job ;;
       k <- as_key (fst nr) ;;
       store_jobs jobs' (dict_set k (snd nr) results))%py
  end.

(** [process_fio_results]; [now] is [datetime.now().isoformat()]. *)
Definition process_fio_results (now : string) (test_name fio_data : value)
  : result value :=
  (global_options <- py_get fio_data "global options" (VDict []) ;;
   let results := [("timestamp", VStr now);
                   ("test_name", test_name);
                   ("global_options", global_options)] in
   jobs <- py_get fio_data "jobs" (VList []) ;;
   jobs <- py_iter jobs ;;
   results <- store_jobs jobs results ;;
   Ok (VDict results))%py.

(** ** Key metrics of a result *)

Definition metadata_names : list string :=
  ["timestamp"; "test_name"; "global_options"].

Definition is_metadata (k : string) : bool :=
  existsb (String.eqb k) metadata_names.

(** The dictionary display of [extract_key_metrics] for one job. *)
Definition job_metrics (job_data : value) : result value :=
  (rd <- py_getitem job_data "read" ;;
   read_iops <- py_getitem rd "iops" ;;
   wr <- py_getitem job_data "write" ;;
   write_iops <- py_getitem wr "iops" ;;
   rd <- py_getitem job_data "read" ;;
   rp <- py_getitem rd "percentiles" ;;
   r95 <- py_get rp "95.000000" (VInt 0) ;;
   read_p95 <- py_truediv r95 (VInt 1000) ;;
   wr <- py_getitem job_data "write" ;;
   wp <- py_getitem wr "percentiles" ;;
   w95 <- py_get wp "95.000000" (VInt 0) ;;
   write_p95 <- py_truediv w95 (VInt 1000) ;;
   rd <- py_getitem job_data "read" ;;
   read_bw <- py_getitem rd "bw_kbps" ;;
   wr <- py_getitem job_data "write" ;;
   write_bw <- py_getitem wr "bw_kbps" ;;
   Ok (VDict [("read_iops", read_iops);
              ("write_iops", write_iops);
              ("read_latency_us_p95", read_p95);
              ("write_latency_us_p95", write_p95);
              ("read_bandwidth_kbps", read_bw);
              ("write_bandwidth_kbps", write_bw)]))%py.

(** The loop of [extract_key_metrics] over [result.items()]. *)
Fixpoint collect_metrics (items : dict) (metrics : dict) : result dict :=
  match items with
  | [] => Ok metrics
  | (job_name, job_data) :: items' =>
      if is_metadata job_name then collect_metrics items' metrics
      else
        (jm <- job_metrics job_data ;;
         collect_metrics items' (dict_set job_name jm metrics))%py
  end.

(** [extract_key_metrics] *)
Definition extract_key_metrics (res : value) : result value :=
  (items <- py_items res ;;
   metrics <- collect_metrics items [] ;;
   Ok (VDict metrics))%py.

(** [aggregate_test_results] *)
Definition aggregate_test_results (test_results : list value) : result value :=
  match test_results with
  | [] => Ok (VDict [])
  | _ =>
      let latest_result := last test_results VNone in
      (last_run <- py_getitem latest_result "timestamp" ;;
       latest_metrics <- extract_key_metrics latest_result ;;
       Ok (VDict [("last_run", last_run);
                  ("runs_count", py_len test_results);
                  ("latest_metrics", latest_metrics)]))%py
  end.

(** ** The world outside the program *)

(** What [subprocess.run] can end in. *)
Inductive proc_outcome : Type :=
| Completed (returncode : Z) (stdout stderr : string)
| Expired
| Failed.

(** The benchmark tool, the clock and the library functions the program
    calls.  Every call to the tool or the clock is numbered by the monitor's
    [clock], so two calls need not answer alike.  [sleep_refused] tells
    which durations, in seconds, the platform refuses to sleep, and with
    which exception ([OverflowError] or [OSError] for a duration too large
    for its timer). *)
Record world : Type := {
  subprocess_run : nat -> list string -> value -> proc_outcome;
  now_isoformat : nat -> string;
  now_strftime : nat -> string;
  json_loads : string -> option value;
  float_repr : spec_float -> string;
  iso_ok : string -> bool;
  sleep_refused : Z -> option exn
}.

(** ** The monitor object *)

Record monitor : Type := {
  configs : value;
  history : list value;
  disk : list (string * value);
  clock : nat;
  launched : list (list string * value)
}.

Definition St (A : Type) : Type := monitor -> result A * monitor.

Definition sret {A} (a : A) : St A := fun m => (Ok a, m).

Definition sbind {A B} (c : St A) (k : A -> St B) : St B :=
  fun m =>
    match c m with
    | (Ok a, m') => k a m'
    | (Raise e, m') => (Raise e, m')
    end.

Definition lift {A} (c : result A) : St A := fun m => (c, m).

(** [try: body except Exception: handler] *)
Definition try_except {A} (body : St A) (handler : exn -> St A) : St A :=
  fun m =>
    match body m with
    | (Ok a, m') => (Ok a, m')
    | (Raise OutsideModel, m') => (Raise OutsideModel, m')
    | (Raise e, m') => handler e m'
    end.

Declare Scope st_scope.
Delimit Scope st_scope with st.
Notation "x <- c ;; k" := (sbind c (fun x => k))
  (at level 61, c at next level, right associativity) : st_scope.
Notation "c ;; k" := (sbind c (fun _ => k))
  (at level 61, right associativity) : st_scope.

Definition history_file : string := "fio_history.json".
Definition report_file : string := "performance_report.json".

Definition read_file (name : string) (d : list (string * value)) : option value :=
  assoc name d.

(** [with open(name, 'w') as f: json.dump(doc, f, indent=2)] *)
Definition write_json (name : string) (doc : value) : St unit :=
  fun m =>
    (Ok tt, {| configs := configs m; history := history m;
               disk := (name, doc) :: disk m;
               clock := clock m; launched := launched m |}).

Definition tick (m : monitor) : monitor :=
  {| configs := configs m; history := history m; disk := disk m;
     clock := S (clock m); launched := launched m |}.

(** The monitor once the tool has been launched with [args] and [timeout]. *)
Definition launch (m : monitor) (args : list string) (timeout : value)
  : monitor :=
  {| configs := configs m; history := history m; disk := disk m;
     clock := S (clock m); launched := launched m ++ [(args, timeout)] |}.

Fixpoint strings_of (l : list value) : option (list string) :=
  match l with
  | [] => Some []
  | VStr s :: l' => option_map (cons s) (strings_of l')
  | _ :: _ => None
  end.

Section Monitor.

Variable w : world.

(** [datetime.now().isoformat()] *)
Definition isoformat_now : St string :=
  fun m => (Ok (now_isoformat w (clock m)), tick m).

(** [datetime.now().strftime("%Y%m%d_%H%M%S")] *)
Definition strftime_now : St string :=
  fun m => (Ok (now_strftime w (clock m)), tick m).

(** [str(v)] *)
Definition py_str (v : value) : result string :=
  match v with
  | VStr s => Ok s
  | VInt n => Ok (NilZero.string_of_int (Z.to_int n))
  | VBool b => Ok (if b then "True" else "False")
  | VNone => Ok "None"
  | VFloat x => Ok (float_repr w x)
  | VList _ | VDict _ => Raise OutsideModel
  end.

(** [subprocess.run(cmd, capture_output=True, text=True, timeout=timeout)];
    the call is recorded in [launched]. *)
Definition run_subprocess (cmd : list value) (timeout : value)
  : St (Z * string * string) :=
  fun m =>
    match strings_of cmd with
    | None => (Raise TypeError, m)
    | Some args =>
        let m' := launch m args timeout in
        match subprocess_run w (clock m) args timeout with
        | Completed rc out err => (Ok (rc, out, err), m')
        | Expired => (Raise TimeoutExpired, m')
        | Failed => (Raise OSError, m')
        end
    end.

(** ** The benchmark invoker *)

(** [for key, value in parameters.items(): ...], lines 79 to 81. *)
Fixpoint add_flags (items : dict) (cmd : list value) : result (list value) :=
  match items with
  | [] => Ok cmd
  | (key, v) :: items' =>
      if negb (String.eqb key "name") then
        (s <- py_str v ;;
         add_flags items' (cmd ++ [VStr ("--" ++ key); VStr s]))%py
      else add_flags items' cmd
  end.

(** The command of [run_fio_test], lines 78 to 81. *)
Definition fio_command (test_name : value) (items : dict)
  : result (list value) :=
  add_flags items [VStr "fio"; VStr "--name"; test_name].

(** [json.loads] *)
Definition loads (s : string) : result value :=
  match json_loads w s with
  | Some v => Ok v
  | None => Raise JSONDecodeError
  end.

(** [run_fio_test] *)
Definition run_fio_test (config : value) : St value :=
  (test_name <- lift (py_getitem config "name") ;;
   parameters <- lift (py_getitem config "parameters") ;;
   items <- lift (py_items parameters) ;;
   cmd <- lift (fio_command test_name items) ;;
   try_except
     (runtime <- lift (py_get parameters "runtime" (VInt 120)) ;;
      timeout <- lift (py_add runtime (VInt 30)) ;;
      res <- run_subprocess cmd timeout ;;
      let '(returncode, stdout, _) := res in
      if negb (returncode =? 0) then sret VNone
      else
        (fio_output <- lift (loads stdout) ;;
         now <- isoformat_now ;;
         lift (process_fio_results now test_name fio_output)))
     (fun _ => sret VNone))%st.

(** ** The history store *)

(** [save_history] *)
Definition save_history : St unit :=
  fun m => write_json history_file (VList (history m)) m.

(** [self.history.append(results)] *)
Definition append_history (results : value) : St unit :=
  fun m =>
    (Ok tt, {| configs := configs m; history := history m ++ [results];
               disk := disk m; clock := clock m; launched := launched m |}).

(** [save_results] *)
Definition save_results (results : value) : St unit :=
  if negb (truthy results) then sret tt
  else
    (timestamp <- strftime_now ;;
     let filename := ("fio_results_" ++ timestamp ++ ".json")%string in
     write_json filename results ;;
     append_history results ;;
     save_history)%st.

(** ** The report generator *)

(** [[r for r in self.history if r.get("test_name") == test_name]] *)
Fixpoint matching (test_name : string) (h : list value) : result (list value) :=
  match h with
  | [] => Ok []
  | r :: h' =>
      (tn <- py_get r "test_name" VNone ;;
       rest <- matching test_name h' ;;
       Ok (if py_eq_str tn test_name then r :: rest else rest))%py
  end.

(** [for test_config in self.configs: ...], lines 208 to 213; a test name
    that is not a string, which would be compared with the records and
    used as a key of the summary, is outside the embedding. *)
Fixpoint summarize (cfgs : list value) (h : list value) (summary : dict)
  : result dict :=
  match cfgs with
  | [] => Ok summary
  | test_config :: cfgs' =>
      (test_name <- py_getitem test_config "name" ;;
       name <- as_key test_name ;;
       test_results <- matching name h ;;
       match test_results with
       | [] => summarize cfgs' h summary
       | _ =>
           agg <- aggregate_test_results test_results ;;
           summarize cfgs' h (dict_set name agg summary)
       end)%py
  end.

(** [generate_report]; [None] when the history is empty. *)
Definition generate_report : St value :=
  fun m =>
    match history m with
    | [] => (Ok VNone, m)
    | _ =>
        (now <- isoformat_now ;;
         cfgs <- lift (py_iter (configs m)) ;;
         summary <- lift (summarize cfgs (history m) []) ;;
         let report := VDict [("generated_at", VStr now);
                              ("total_tests", py_len (history m));
                              ("summary", VDict summary)] in
         write_json report_file report ;;
         sret report)%st m
    end.

(** ** The monitoring loop *)

(** [for config in self.configs: ...], lines 267 to 270 and 298 to 301. *)
Fixpoint run_tests (cfgs : list value) : St unit :=
  match cfgs with
  | [] => sret tt
  | config :: cfgs' =>
      (results <- run_fio_test config ;;
       (if truthy results then save_results results else sret tt) ;;
       run_tests cfgs')%st
  end.

Definition run_configured_tests : St unit :=
  fun m => (cfgs <- lift (py_iter (configs m)) ;; run_tests cfgs)%st m.

(** [time.sleep(seconds)] for an integer: a negative duration raises
    [ValueError], a duration the platform refuses raises the platform's
    exception; the wait itself changes nothing in the monitor. *)
Definition time_sleep (seconds : Z) : St unit :=
  fun m =>
    if seconds <? 0 then (Raise ValueError, m)
    else
      match sleep_refused w seconds with
      | Some e => (Raise e, m)
      | None => (Ok tt, m)
      end.

(** One turn of the [while] loop, lines 263 to 276. *)
Definition monitoring_cycle (interval_minutes : Z) : St unit :=
  (run_configured_tests ;;
   generate_report ;;
   time_sleep (interval_minutes * 60))%st.

Fixpoint run_cycles (interval_minutes : Z) (n : nat) : St unit :=
  match n with
  | O => sret tt
  | S n' => (monitoring_cycle interval_minutes ;;
             run_cycles interval_minutes n')%st
  end.

(** [run_monitoring_cycle] with a cycle count ([cycles] is not [None]). *)
Definition run_monitoring_cycle (interval_minutes cycles : Z) : St unit :=
  run_cycles interval_minutes (Z.to_nat cycles).

(** The single-run branch of [main]. *)
Definition single_run : St value :=
  (run_configured_tests ;; generate_report)%st.

(** ** The analyzer *)

(** [FIOAnalyzer.load_history] on the monitor's output directory. *)
Definition load_history (d : list (string * value)) : value :=
  match read_file history_file d with
  | None => VList []
  | Some doc => doc
  end.

(** [datetime.fromisoformat(o)]; a datetime is kept as its ISO text. *)
Definition fromisoformat (o : value) : result value :=
  match o with
  | VStr s => if iso_ok w s then Ok (VStr s) else Raise ValueError
  | _ => Raise TypeError
  end.

(** The row [create_timeseries_analysis] appends for one job. *)
Definition job_row (timestamp test_name : value) (job_name : string)
  (job_data : value) : result value :=
  (rd <- py_getitem job_data "read" ;;
   read_iops <- py_getitem rd "iops" ;;
   wr <- py_getitem job_data "write" ;;
   write_iops <- py_getitem wr "iops" ;;
   rd <- py_getitem job_data "read" ;;
   rp <- py_getitem rd "percentiles" ;;
   r95 <- py_get rp "95.000000" (VInt 0) ;;
   read_p95 <- py_truediv r95 (VInt 1000) ;;
   wr <- py_getitem job_data "write" ;;
   wp <- py_getitem wr "percentiles" ;;
   w95 <- py_get wp "95.000000" (VInt 0) ;;
   write_p95 <- py_truediv w95 (VInt 1000) ;;
   rd <- py_getitem job_data "read" ;;
   read_bw <- py_getitem rd "bw_kbps" ;;
   wr <- py_getitem job_data "write" ;;
   write_bw <- py_getitem wr "bw_kbps" ;;
   Ok (VDict [("timestamp", timestamp);
              ("test_name", test_name);
              ("job_name", VStr job_name);
              ("read_iops", read_iops);
              ("write_iops", write_iops);
              ("read_latency_p95_us", read_p95);
              ("write_latency_p95_us", write_p95);
              ("read_bw_kbps", read_bw);
              ("write_bw_kbps", write_bw)]))%py.

(** The inner loop of [create_timeseries_analysis], lines 39 to 53. *)
Fixpoint job_rows (timestamp test_name : value) (items : dict)
  (data : list value) : result (list value) :=
  match items with
  | [] => Ok data
  | (job_name, job_data) :: items' =>
      if is_metadata job_name then job_rows timestamp test_name items' data
      else
        (row <- job_row timestamp test_name job_name job_data ;;
         job_rows timestamp test_name items' (data ++ [row]))%py
  end.

(** The outer loop of [create_timeseries_analysis], lines 35 to 53. *)
Fixpoint result_rows (hist : list value) (data : list value)
  : result (list value) :=
  match hist with
  | [] => Ok data
  | res :: hist' =>
      (ts <- py_getitem res "timestamp" ;;
       timestamp <- fromisoformat ts ;;
       test_name <- py_getitem res "test_name" ;;
       items <- py_items res ;;
       data' <- job_rows timestamp test_name items data ;;
       result_rows hist' data')%py
  end.

(** The rows [create_timeseries_analysis] puts in its table; no row when
    the history is empty. *)
Definition timeseries_rows (d : list (string * value)) : result (list value) :=
  let hist := load_history d in
  if negb (truthy hist) then Ok []
  else (records <- py_iter hist ;; result_rows records [])%py.

End Monitor.

(** ** Reading a document along a path of keys *)

Fixpoint at_path (v : value) (path : list string) : option value :=
  match path with
  | [] => Some v
  | k :: path' =>
      match v with
      | VDict d =>
          match assoc k d with
          | Some v' => at_path v' path'
          | None => None
          end
      | _ => None
      end
  end.

(** ** The shape of the documents *)

(** A number within the range of a double: a float, or an integer below
    [2 ^ 1023] (about 9e307) in magnitude.  Such a number is divided by
    1000, converted to a float and added to a float without
    [OverflowError] (Lemma [in_double_range_ready]). *)
Definition in_double_range (v : value) : bool :=
  match v with
  | VInt n => Z.abs n <? 2 ^ 1023
  | VBool _ | VFloat _ => true
  | _ => false
  end.

(** A number the program can divide by 1000: a float, or an integer whose
    thousandth is within the range of a double (which excludes only
    integers beyond about 1.8e311, where Python's [/] raises
    [OverflowError]). *)
Definition us_ready (v : value) : bool :=
  match v with
  | VInt n => is_finite (int_quotient n 1000)
  | VBool _ | VFloat _ => true
  | _ => false
  end.

(** A number the program can add to a float: a float, or an integer within
    the range of a double. *)
Definition float_ready (v : value) : bool :=
  match v with
  | VInt n => is_finite (float_of_int n)
  | VBool _ | VFloat _ => true
  | _ => false
  end.

Definition is_string (v : value) : bool :=
  match v with VStr _ => true | _ => false end.

Definition is_scalar (v : value) : bool :=
  match v with VList _ | VDict _ => false | _ => true end.

Definition has_key (d : dict) (k : string) : bool :=
  match assoc k d with Some _ => true | None => false end.

(** A field that may be missing and has the given shape when present. *)
Definition absent_or (p : value -> bool) (d : dict) (k : string) : bool :=
  match assoc k d with
  | None => true
  | Some v => p v
  end.

(** The schema of the benchmark tool's document (the fields the normalizer
    reads), every field optional: [lat_ns:{min,max,mean}] are numbers,
    [clat_ns:{percentile:{...}}] maps labels to numbers, [iops], [bw_bytes],
    [bw_kbps], [usr_cpu] and [sys_cpu] are numbers, [jobname] is a string,
    [jobs] is a list of such jobs.  The latencies, which are divided by
    1000, and the CPU usages, which are added, are numbers within the range
    of a double ([in_double_range]). *)
Definition lat_ok (v : value) : bool :=
  match v with
  | VDict d =>
      absent_or in_double_range d "min" && absent_or in_double_range d "max"
      && absent_or in_double_range d "mean"
  | _ => false
  end.

Definition percentile_ok (v : value) : bool :=
  match v with
  | VDict d => forallb (fun kv => in_double_range (snd kv)) d
  | _ => false
  end.

Definition clat_ok (v : value) : bool :=
  match v with
  | VDict d => absent_or percentile_ok d "percentile"
  | _ => false
  end.

Definition stats_ok (v : value) : bool :=
  match v with
  | VDict d =>
      absent_or is_number d "iops" && absent_or is_number d "bw_bytes"
      && absent_or is_number d "bw_kbps" && absent_or lat_ok d "lat_ns"
      && absent_or clat_ok d "clat_ns"
  | _ => false
  end.

Definition job_ok (v : value) : bool :=
  match v with
  | VDict d =>
      absent_or is_string d "jobname" && absent_or stats_ok d "read"
      && absent_or stats_ok d "write"
      && absent_or in_double_range d "usr_cpu"
      && absent_or in_double_range d "sys_cpu"
  | _ => false
  end.

Definition jobs_ok (v : value) : bool :=
  match v with
  | VList l => forallb job_ok l
  | _ => false
  end.

Definition conforms (doc : value) : bool :=
  match doc with
  | VDict d => absent_or jobs_ok d "jobs"
  | _ => false
  end.

(** The jobs of a document and the name a job is stored under. *)
Definition jobs_of (doc : value) : list value :=
  match doc with
  | VDict d => match get_or d "jobs" (VList []) with VList l => l | _ => [] end
  | _ => []
  end.

Definition jobname_of (job : value) : value :=
  match job with
  | VDict d => get_or d "jobname" (VStr "unknown")
  | _ => VNone
  end.

(** What the report generator and the analyzer read in a stored result:
    a timestamp, and under every key that is not a metadata name a job
    sub-record with [iops], [bw_kbps] and a percentile table on both the
    read and the write side, whose entry [95.000000], if any, is a number
    within the range of a double. *)
Definition side_ok (v : value) : bool :=
  match v with
  | VDict d =>
      has_key d "iops" && has_key d "bw_kbps"
      && match assoc "percentiles" d with
         | Some (VDict p) => absent_or in_double_range p "95.000000"
         | _ => false
         end
  | _ => false
  end.

Definition job_data_ok (v : value) : bool :=
  match v with
  | VDict d =>
      match assoc "read" d, assoc "write" d with
      | Some r, Some wr => side_ok r && side_ok wr
      | _, _ => false
      end
  | _ => false
  end.

Definition entry_ok (kv : string * value) : bool :=
  is_metadata (fst kv) || job_data_ok (snd kv).

Definition reportable (r : value) : bool :=
  match r with
  | VDict d => has_key d "timestamp" && forallb entry_ok d
  | _ => false
  end.

(** A TestConfig: a name and a mapping from keys to scalars. *)
Definition valid_config (c : value) : bool :=
  match c with
  | VDict d =>
      match assoc "name" d, assoc "parameters" d with
      | Some (VStr _), Some (VDict ps) =>
          forallb (fun kv => is_scalar (snd kv)) ps
      | _, _ => false
      end
  | _ => false
  end.

Definition has_name (c : value) : bool :=
  match c with
  | VDict d => match assoc "name" d with Some (VStr _) => true | _ => false end
  | _ => false
  end.

Definition config_named (s : string) (c : value) : bool :=
  match c with
  | VDict d => match assoc "name" d with Some v => py_eq_str v s | None => false end
  | _ => false
  end.

(** The records of a history whose test name is [s]. *)
Definition test_name_is (s : string) (r : value) : bool :=
  match r with
  | VDict d => py_eq_str (get_or d "test_name" VNone) s
  | _ => false
  end.

Definition is_dict (v : value) : bool :=
  match v with VDict _ => true | _ => false end.

(** ** The example of the specification *)

Definition example_config : value :=
  VDict [("name", VStr "t1");
         ("parameters", VDict [("rw", VStr "randrw"); ("bs", VStr "8k");
                               ("runtime", VInt 10)])].

Definition example_side (iops bw mn mx me p95 : Z) : value :=
  VDict [("iops", VInt iops); ("bw_kbps", VInt bw);
         ("lat_ns", VDict [("min", VInt mn); ("max", VInt mx);
                           ("mean", VInt me)]);
         ("clat_ns", VDict [("percentile",
                             VDict [("95.000000", VInt p95)])])].

Definition example_doc : value :=
  VDict [("jobs",
          VList [VDict [("jobname", VStr "j1");
                        ("read", example_side 100 800 1000 5000 2000 4000);
                        ("write", example_side 50 400 2000 6000 3000 5000)]])].

(** A stub tool that always answers with the example document. *)
Definition example_world : world :=
  {| subprocess_run := fun _ _ _ => Completed 0 "stub" EmptyString;
     now_isoformat := fun _ => "2024-01-01T00:00:00";
     now_strftime := fun _ => "20240101_000000";
     json_loads := fun s => if String.eqb s "stub" then Some example_doc else None;
     float_repr := fun _ => "0.0";
     iso_ok := fun _ => true;
     sleep_refused := fun _ => None |}.

Definition new_monitor (cfgs : value) : monitor :=
  {| configs := cfgs; history := []; disk := []; clock := O; launched := [] |}.

(** ** Vocabulary of the statements *)

(** The nanosecond value [convert_latency_to_us] reads for a field: the
    value stored under the field, the integer zero when the field is
    absent. *)
Definition field_ns (d : dict) (f : string) : value :=
  get_or d f (VInt 0).

Definition latency_fields : list string := ["min"; "max"; "mean"].

(** The timeout as the claim has it: [run_fio_test] launches the tool for
    the configuration [c] with a timeout that is the sum of the runtime
    parameter of [c] and 30. *)
Definition timeout_is_runtime_plus_30 (w : world) (c : value) (m : monitor)
  : Prop :=
  exists r t args,
    at_path c ["parameters"; "runtime"] = Some r
    /\ py_add r (VInt 30) = Ok t
    /\ launched (snd (run_fio_test w c m)) = launched m ++ [(args, t)].

(** The parameters that become flags, in the order of the mapping. *)
Definition flag_pairs (items : dict) : dict :=
  filter (fun kv => negb (String.eqb (fst kv) "name")) items.

(** [str(v)] as a string, for the values on which [py_str] is defined. *)
Definition str_of (w : world) (v : value) : string :=
  match py_str w v with
  | Ok s => s
  | Raise _ => EmptyString
  end.

Definition flag_strings (w : world) (kv : string * value) : list string :=
  [("--" ++ fst kv)%string; str_of w (snd kv)].

(** The argument list for a test name and a parameter mapping: the tool,
    [--name <name>], then a pair [--<key> <value>] per flag parameter. *)
Definition command_line (w : world) (name : string) (ps : dict) : list string :=
  "fio" :: "--name" :: name :: flat_map (flag_strings w) (flag_pairs ps).

(** A sequence of results handed to the history store one after the other. *)
Fixpoint save_all (w : world) (rs : list value) : St unit :=
  match rs with
  | [] => sret tt
  | r :: rs' => (save_results w r ;; save_all w rs')%st
  end.

(** Whatever the tool prints when it is launched at time [t] and completes
    is text that is not a JSON document. *)
Definition malformed_at (w : world) (t : nat) : Prop :=
  forall args timeout rc out err,
    subprocess_run w t args timeout = Completed rc out err ->
    json_loads w out = None.

(** ** The normalizer on documents of the tool's schema, in closed form *)

Definition sides : list string := ["read"; "write"].

Definition side_of (jd : dict) (side : string) : dict :=
  match assoc side jd with
  | Some (VDict s) => s
  | _ => []
  end.

Definition lat_of (s : dict) : dict :=
  match assoc "lat_ns" s with
  | Some (VDict l) => l
  | _ => []
  end.

Definition percentiles_of (s : dict) : value :=
  match assoc "clat_ns" s with
  | Some (VDict c) => get_or c "percentile" (VDict [])
  | _ => VDict []
  end.

Definition us_field (l : dict) (f : string) : value :=
  match py_truediv (field_ns l f) (VInt 1000) with
  | Ok v => v
  | Raise _ => VNone
  end.

Definition io_record (s : dict) : value :=
  VDict [("iops", get_or s "iops" (VInt 0));
         ("bw_bytes", get_or s "bw_bytes" (VInt 0));
         ("bw_kbps", get_or s "bw_kbps" (VInt 0));
         ("latency_ns", VDict [("min", get_or (lat_of s) "min" (VInt 0));
                               ("max", get_or (lat_of s) "max" (VInt 0));
                               ("mean", get_or (lat_of s) "mean" (VInt 0))]);
         ("percentiles", percentiles_of s);
         ("latency_us", VDict [("min", us_field (lat_of s) "min");
                               ("max", us_field (lat_of s) "max");
                               ("mean", us_field (lat_of s) "mean")])].

Definition cpu_of (jd : dict) : value :=
  match py_add (get_or jd "usr_cpu" (VInt 0)) (get_or jd "sys_cpu" (VInt 0)) with
  | Ok v => v
  | Raise _ => VNone
  end.

Definition job_record (job : value) : value :=
  match job with
  | VDict jd =>
      VDict [("read", io_record (side_of jd "read"));
             ("write", io_record (side_of jd "write"));
             ("cpu", cpu_of jd)]
  | _ => VNone
  end.

Definition job_key (job : value) : string :=
  match jobname_of job with
  | VStr n => n
  | _ => EmptyString
  end.

Definition stored (jobs : list value) (res : dict) : dict :=
  fold_left (fun acc job => dict_set (job_key job) (job_record job) acc)
            jobs res.

(** The metadata fields a result starts with. *)
Definition metadata (now : string) (test_name : value) (d : dict) : dict :=
  [("timestamp", VStr now);
   ("test_name", test_name);
   ("global_options", get_or d "global options" (VDict []))].

(** Every numeric field that is missing in [job] is zero in the sub-record
    [rec], and a missing percentile table is an empty mapping. *)
Definition zero_filled (job rec : value) : Prop :=
  (forall side f,
      In side sides -> In f ["iops"; "bw_bytes"; "bw_kbps"] ->
      at_path job [side; f] = None ->
      at_path rec [side; f] = Some (VInt 0))
  /\ (forall side f,
         In side sides -> In f latency_fields ->
         at_path job [side; "lat_ns"; f] = None ->
         at_path rec [side; "latency_ns"; f] = Some (VInt 0)
         /\ at_path rec [side; "latency_us"; f] = Some (VFloat float_zero))
  /\ (forall side,
         In side sides ->
         at_path job [side; "clat_ns"; "percentile"] = None ->
         at_path rec [side; "percentiles"] = Some (VDict []))
  /\ (at_path job ["usr_cpu"] = None -> at_path job ["sys_cpu"] = None ->
      at_path rec ["cpu"] = Some (VInt 0)).

(** The p95 entries of the metrics [jm] of a job are the values found under
    the key [95.000000] of the percentile tables of its sub-record [jd]
    (the integer zero where the key is absent), divided by 1000 as Python
    divides: the float 0.0 where the key is absent. *)
Definition p95_looked_up (jd jm : value) : Prop :=
  exists pr pw xr xw,
    at_path jd ["read"; "percentiles"] = Some (VDict pr)
    /\ at_path jd ["write"; "percentiles"] = Some (VDict pw)
    /\ py_truediv (get_or pr "95.000000" (VInt 0)) (VInt 1000)
       = Ok (VFloat xr)
    /\ py_truediv (get_or pw "95.000000" (VInt 0)) (VInt 1000)
       = Ok (VFloat xw)
    /\ at_path jm ["read_latency_us_p95"] = Some (VFloat xr)
    /\ at_path jm ["write_latency_us_p95"] = Some (VFloat xw)
    /\ (assoc "95.000000" pr = None -> xr = float_zero)
    /\ (assoc "95.000000" pw = None -> xw = float_zero).

(** ** Further example data *)

(** A tool that completes and prints text that is not JSON. *)
Definition garbled_world : world :=
  {| subprocess_run := fun _ _ _ => Completed 0 "fio: error" EmptyString;
     now_isoformat := fun _ => "2024-01-01T00:00:00";
     now_strftime := fun _ => "20240101_000000";
     json_loads := fun _ => None;
     float_repr := fun _ => "0.0";
     iso_ok := fun _ => true;
     sleep_refused := fun _ => None |}.

Definition example_monitor : monitor := new_monitor (VList [example_config]).

(** The example document normalized for a test of the given name. *)
Definition example_result (name : string) : value :=
  match process_fio_results "2024-01-01T00:00:00" (VStr name) example_doc with
  | Ok r => r
  | Raise _ => VNone
  end.

Definition named_config (name : string) : value :=
  VDict [("name", VStr name); ("parameters", VDict [("runtime", VInt 10)])].

(** A monitor configured for the tests A and B after three runs of A. *)
Definition monitor_3A : monitor :=
  {| configs := VList [named_config "A"; named_config "B"];
     history := [example_result "A"; example_result "A"; example_result "A"];
     disk := []; clock := 3%nat; launched := [] |}.

(** A job that reports nothing but its read IOPS. *)
Definition sparse_job : value :=
  VDict [("jobname", VStr "j1"); ("read", VDict [("iops", VInt 7)])].

Definition sparse_doc : value := VDict [("jobs", VList [sparse_job])].

(** A job whose name is that of a metadata field. *)
Definition clash_job : value :=
  VDict [("jobname", VStr "timestamp"); ("read", VDict [("iops", VInt 7)])].

Definition clash_doc : value := VDict [("jobs", VList [clash_job])].

(** A latency summary without a maximum. *)
Definition partial_latency : dict :=
  [("min", VInt 1000); ("mean", VFloat (float_of_int 2500))].

(** A latency summary whose minimum is beyond the range of a double. *)
Definition huge_latency : dict :=
  [("min", VInt (10 ^ 400)); ("max", VInt 5000); ("mean", VInt 2000)].

(** ** Loading the configuration, creating the monitor *)

(** What a path names in the file system: nothing, something [open] cannot
    read (a directory, a file without permission), or a text file. *)
Inductive fs_entry : Type :=
| NoEntry
| NotReadable
| FileText (text : string).

(** The configurations [load_configs] returns when it reads no file. *)
Definition default_configs : value :=
  VList [VDict [("name", VStr "pgsql_8k_60r_40w_QD32");
                ("parameters",
                 VDict [("ioengine", VStr "libaio");
                        ("direct", VInt 1);
                        ("rw", VStr "randrw");
                        ("rwmixread", VInt 60);
                        ("bs", VStr "8k");
                        ("iodepth", VInt 32);
                        ("size", VStr "1G");
                        ("runtime", VInt 120);
                        ("filename", VStr "/dev/vdb");
                        ("output-format", VStr "json")])]].

(** [load_configs]; [config_file] is [None] or a path, [fs] tells what a
    path names.  [os.path.exists] holds for every entry, [open] raises on
    one that cannot be read. *)
Definition load_configs (w : world) (fs : string -> fs_entry)
  (config_file : option string) : result value :=
  match config_file with
  | Some path =>
      if negb (String.eqb path EmptyString) then
        match fs path with
        | FileText text => loads w text
        | NotReadable => Raise OSError
        | NoEntry => Ok default_configs
        end
      else Ok default_configs
  | None => Ok default_configs
  end.

(** [FIOMonitor.__init__] on an output directory that holds the files
    [d]: the configurations are loaded and the history starts empty. *)
Definition FIOMonitor_init (w : world) (fs : string -> fs_entry)
  (config_file : option string) (d : list (string * value))
  : result monitor :=
  (cfgs <- load_configs w fs config_file ;;
   Ok {| configs := cfgs; history := []; disk := d; clock := O;
         launched := [] |})%py.

(** [main] with [--cycles] given ([--single-run] or the periodic loop). *)
Definition main (w : world) (fs : string -> fs_entry)
  (config_file : option string) (d : list (string * value))
  (single : bool) (interval cycles : Z) : result (result unit * monitor) :=
  (monitor <- FIOMonitor_init w fs config_file d ;;
   Ok (if single then
         match single_run w monitor with
         | (Ok _, m') => (Ok tt, m')
         | (Raise e, m') => (Raise e, m')
         end
       else run_monitoring_cycle w interval cycles monitor))%py.

(** ** Vocabulary of the further statements *)

(** The history file, once the history is not empty, holds the history. *)
Definition synced (m : monitor) : Prop :=
  history m = [] \/ read_file history_file (disk m) = Some (VList (history m)).

(** From [m] to [m'] the configurations stay, the history is extended by
    at most [b] results, none of them empty, and the history file stays in
    step. *)
Definition grows_by (b : nat) (m m' : monitor) : Prop :=
  configs m' = configs m
  /\ (exists new, history m' = history m ++ new
                  /\ Forall (fun r => truthy r = true) new
                  /\ (List.length new <= b)%nat)
  /\ (synced m -> synced m').

(** The number of configured tests. *)
Definition config_count (m : monitor) : nat :=
  match py_iter (configs m) with
  | Ok cs => List.length cs
  | Raise _ => O
  end.

(** From [m] to [m'] only the clock and the list of launched processes
    change, the latter by at most one launch. *)
Definition only_launches (m m' : monitor) : Prop :=
  configs m' = configs m
  /\ history m' = history m
  /\ disk m' = disk m
  /\ (clock m <= clock m')%nat
  /\ (launched m' = launched m
      \/ exists call, launched m' = launched m ++ [call]).

(** An interval, in minutes, after which the loop goes on: the duration is
    not negative and the platform does not refuse it. *)
Definition can_sleep (w : world) (interval_minutes : Z) : bool :=
  (0 <=? interval_minutes * 60)
  && match sleep_refused w (interval_minutes * 60) with
     | None => true
     | Some _ => false
     end.

(** The tool never ends with exit code 0 and a JSON document on its
    output. *)
Definition always_fails (w : world) : Prop :=
  forall t args timeout rc out err,
    subprocess_run w t args timeout = Completed rc out err ->
    rc <> 0 \/ json_loads w out = None.

(** The name of the per-run file [save_results] writes at time [t]. *)
Definition run_file (w : world) (t : nat) : string :=
  ("fio_results_" ++ now_strftime w t ++ ".json")%string.

(** The number of job sub-records of a stored result. *)
Definition job_count (r : value) : nat :=
  match r with
  | VDict d =>
      List.length (filter (fun kv => negb (is_metadata (fst kv))) d)
  | _ => O
  end.

(** A stored result the analyzer can turn into rows: a result the report
    generator can read whose timestamp is an ISO text and which has a test
    name. *)
Definition row_ready (w : world) (r : value) : bool :=
  reportable r
  && match at_path r ["timestamp"] with
     | Some (VStr s) => iso_ok w s
     | _ => false
     end
  && match at_path r ["test_name"] with
     | Some _ => true
     | None => false
     end.

(** The six metrics the report and the analyzer's table both carry, under
    the names of the report and under the names of the table. *)
Definition metric_names : list (string * string) :=
  [("read_iops", "read_iops");
   ("write_iops", "write_iops");
   ("read_latency_us_p95", "read_latency_p95_us");
   ("write_latency_us_p95", "write_latency_p95_us");
   ("read_bandwidth_kbps", "read_bw_kbps");
   ("write_bandwidth_kbps", "write_bw_kbps")].

(** The value found, or zero. *)
Definition or_zero (o : option value) : value :=
  match o with
  | Some v => v
  | None => VInt 0
  end.

(** Every field that is present in [job] is found unchanged in the
    sub-record [rec]; in [rec] each microsecond latency is Python's
    quotient of the nanosecond latency by 1000 (for an integer latency the
    double nearest to the exact quotient) and the CPU usage is Python's sum
    of the user and system usage of [job] (exact when both are
    integers). *)
Definition fields_kept (job rec : value) : Prop :=
  (forall side f v,
      In side sides -> In f ["iops"; "bw_bytes"; "bw_kbps"] ->
      at_path job [side; f] = Some v ->
      at_path rec [side; f] = Some v)
  /\ (forall side f v,
         In side sides -> In f latency_fields ->
         at_path job [side; "lat_ns"; f] = Some v ->
         at_path rec [side; "latency_ns"; f] = Some v)
  /\ (forall side p,
         In side sides ->
         at_path job [side; "clat_ns"; "percentile"] = Some p ->
         at_path rec [side; "percentiles"] = Some p)
  /\ (forall side f,
         In side sides -> In f latency_fields ->
         exists ns x,
           at_path rec [side; "latency_ns"; f] = Some ns
           /\ at_path rec [side; "latency_us"; f] = Some (VFloat x)
           /\ py_truediv ns (VInt 1000) = Ok (VFloat x)
           /\ (forall n, ns = VInt n -> x = int_quotient n 1000))
  /\ (exists cv,
         at_path rec ["cpu"] = Some cv
         /\ is_number cv = true
         /\ py_add (or_zero (at_path job ["usr_cpu"]))
                   (or_zero (at_path job ["sys_cpu"])) = Ok cv
         /\ (forall a b,
               or_zero (at_path job ["usr_cpu"]) = VInt a ->
               or_zero (at_path job ["sys_cpu"]) = VInt b ->
               cv = VInt (a + b))).



(** The path given to [load_configs] names no file: there is no path, the
    path is empty, or nothing has this path. *)
Definition names_no_file (fs : string -> fs_entry) (config_file : option string)
  : Prop :=
  match config_file with
  | None => True
  | Some path => path = EmptyString \/ fs path = NoEntry
  end.

(** The command line of the built-in configuration. *)
Definition default_command : list string :=
  ["fio"; "--name"; "pgsql_8k_60r_40w_QD32";
   "--ioengine"; "libaio"; "--direct"; "1"; "--rw"; "randrw";
   "--rwmixread"; "60"; "--bs"; "8k"; "--iodepth"; "32"; "--size"; "1G";
   "--runtime"; "120"; "--filename"; "/dev/vdb";
   "--output-format"; "json"].

(** ** Example data of the further statements *)

(** A tool that prints the example document and ends with exit code 1. *)
Definition nonzero_world : world :=
  {| subprocess_run := fun _ _ _ => Completed 1 "stub" "fio: failed";
     now_isoformat := fun _ => "2024-01-01T00:00:00";
     now_strftime := fun _ => "20240101_000000";
     json_loads := fun s => if String.eqb s "stub" then Some example_doc else None;
     float_repr := fun _ => "0.0";
     iso_ok := fun _ => true;
     sleep_refused := fun _ => None |}.

(** A configuration without a name, one whose runtime is a text, one
    without a runtime. *)
Definition nameless_config : value :=
  VDict [("parameters", VDict [("runtime", VInt 10)])].

Definition text_runtime_config : value :=
  VDict [("name", VStr "t1"); ("parameters", VDict [("runtime", VStr "60s")])].

Definition no_runtime_config : value :=
  VDict [("name", VStr "t1"); ("parameters", VDict [("bs", VStr "8k")])].

(** The entries of the example result, and its job with the metrics of
    the report. *)
Definition example_entries : dict :=
  match example_result "t1" with
  | VDict d => d
  | _ => []
  end.

Definition example_job_data : value :=
  match at_path (example_result "t1") ["j1"] with
  | Some jd => jd
  | None => VNone
  end.

Definition example_job_metrics : value :=
  match job_metrics example_job_data with
  | Ok jm => jm
  | Raise _ => VNone
  end.

(** An output directory that holds the history of an earlier run. *)
Definition old_disk : list (string * value) :=
  [(history_file, VList [example_result "old"; example_result "old"])].

Definition restarted_monitor : monitor :=
  {| configs := default_configs; history := []; disk := old_disk;
     clock := O; launched := [] |}.

(** A document whose percentile table is a list, and the result the
    normalizer gives for it. *)
Definition odd_doc : value :=
  VDict [("jobs",
          VList [VDict [("jobname", VStr "j1");
                        ("read",
                         VDict [("clat_ns",
                                 VDict [("percentile", VList [])])])]])].

Definition odd_result : value :=
  match process_fio_results "2024-01-01T00:00:00" (VStr "t1") odd_doc with
  | Ok r => r
  | Raise _ => VNone
  end.

Definition odd_monitor : monitor :=
  {| configs := VList [example_config]; history := [odd_result];
     disk := [(history_file, VList [odd_result])]; clock := 2%nat;
     launched := [] |}.

(** * Properties *)

(** ** Dictionaries *)

Lemma assoc_dict_set_same (k : string) (v : value) (d : dict) :
  assoc k (dict_set k v d) = Some v.
Proof.
  induction d as [|[k' v'] d IH]; simpl.
  - now rewrite String.eqb_refl.
  - destruct (String.eqb k k') eqn:E; simpl; rewrite E; auto.
Qed.

Lemma assoc_dict_set_other (k k' : string) (v : value) (d : dict) :
  k <> k' -> assoc k (dict_set k' v d) = assoc k d.
Proof.
  intros Hne. induction d as [|[k0 v0] d IH]; simpl.
  - destruct (String.eqb k k') eqn:E; auto.
    apply String.eqb_eq in E. contradiction.
  - destruct (String.eqb k' k0) eqn:E; simpl.
    + apply String.eqb_eq in E. subst k0.
      destruct (String.eqb k k') eqn:E'; auto.
      apply String.eqb_eq in E'. contradiction.
    + now rewrite IH.
Qed.

Lemma assoc_In (k : string) (v : value) (d : dict) :
  assoc k d = Some v -> In (k, v) d.
Proof.
  induction d as [|[k' v'] d IH]; simpl; [discriminate|].
  destruct (String.eqb k k') eqn:E.
  - apply String.eqb_eq in E. intros [= ->]. subst. now left.
  - intros H. right. auto.
Qed.

Lemma assoc_None_notin (k : string) (d : dict) :
  assoc k d = None <-> ~ In k (keys d).
Proof.
  induction d as [|[k' v'] d IH]; simpl.
  - tauto.
  - destruct (String.eqb k k') eqn:E.
    + apply String.eqb_eq in E. subst. split; [discriminate | intros H; exfalso; auto].
    + apply String.eqb_neq in E. rewrite IH. split.
      * intros H [H1|H1]; [congruence | auto].
      * intros H H1. apply H. now right.
Qed.

Lemma dict_set_fresh (k : string) (v : value) (d : dict) :
  assoc k d = None -> dict_set k v d = d ++ [(k, v)].
Proof.
  induction d as [|[k' v'] d IH]; simpl; auto.
  destruct (String.eqb k k'); [discriminate|].
  intros H. now rewrite IH.
Qed.

Lemma keys_dict_set (k : string) (v : value) (d : dict) :
  keys (dict_set k v d) =
  if has_key d k then keys d else keys d ++ [k].
Proof.
  unfold has_key. induction d as [|[k' v'] d IH]; simpl; auto.
  destruct (String.eqb k k') eqn:E; simpl; auto.
  rewrite IH. destruct (assoc k d); auto.
Qed.

Lemma dict_set_NoDup (k : string) (v : value) (d : dict) :
  NoDup (keys d) -> NoDup (keys (dict_set k v d)).
Proof.
  intros H. rewrite keys_dict_set. unfold has_key.
  destruct (assoc k d) eqn:E; auto.
  apply assoc_None_notin in E.
  apply NoDup_app; auto.
  - constructor; [simpl; tauto | constructor].
  - intros x Hx [Hk|[]]. subst. auto.
Qed.

Lemma py_get_dict (d : dict) (k : string) (dflt : value) :
  py_get (VDict d) k dflt = Ok (get_or d k dflt).
Proof. reflexivity. Qed.

Ltac step_get := repeat (rewrite py_get_dict; cbn [rbind]).

(** ** The range of a double *)

(** The conversion of an integer to a float and the quotient of two
    integers are finite when the integer, or the dividend, is below
    [2 ^ 1023] in magnitude: the rounding of [binary_round_aux] leaves the
    exponent within the range. *)

Lemma digits2_size (p : positive) : digits2_pos p = Pos.size p.
Proof. induction p; simpl; congruence. Qed.

Lemma Zdigits2_log2 (m : Z) : 0 < m -> Zdigits2 m = Z.log2 m + 1.
Proof.
  destruct m as [|p|p]; try lia. intros _. simpl. rewrite digits2_size.
  destruct p; simpl; lia.
Qed.

Lemma Zdigits2_nonneg (m : Z) : 0 <= Zdigits2 m.
Proof. destruct m; simpl; lia. Qed.

Lemma Zdigits2_le (a b : Z) : 0 <= a <= b -> Zdigits2 a <= Zdigits2 b.
Proof.
  intros H. destruct (Z.eq_dec a 0) as [->|Ha].
  - apply Zdigits2_nonneg.
  - rewrite !Zdigits2_log2 by lia.
    pose proof (Z.log2_le_mono a b). lia.
Qed.

Lemma Zdigits2_succ (m : Z) : 0 <= m -> Zdigits2 (m + 1) <= Zdigits2 m + 1.
Proof.
  intros H. destruct (Z.eq_dec m 0) as [->|Hm]; [simpl; lia|].
  rewrite !Zdigits2_log2 by lia.
  pose proof (Z.log2_succ_le m). unfold Z.succ in *. lia.
Qed.

Lemma Zdigits2_div_pow2 (m n : Z) :
  0 <= m -> 0 <= n -> Zdigits2 (m / 2 ^ n) <= Z.max (Zdigits2 m - n) 0.
Proof.
  intros Hm Hn.
  assert (Hq : 0 <= m / 2 ^ n) by (apply Z.div_pos; [lia | apply Z.pow_pos_nonneg; lia]).
  destruct (Z.eq_dec (m / 2 ^ n) 0) as [E|E]; [rewrite E; simpl; lia|].
  assert (Hm0 : 0 < m).
  { destruct (Z.eq_dec m 0) as [->|]; [|lia]. rewrite Z.div_0_l in E; [lia|].
    apply Z.pow_nonzero; lia. }
  assert (Hge : n <= Z.log2 m).
  { apply Z.log2_le_pow2; [lia|].
    destruct (Z_lt_le_dec m (2 ^ n)) as [Hlt|]; [|assumption].
    rewrite Z.div_small in E by lia. lia. }
  rewrite !Zdigits2_log2 by lia.
  rewrite <- Z.shiftr_div_pow2 by lia.
  rewrite Z.log2_shiftr by lia. lia.
Qed.

Lemma Zdigits2_mul_pow2 (m s : Z) :
  0 < m -> 0 <= s -> Zdigits2 (m * 2 ^ s) = Zdigits2 m + s.
Proof.
  intros Hm Hs.
  assert (0 < 2 ^ s) by (apply Z.pow_pos_nonneg; lia).
  rewrite !Zdigits2_log2 by nia.
  rewrite Z.log2_mul_pow2 by lia. lia.
Qed.

Lemma shr_1_m (mrs : shr_record) :
  0 <= shr_m mrs -> shr_m (shr_1 mrs) = shr_m mrs / 2.
Proof.
  destruct mrs as [m r s]. simpl. intros H.
  destruct m as [|[p|p|]|p]; try lia; simpl.
  - reflexivity.
  - rewrite Pos2Z.inj_xI.
    apply Z.div_unique with (r := 1); lia.
  - rewrite Pos2Z.inj_xO.
    apply Z.div_unique with (r := 0); lia.
  - reflexivity.
Qed.

Lemma iter_shr_1_m (p : positive) :
  forall mrs, 0 <= shr_m mrs ->
    shr_m (iter_pos shr_1 p mrs) = shr_m mrs / 2 ^ Zpos p.
Proof.
  assert (Hpos : forall q, 0 < 2 ^ Zpos q) by (intros; apply Z.pow_pos_nonneg; lia).
  assert (Hnn : forall m q, 0 <= m -> 0 <= m / 2 ^ Zpos q)
    by (intros; apply Z.div_pos; auto).
  assert (Hdd : forall a b c, 0 < b -> 0 < c -> a / b / c = a / (b * c))
    by (intros; apply Z.div_div; lia).
  induction p as [p IH|p IH|]; intros mrs H; cbn [iter_pos].
  - assert (H1 : 0 <= shr_m (shr_1 mrs))
      by (rewrite shr_1_m by assumption; apply Z.div_pos; lia).
    rewrite IH; rewrite IH; try assumption.
    + rewrite shr_1_m by assumption.
      rewrite !Hdd by (try lia; apply Hpos).
      f_equal.
      replace (Zpos p~1) with (1 + Zpos p + Zpos p) by lia.
      rewrite !Z.pow_add_r by lia. change (2 ^ 1) with 2. lia.
    + now apply Hnn.
  - rewrite IH; rewrite IH; try assumption.
    + rewrite !Hdd by apply Hpos.
      f_equal.
      replace (Zpos p~0) with (Zpos p + Zpos p) by lia.
      now rewrite Z.pow_add_r by lia.
    + now apply Hnn.
  - now apply shr_1_m.
Qed.

Lemma shr_record_of_loc_m (m : Z) (l : location) :
  shr_m (shr_record_of_loc m l) = m.
Proof. destruct l as [|[]]; reflexivity. Qed.

(** One shift to the exponent [fexp]: the mantissa stays non-negative, and
    magnitude and exponent stay below the bounds. *)
Lemma shr_fexp_bound (m e : Z) (l : location) (D : Z) :
  0 <= m -> Zdigits2 m + e <= D -> 0 <= D <= 1024 -> e <= 971 ->
  let '(mrs, e') := shr_fexp prec emax m e l in
  0 <= shr_m mrs /\ Zdigits2 (shr_m mrs) + e' <= D /\ e' <= 971.
Proof.
  intros Hm Hd HD He. unfold shr_fexp, shr.
  set (n := fexp prec emax (Zdigits2 m + e) - e).
  assert (Hn : n = Z.max (Zdigits2 m + e - 53) (-1074) - e) by reflexivity.
  destruct n as [|p|p] eqn:En.
  - rewrite shr_record_of_loc_m. auto.
  - rewrite iter_shr_1_m by (rewrite shr_record_of_loc_m; assumption).
    rewrite shr_record_of_loc_m.
    split; [apply Z.div_pos; [lia | apply Z.pow_pos_nonneg; lia]|].
    pose proof (Zdigits2_div_pow2 m (Zpos p) Hm ltac:(lia)).
    pose proof (Zdigits2_nonneg m). lia.
  - rewrite shr_record_of_loc_m. auto.
Qed.

Lemma round_nearest_even_bound (m : Z) (l : location) :
  0 <= m ->
  0 <= round_nearest_even m l
  /\ Zdigits2 (round_nearest_even m l) <= Zdigits2 m + 1.
Proof.
  intros H. pose proof (Zdigits2_succ m H).
  destruct l as [|[]]; simpl; try (split; lia).
  destruct (Z.even m); split; lia.
Qed.

Lemma binary_round_aux_finite (s : bool) (mx ex : Z) (lx : location) :
  0 <= mx -> Zdigits2 mx + ex <= 1023 -> ex <= 971 ->
  is_finite (binary_round_aux prec emax s mx ex lx) = true.
Proof.
  intros Hm Hd He. unfold binary_round_aux.
  pose proof (shr_fexp_bound mx ex lx 1023 Hm Hd ltac:(lia) He) as H1.
  destruct (shr_fexp prec emax mx ex lx) as [mrs' e'].
  destruct H1 as (H1 & H2 & H3).
  destruct (round_nearest_even_bound (shr_m mrs') (loc_of_shr_record mrs') H1)
    as [R1 R2].
  pose proof (shr_fexp_bound _ e' loc_Exact 1024 R1 ltac:(lia) ltac:(lia) H3)
    as H4.
  destruct (shr_fexp prec emax _ e' loc_Exact) as [mrs'' e''].
  destruct H4 as (H4 & H5 & H6).
  destruct (shr_m mrs'') as [|m|m]; [reflexivity | | lia].
  replace (e'' <=? emax - prec) with true; [reflexivity|].
  symmetry. apply Z.leb_le. unfold emax, prec. lia.
Qed.

Lemma iter_xO (p d : positive) : Zpos (Pos.iter xO p d) = Zpos p * 2 ^ Zpos d.
Proof.
  induction d as [|d IH] using Pos.peano_ind.
  - simpl. lia.
  - rewrite Pos.iter_succ, Pos2Z.inj_xO, IH, Pos2Z.inj_succ, Z.pow_succ_r; lia.
Qed.

(** An integer below [2 ^ 1023] in magnitude is converted to a finite
    float. *)
Lemma float_of_int_finite (n : Z) :
  Z.abs n < 2 ^ 1023 -> is_finite (float_of_int n) = true.
Proof.
  intros H. unfold float_of_int, binary_normalize.
  assert (Hp : forall s p, Zpos p < 2 ^ 1023 ->
                 is_finite (binary_round prec emax s p 0) = true).
  { intros s p Hlt. unfold binary_round, shl_align.
    assert (Hdig : Zdigits2 (Zpos p) <= 1023).
    { rewrite Zdigits2_log2 by lia.
      assert (Z.log2 (Zpos p) < 1023) by (apply Z.log2_lt_pow2; lia). lia. }
    clear H Hlt.
    set (ex' := fexp prec emax (Zpos (digits2_pos p) + 0)).
    destruct (ex' - 0) as [|d|d] eqn:Ed.
    - apply binary_round_aux_finite; lia.
    - apply binary_round_aux_finite; lia.
    - apply binary_round_aux_finite; [lia | | lia].
      rewrite iter_xO, Zdigits2_mul_pow2 by lia. lia. }
  destruct n as [|p|p]; [reflexivity | apply Hp; lia | apply Hp; lia].
Qed.

(** The quotient of an integer below [2 ^ 1023] in magnitude by an integer
    that is not zero is a finite float. *)
Lemma int_quotient_finite (a b : Z) :
  b <> 0 -> Z.abs a < 2 ^ 1023 -> is_finite (int_quotient a b) = true.
Proof.
  intros Hb Ha. unfold int_quotient.
  assert (Hp : forall s p q, Zpos p < 2 ^ 1023 ->
            is_finite (let '(mz, ez, lz) :=
                         SFdiv_core_binary prec emax (Zpos p) 0 (Zpos q) 0 in
                       binary_round_aux prec emax s mz ez lz) = true).
  { intros s p q Hlt. unfold SFdiv_core_binary.
    assert (Hdig : Zdigits2 (Zpos p) <= 1023).
    { rewrite Zdigits2_log2 by lia.
      assert (Z.log2 (Zpos p) < 1023) by (apply Z.log2_lt_pow2; lia). lia. }
    clear Ha Hlt.
    set (e' := Z.min (fexp prec emax (Zdigits2 (Zpos p) + 0
                                      - (Zdigits2 (Zpos q) + 0))) (0 - 0)).
    assert (He : e' <= 0) by (unfold e'; lia).
    clearbody e'.
    set (m' := match 0 - 0 - e' with
               | Zpos _ => Z.shiftl (Zpos p) (0 - 0 - e')
               | Z0 => Zpos p
               | Zneg _ => 0
               end).
    assert (Hm' : 0 <= m' /\ Zdigits2 m' + e' <= 1023).
    { unfold m'. destruct (0 - 0 - e') as [|k|k] eqn:Ek; [lia | | lia].
      rewrite Z.shiftl_mul_pow2 by lia.
      assert (0 < 2 ^ Zpos k) by (apply Z.pow_pos_nonneg; lia).
      split; [nia|]. rewrite Zdigits2_mul_pow2 by lia. lia. }
    destruct Hm' as [Hm0 Hm1]. clearbody m'.
    pose proof (Z_div_mod m' (Zpos q) ltac:(lia)) as Hdm.
    destruct (Z.div_eucl m' (Zpos q)) as [qq r].
    destruct Hdm as [Heq Hr].
    assert (Hq0 : 0 <= qq) by nia.
    assert (Hqle : qq <= m') by nia.
    apply binary_round_aux_finite; [assumption | | lia].
    pose proof (Zdigits2_le qq m' ltac:(lia)). lia. }
  destruct a as [|p|p]; destruct b as [|q|q]; try contradiction;
    try reflexivity; cbn [exact_int SFdiv]; apply Hp; lia.
Qed.

(** ** Arithmetic on values *)

Lemma in_double_range_ready (v : value) :
  in_double_range v = true -> us_ready v = true /\ float_ready v = true.
Proof.
  destruct v as [|b|n|x| | |]; try discriminate; auto.
  cbn [in_double_range us_ready float_ready]. intros H.
  apply Z.ltb_lt in H. split.
  - apply int_quotient_finite; [discriminate | exact H].
  - apply float_of_int_finite. exact H.
Qed.

Lemma to_float_1000 : to_float (VInt 1000) = Ok (float_of_int 1000).
Proof. reflexivity. Qed.

Lemma float_1000_not_zero : is_zero (float_of_int 1000) = false.
Proof. reflexivity. Qed.

Lemma truediv_1000_int (n : Z) :
  py_truediv (VInt n) (VInt 1000) =
  if is_finite (int_quotient n 1000) then Ok (VFloat (int_quotient n 1000))
  else Raise OverflowError.
Proof. reflexivity. Qed.

Lemma truediv_1000_float (x : spec_float) :
  py_truediv (VFloat x) (VInt 1000)
  = Ok (VFloat (SFdiv prec emax x (float_of_int 1000))).
Proof.
  unfold py_truediv. cbn [int_of is_number andb].
  rewrite to_float_1000. cbn [to_float rbind].
  now rewrite float_1000_not_zero.
Qed.

Lemma truediv_1000_bool (b : bool) :
  py_truediv (VBool b) (VInt 1000)
  = Ok (VFloat (int_quotient (if b then 1 else 0) 1000)).
Proof. now destruct b. Qed.

Lemma truediv_zero : py_truediv (VInt 0) (VInt 1000) = Ok (VFloat float_zero).
Proof. reflexivity. Qed.

(** A number is divided by 1000 without an exception exactly when it is
    within the range: the one exception that can occur is
    [OverflowError]. *)
Lemma truediv_1000 (v : value) :
  us_ready v = true -> exists x, py_truediv v (VInt 1000) = Ok (VFloat x).
Proof.
  destruct v as [|b|n|x|s|l|d]; try discriminate; intros H.
  - rewrite truediv_1000_bool. eauto.
  - rewrite truediv_1000_int. unfold us_ready in H. rewrite H. eauto.
  - rewrite truediv_1000_float. eauto.
Qed.

Lemma truediv_1000_overflow (v : value) :
  is_number v = true -> us_ready v = false ->
  py_truediv v (VInt 1000) = Raise OverflowError.
Proof.
  destruct v as [|b|n|x|s|l|d]; try discriminate; intros _ H.
  rewrite truediv_1000_int. unfold us_ready in H. now rewrite H.
Qed.

Lemma float_ready_number (v : value) :
  float_ready v = true -> is_number v = true.
Proof.
  destruct v; auto.
Qed.

(** ** The normalizer's latency conversion *)

Lemma convert_latency_to_us_eq (d : dict) (a b c : value) :
  py_truediv (field_ns d "min") (VInt 1000) = Ok a ->
  py_truediv (field_ns d "max") (VInt 1000) = Ok b ->
  py_truediv (field_ns d "mean") (VInt 1000) = Ok c ->
  convert_latency_to_us (VDict d) =
  Ok (VDict [("min", a); ("max", b); ("mean", c)]).
Proof.
  unfold field_ns, convert_latency_to_us. intros Ha Hb Hc.
  step_get. rewrite Ha. step_get. rewrite Hb. step_get. now rewrite Hc.
Qed.

Lemma us_value_spec (d : dict) (f : string) (x : spec_float) :
  py_truediv (field_ns d f) (VInt 1000) = Ok (VFloat x) ->
  (forall n, field_ns d f = VInt n -> x = int_quotient n 1000)
  /\ (forall y, field_ns d f = VFloat y ->
                x = SFdiv prec emax y (float_of_int 1000))
  /\ (assoc f d = None -> x = float_zero).
Proof.
  intros H. split; [|split].
  - intros n E. rewrite E, truediv_1000_int in H.
    destruct (is_finite (int_quotient n 1000)); now inversion H.
  - intros y E. rewrite E, truediv_1000_float in H. now inversion H.
  - intros E. unfold field_ns, get_or in H. rewrite E, truediv_zero in H.
    now inversion H.
Qed.

(** C2, amended.  For a latency summary whose fields min, max and mean are
    each absent or a number that can be divided by 1000,
    [convert_latency_to_us] returns, for each of the three fields on its
    own, Python's quotient of the nanosecond value of that field (the
    integer zero when the field is absent) by 1000: for an integer [n] the
    double nearest to [n / 1000], for a float the IEEE quotient by the float
    1000.0, and the float 0.0 for an absent field.  No sign condition is
    needed.  Every float and every integer below [2 ^ 1023] in magnitude
    can be divided by 1000.  When the fields are numbers and one of them
    cannot (an integer whose thousandth is beyond the range of a double),
    the conversion raises [OverflowError] and gives no value at all. *)
Theorem C2_latency_us (d : dict) :
  ((forall f, In f latency_fields -> us_ready (field_ns d f) = true) ->
   exists us,
     convert_latency_to_us (VDict d) = Ok (VDict us)
     /\ keys us = latency_fields
     /\ forall f, In f latency_fields ->
          exists x,
            assoc f us = Some (VFloat x)
            /\ py_truediv (field_ns d f) (VInt 1000) = Ok (VFloat x)
            /\ (forall n, field_ns d f = VInt n -> x = int_quotient n 1000)
            /\ (forall y, field_ns d f = VFloat y ->
                          x = SFdiv prec emax y (float_of_int 1000))
            /\ (assoc f d = None -> x = float_zero))
  /\ (forall f, in_double_range (field_ns d f) = true ->
                us_ready (field_ns d f) = true)
  /\ ((forall f, In f latency_fields -> is_number (field_ns d f) = true) ->
      (exists f, In f latency_fields /\ us_ready (field_ns d f) = false) ->
      convert_latency_to_us (VDict d) = Raise OverflowError).
Proof.
  split; [|split].
  - intros H.
    destruct (truediv_1000 _ (H "min" ltac:(simpl; auto))) as [a Ha].
    destruct (truediv_1000 _ (H "max" ltac:(simpl; auto))) as [b Hb].
    destruct (truediv_1000 _ (H "mean" ltac:(simpl; auto))) as [c Hc].
    eexists. split; [apply (convert_latency_to_us_eq d _ _ _ Ha Hb Hc)|].
    split; [reflexivity|].
    intros f [<-|[<-|[<-|[]]]].
    + exists a. split; [reflexivity|]. split; [exact Ha|].
      apply us_value_spec, Ha.
    + exists b. split; [reflexivity|]. split; [exact Hb|].
      apply us_value_spec, Hb.
    + exists c. split; [reflexivity|]. split; [exact Hc|].
      apply us_value_spec, Hc.
  - intros f H. now apply in_double_range_ready.
  - intros N (f & Hf & Hr).
    assert (Nmin := N "min" ltac:(simpl; auto)).
    assert (Nmax := N "max" ltac:(simpl; auto)).
    assert (Nmean := N "mean" ltac:(simpl; auto)).
    unfold convert_latency_to_us. step_get. fold (field_ns d "min").
    destruct (us_ready (field_ns d "min")) eqn:Rmin;
      [| now rewrite (truediv_1000_overflow _ Nmin Rmin)].
    destruct (truediv_1000 _ Rmin) as [a ->]. step_get.
    fold (field_ns d "max").
    destruct (us_ready (field_ns d "max")) eqn:Rmax;
      [| now rewrite (truediv_1000_overflow _ Nmax Rmax)].
    destruct (truediv_1000 _ Rmax) as [b ->]. step_get.
    fold (field_ns d "mean").
    destruct (us_ready (field_ns d "mean")) eqn:Rmean;
      [| now rewrite (truediv_1000_overflow _ Nmean Rmean)].
    exfalso. destruct Hf as [<-|[<-|[<-|[]]]]; congruence.
Qed.

(** ** Jobs: none *)

(** C8.  A document whose jobs list is empty is normalized to a result that
    holds the three metadata fields (the timestamp, the test name and the
    echoed global options) and nothing else. *)
Theorem C8_no_jobs (now : string) (test_name : value) (d : dict) :
  assoc "jobs" d = Some (VList []) ->
  process_fio_results now test_name (VDict d) =
  Ok (VDict [("timestamp", VStr now);
             ("test_name", test_name);
             ("global_options", get_or d "global options" (VDict []))]).
Proof.
  intros H. unfold process_fio_results, py_get, get_or. simpl.
  rewrite H. reflexivity.
Qed.

(** ** The command line *)

Lemma py_str_scalar (w : world) (v : value) :
  is_scalar v = true -> py_str w v = Ok (str_of w v).
Proof.
  unfold str_of. destruct v; simpl; try reflexivity; discriminate.
Qed.

Lemma add_flags_spec (w : world) (items : dict) :
  forallb (fun kv => is_scalar (snd kv)) items = true ->
  forall cmd : list value,
    add_flags w items cmd =
    Ok (cmd ++ map VStr (flat_map (flag_strings w) (flag_pairs items))).
Proof.
  induction items as [|[k v] items IH]; simpl; intros H cmd.
  - now rewrite app_nil_r.
  - apply andb_true_iff in H. destruct H as [Hv Hrest].
    destruct (String.eqb k "name"); simpl.
    + now apply IH.
    + rewrite (py_str_scalar w v Hv). simpl.
      rewrite (IH Hrest). now rewrite <- app_assoc.
Qed.

Lemma valid_config_inv (c : value) :
  valid_config c = true ->
  exists cd name ps,
    c = VDict cd
    /\ assoc "name" cd = Some (VStr name)
    /\ assoc "parameters" cd = Some (VDict ps)
    /\ forallb (fun kv => is_scalar (snd kv)) ps = true.
Proof.
  destruct c as [| | | | |l|cd]; simpl; try discriminate.
  destruct (assoc "name" cd) as [[| | | |name| |]|] eqn:Hn; try discriminate.
  destruct (assoc "parameters" cd) as [[| | | | | |ps]|] eqn:Hp;
    try discriminate.
  intros H. exists cd, name, ps. repeat split; auto.
Qed.

Lemma flag_pairs_In (ps : dict) (kv : string * value) :
  In kv (flag_pairs ps) <-> In kv ps /\ fst kv <> "name".
Proof.
  unfold flag_pairs. rewrite filter_In, negb_true_iff.
  now rewrite String.eqb_neq.
Qed.

(** C4.  For a valid TestConfig the command line built by [run_fio_test] is
    the tool name, [--name] and the test name, followed by one pair
    [--<key> <str(value)>] for each parameter whose key is not [name], in
    the order of the parameter mapping; the pairs are those of
    [flag_pairs], which keeps exactly the parameters whose key is not
    [name], each once and in order. *)
Theorem C4_command_line (w : world) (c : value) :
  valid_config c = true ->
  exists name ps,
    py_getitem c "name" = Ok (VStr name)
    /\ py_getitem c "parameters" = Ok (VDict ps)
    /\ fio_command w (VStr name) ps =
       Ok (map VStr ("fio" :: "--name" :: name
                     :: flat_map (flag_strings w) (flag_pairs ps)))
    /\ (forall kv, In kv (flag_pairs ps) <-> In kv ps /\ fst kv <> "name")
    /\ (exists skipped, Forall (fun kv => fst kv = "name") skipped
                        /\ Permutation ps (flag_pairs ps ++ skipped))
    /\ List.length (flat_map (flag_strings w) (flag_pairs ps))
       = (2 * List.length (flag_pairs ps))%nat.
Proof.
  intros H.
  destruct (valid_config_inv c H) as (cd & name & ps & -> & Hn & Hp & Hs).
  exists name, ps. unfold py_getitem. rewrite Hn, Hp.
  split; [reflexivity|]. split; [reflexivity|].
  split; [|split; [|split]].
  - unfold fio_command.
    apply (add_flags_spec w ps Hs [VStr "fio"; VStr "--name"; VStr name]).
  - intros kv. apply flag_pairs_In.
  - exists (filter (fun kv => negb (negb (String.eqb (fst kv) "name"))) ps).
    split.
    + apply Forall_forall. intros kv Hin. apply filter_In in Hin.
      destruct Hin as [_ Hk]. rewrite negb_involutive in Hk.
      now apply String.eqb_eq.
    + unfold flag_pairs. clear. induction ps as [|kv ps IH]; simpl.
      * constructor.
      * destruct (String.eqb (fst kv) "name"); simpl.
        -- apply Permutation_cons_app. exact IH.
        -- now constructor.
  - clear. induction (flag_pairs ps) as [|kv l IH]; simpl; auto.
    rewrite IH. lia.
Qed.

(** ** Launching the tool *)

Lemma strings_of_map (l : list string) : strings_of (map VStr l) = Some l.
Proof.
  induction l as [|s l IH]; simpl; auto. now rewrite IH.
Qed.

(** What [run_fio_test] does for a valid TestConfig: the command is built
    and the body of the [try] statement runs under its handlers. *)
Lemma run_fio_test_valid (w : world) (cd : dict) (name : string) (ps : dict)
  (m : monitor) :
  assoc "name" cd = Some (VStr name) ->
  assoc "parameters" cd = Some (VDict ps) ->
  forallb (fun kv => is_scalar (snd kv)) ps = true ->
  run_fio_test w (VDict cd) m =
  match py_add (get_or ps "runtime" (VInt 120)) (VInt 30) with
  | Raise OutsideModel => (Raise OutsideModel, m)
  | Raise _ => (Ok VNone, m)
  | Ok timeout =>
      let args := command_line w name ps in
      let m' := launch m args timeout in
      match subprocess_run w (clock m) args timeout with
      | Completed rc out _ =>
          if negb (rc =? 0) then (Ok VNone, m')
          else
            match json_loads w out with
            | None => (Ok VNone, m')
            | Some doc =>
                match process_fio_results (now_isoformat w (clock m'))
                        (VStr name) doc with
                | Ok res => (Ok res, tick m')
                | Raise OutsideModel => (Raise OutsideModel, tick m')
                | Raise _ => (Ok VNone, tick m')
                end
            end
      | Expired | Failed => (Ok VNone, m')
      end
  end.
Proof.
  intros Hn Hp Hs.
  unfold run_fio_test, sbind, lift, py_getitem, py_items. rewrite Hn, Hp.
  unfold fio_command.
  rewrite (add_flags_spec w ps Hs [VStr "fio"; VStr "--name"; VStr name]).
  change ([VStr "fio"; VStr "--name"; VStr name]
          ++ map VStr (flat_map (flag_strings w) (flag_pairs ps)))
    with (map VStr (command_line w name ps)).
  unfold try_except, py_get. fold (get_or ps "runtime" (VInt 120)).
  destruct (py_add (get_or ps "runtime" (VInt 120)) (VInt 30)) as [t|e].
  - unfold run_subprocess. rewrite strings_of_map.
    destruct (subprocess_run w (clock m) (command_line w name ps) t)
      as [rc out err| |]; try reflexivity.
    destruct (negb (rc =? 0)); [reflexivity|].
    unfold loads, sret, isoformat_now.
    destruct (json_loads w out) as [doc|]; [|reflexivity].
    destruct (process_fio_results _ (VStr name) doc) as [res|[]]; reflexivity.
  - destruct e; reflexivity.
Qed.

Lemma run_fio_test_launch (w : world) (cd : dict) (name : string) (ps : dict)
  (t : value) (m : monitor) :
  assoc "name" cd = Some (VStr name) ->
  assoc "parameters" cd = Some (VDict ps) ->
  forallb (fun kv => is_scalar (snd kv)) ps = true ->
  py_add (get_or ps "runtime" (VInt 120)) (VInt 30) = Ok t ->
  launched (snd (run_fio_test w (VDict cd) m))
  = launched m ++ [(command_line w name ps, t)].
Proof.
  intros Hn Hp Hs Ht.
  rewrite (run_fio_test_valid w cd name ps m Hn Hp Hs), Ht. cbv zeta.
  destruct (subprocess_run w (clock m) (command_line w name ps) t)
    as [rc out err| |]; try reflexivity.
  destruct (negb (rc =? 0)); [reflexivity|].
  destruct (json_loads w out) as [doc|]; [|reflexivity].
  destruct (process_fio_results _ (VStr name) doc) as [res|[]]; reflexivity.
Qed.

(** The sum of two values raises nothing but [TypeError] and, where an
    integer is beyond the range of a double, [OverflowError]. *)
Lemma py_add_raises (a b : value) (e : exn) :
  py_add a b = Raise e -> e = TypeError \/ e = OverflowError.
Proof.
  unfold py_add.
  destruct (int_of a), (int_of b); try discriminate.
  all: destruct (is_number a && is_number b);
    [ destruct (to_float a) as [x|ea] eqn:Ea; cbn [rbind];
      [ destruct (to_float b) as [y|eb] eqn:Eb; cbn [rbind];
        [ discriminate
        | intros [= <-]; destruct b; cbn [to_float] in Eb;
          try discriminate; try (inversion Eb; auto; fail);
          destruct (is_finite (float_of_int _)); inversion Eb; auto ]
      | intros [= <-]; destruct a; cbn [to_float] in Ea;
        try discriminate; try (inversion Ea; auto; fail);
        destruct (is_finite (float_of_int _)); inversion Ea; auto ]
    | destruct a, b; intros [= <-]; auto ].
Qed.

(** The runtime plus 30: exact for an integer, the IEEE sum with the float
    30.0 for a float. *)
Lemma py_add_30 (r : value) :
  is_number r = true ->
  exists t,
    py_add r (VInt 30) = Ok t
    /\ is_number t = true
    /\ (forall n, r = VInt n -> t = VInt (n + 30))
    /\ (forall x, r = VFloat x ->
                  t = VFloat (SFadd prec emax x (float_of_int 30))).
Proof.
  destruct r as [|b|n|x| | |]; try discriminate; intros _.
  - exists (VInt ((if b then 1 else 0) + 30)).
    repeat split; intros; discriminate.
  - exists (VInt (n + 30)). repeat split; [|intros; discriminate].
    now intros n' [= ->].
  - exists (VFloat (SFadd prec emax x (float_of_int 30))).
    repeat split; [intros; discriminate|]. now intros x' [= ->].
Qed.

(** C9, amended.  For a valid TestConfig whose runtime parameter is a
    number, [run_fio_test] launches the tool once, with the command line of
    the configuration and with a timeout that is Python's sum of the runtime
    parameter and 30: the integer [n + 30] for an integer runtime [n], the
    IEEE sum with the float 30.0 for a float runtime.  When the
    configuration has no runtime parameter, the runtime is taken as 120 and
    the timeout is 150. *)
Theorem C9_timeout (w : world) (c : value) (m : monitor) :
  valid_config c = true ->
  exists name ps,
    at_path c ["name"] = Some (VStr name)
    /\ at_path c ["parameters"] = Some (VDict ps)
    /\ (forall r,
          at_path c ["parameters"; "runtime"] = Some r ->
          is_number r = true ->
          exists t,
            py_add r (VInt 30) = Ok t
            /\ launched (snd (run_fio_test w c m))
               = launched m ++ [(command_line w name ps, t)]
            /\ (forall n, r = VInt n -> t = VInt (n + 30))
            /\ (forall x, r = VFloat x ->
                          t = VFloat (SFadd prec emax x (float_of_int 30))))
    /\ (at_path c ["parameters"; "runtime"] = None ->
        launched (snd (run_fio_test w c m))
        = launched m ++ [(command_line w name ps, VInt 150)]).
Proof.
  intros H.
  destruct (valid_config_inv c H) as (cd & name & ps & -> & Hn & Hp & Hs).
  exists name, ps. simpl. rewrite Hn, Hp.
  split; [reflexivity|]. split; [reflexivity|]. split.
  - intros r Hr Hnum.
    destruct (assoc "runtime" ps) as [r'|] eqn:Er; [|discriminate].
    injection Hr as ->.
    destruct (py_add_30 r Hnum) as (t & Ht & _ & Hi & Hf).
    exists t. split; [exact Ht|]. split; [|split; assumption].
    apply (run_fio_test_launch w cd name ps t m Hn Hp Hs).
    unfold get_or. now rewrite Er.
  - intros Hr.
    apply (run_fio_test_launch w cd name ps (VInt 150) m Hn Hp Hs).
    unfold get_or. destruct (assoc "runtime" ps); [discriminate | reflexivity].
Qed.

(** ** A test that fails *)

(** C5.  When the standard output of the tool launched for a valid
    TestConfig is not a JSON document, [run_fio_test] returns [None]
    without raising and leaves the history and the files as they were, and
    the loop over the configured tests goes on with the tests that
    remain. *)
Theorem C5_malformed_output (w : world) (c : value) (rest : list value)
  (m : monitor) :
  valid_config c = true ->
  malformed_at w (clock m) ->
  exists m',
    run_fio_test w c m = (Ok VNone, m')
    /\ history m' = history m
    /\ disk m' = disk m
    /\ configs m' = configs m
    /\ run_tests w (c :: rest) m = run_tests w rest m'.
Proof.
  intros H Hbad.
  destruct (valid_config_inv c H) as (cd & name & ps & -> & Hn & Hp & Hs).
  assert (Hrun : exists m',
             run_fio_test w (VDict cd) m = (Ok VNone, m')
             /\ history m' = history m /\ disk m' = disk m
             /\ configs m' = configs m).
  { rewrite (run_fio_test_valid w cd name ps m Hn Hp Hs).
    destruct (py_add (get_or ps "runtime" (VInt 120)) (VInt 30)) as [t|e] eqn:Ht.
    - cbv zeta. exists (launch m (command_line w name ps) t).
      destruct (subprocess_run w (clock m) (command_line w name ps) t)
        as [rc out err| |] eqn:Eo; auto.
      rewrite (Hbad _ _ _ _ _ Eo). destruct (negb (rc =? 0)); auto.
    - exists m. destruct (py_add_raises _ _ _ Ht) as [-> | ->]; auto. }
  destruct Hrun as (m' & Hrun & Hh & Hd & Hc).
  exists m'. repeat split; auto.
  simpl. unfold sbind at 1. rewrite Hrun. reflexivity.
Qed.

(** ** The history store *)

Lemma save_results_truthy (w : world) (r : value) (m : monitor) :
  truthy r = true ->
  save_results w r m =
  (Ok tt,
   {| configs := configs m;
      history := history m ++ [r];
      disk := (history_file, VList (history m ++ [r]))
              :: (("fio_results_" ++ now_strftime w (clock m) ++ ".json")%string, r)
              :: disk m;
      clock := S (clock m);
      launched := launched m |}).
Proof.
  intros H. unfold save_results. rewrite H. reflexivity.
Qed.

Lemma save_results_falsy (w : world) (r : value) (m : monitor) :
  truthy r = false -> save_results w r m = (Ok tt, m).
Proof.
  intros H. unfold save_results. now rewrite H.
Qed.

Lemma save_all_app (w : world) (rs1 rs2 : list value) (m m1 : monitor) :
  save_all w rs1 m = (Ok tt, m1) ->
  save_all w (rs1 ++ rs2) m = save_all w rs2 m1.
Proof.
  revert m. induction rs1 as [|r rs1 IH]; simpl; intros m H.
  - now inversion H.
  - unfold sbind in *. destruct (save_results w r m) as [[[]|e] m0].
    + now apply IH.
    + discriminate.
Qed.

Lemma save_all_truthy (w : world) (rs : list value) (m : monitor) :
  Forall (fun r => truthy r = true) rs ->
  exists m',
    save_all w rs m = (Ok tt, m')
    /\ history m' = history m ++ rs
    /\ (rs <> [] ->
        read_file history_file (disk m') = Some (VList (history m'))).
Proof.
  intros H. revert m. induction H as [|r rs Hr Hrs IH]; intros m.
  - exists m. simpl. rewrite app_nil_r. repeat split; auto. congruence.
  - simpl. unfold sbind. rewrite (save_results_truthy w r m Hr).
    match goal with |- context [save_all w rs ?m0] =>
      destruct (IH m0) as (m' & Hrun & Hh & Hf) end.
    exists m'. simpl in Hh. split; [exact Hrun|].
    split; [now rewrite Hh, <- app_assoc|].
    intros _. destruct rs as [|r' rs'].
    + simpl in Hrun. inversion Hrun. subst m'. reflexivity.
    + apply Hf. discriminate.
Qed.

Lemma Forall_prefix {A} (P : A -> Prop) (k : nat) (l : list A) :
  Forall P l -> Forall P (firstn k l).
Proof.
  intros H. revert k. induction H; intros [|k]; simpl; auto.
Qed.

(** C1.  Results that are not empty are handed to the history store one
    after the other.  After the [k]-th call of [save_results] the history in
    memory is the earlier history followed by the first [k] results in the
    order they were handed over, the history file holds exactly that list
    (so [k] results when the store started empty), and the analyzer's
    [load_history] reads the same list back; the calls that remain go on
    from there.  A further [save_history] writes the same list again, also
    when no result was handed over. *)
Theorem C1_history_persisted (w : world) (rs : list value) (m : monitor) :
  Forall (fun r => truthy r = true) rs ->
  (forall k, (1 <= k <= List.length rs)%nat ->
     exists mk,
       save_all w (firstn k rs) m = (Ok tt, mk)
       /\ history mk = history m ++ firstn k rs
       /\ List.length (history mk) = (List.length (history m) + k)%nat
       /\ read_file history_file (disk mk) = Some (VList (history mk))
       /\ load_history (disk mk) = VList (history mk)
       /\ save_all w rs m = save_all w (skipn k rs) mk)
  /\ exists m' m'',
       save_all w rs m = (Ok tt, m')
       /\ history m' = history m ++ rs
       /\ save_history m' = (Ok tt, m'')
       /\ history m'' = history m'
       /\ load_history (disk m'') = VList (history m ++ rs).
Proof.
  intros H. split.
  - intros k Hk.
    assert (Hpre : Forall (fun r => truthy r = true) (firstn k rs))
      by (now apply Forall_prefix).
    destruct (save_all_truthy w (firstn k rs) m Hpre) as (mk & Hrun & Hh & Hf).
    assert (Hne : firstn k rs <> []).
    { destruct k as [|k]; [lia|]. destruct rs; simpl in *; [lia | discriminate]. }
    specialize (Hf Hne).
    exists mk. split; [exact Hrun|]. split; [exact Hh|].
    split; [rewrite Hh, length_app, firstn_length_le; lia|].
    split; [exact Hf|].
    split; [unfold load_history; now rewrite Hf|].
    rewrite <- (firstn_skipn k rs) at 1.
    now apply save_all_app.
  - destruct (save_all_truthy w rs m H) as (m' & Hrun & Hh & _).
    eexists m', _. split; [exact Hrun|]. split; [exact Hh|].
    split; [reflexivity|]. split; [reflexivity|].
    unfold load_history. simpl. now rewrite Hh.
Qed.

(** ** The normalizer on documents of the tool's schema *)

Lemma absent_or_inv (p : value -> bool) (d : dict) (k : string) (v : value) :
  absent_or p d k = true -> assoc k d = Some v -> p v = true.
Proof.
  unfold absent_or. intros H E. now rewrite E in H.
Qed.

Lemma lat_ok_fields (l : dict) (f : string) :
  lat_ok (VDict l) = true -> In f latency_fields ->
  us_ready (field_ns l f) = true.
Proof.
  simpl. intros H Hf. apply andb_true_iff in H. destruct H as [H Hmean].
  apply andb_true_iff in H. destruct H as [Hmin Hmax].
  assert (Hk : absent_or in_double_range l f = true)
    by (destruct Hf as [<-|[<-|[<-|[]]]]; assumption).
  unfold field_ns, get_or. unfold absent_or in Hk.
  destruct (assoc f l) as [v|]; [|reflexivity].
  now apply in_double_range_ready.
Qed.

Lemma lat_of_ok (s : dict) :
  absent_or lat_ok s "lat_ns" = true ->
  get_or s "lat_ns" (VDict []) = VDict (lat_of s)
  /\ lat_ok (VDict (lat_of s)) = true.
Proof.
  unfold absent_or, get_or, lat_of.
  destruct (assoc "lat_ns" s) as [[| | | | | |l]|]; simpl; try discriminate;
    auto.
Qed.

Lemma percentiles_of_ok (s : dict) :
  absent_or clat_ok s "clat_ns" = true ->
  exists c,
    get_or s "clat_ns" (VDict []) = VDict c
    /\ get_or c "percentile" (VDict []) = percentiles_of s
    /\ percentile_ok (percentiles_of s) = true.
Proof.
  unfold absent_or, get_or, percentiles_of.
  destruct (assoc "clat_ns" s) as [[| | | | | |c]|]; simpl; try discriminate.
  - intros H. exists c. repeat split. unfold absent_or in H. unfold get_or.
    destruct (assoc "percentile" c); auto.
  - intros _. exists []. auto.
Qed.

Lemma io_stats_ok (s : dict) :
  stats_ok (VDict s) = true -> io_stats (VDict s) = Ok (io_record s).
Proof.
  simpl. intros H. apply andb_true_iff in H. destruct H as [H Hclat].
  apply andb_true_iff in H. destruct H as [_ Hlat].
  destruct (lat_of_ok s Hlat) as [El Hl].
  destruct (percentiles_of_ok s Hclat) as (c & Ec & Ep & _).
  destruct (truediv_1000 _ (lat_ok_fields _ "min" Hl ltac:(simpl; auto)))
    as [a Ha].
  destruct (truediv_1000 _ (lat_ok_fields _ "max" Hl ltac:(simpl; auto)))
    as [b Hb].
  destruct (truediv_1000 _ (lat_ok_fields _ "mean" Hl ltac:(simpl; auto 6)))
    as [c' Hc].
  unfold io_stats. step_get. rewrite El, Ec. step_get. rewrite Ep.
  rewrite (convert_latency_to_us_eq _ _ _ _ Ha Hb Hc). cbn [rbind].
  unfold io_record, us_field. rewrite Ha, Hb, Hc. reflexivity.
Qed.

Lemma side_of_ok (jd : dict) (side : string) :
  absent_or stats_ok jd side = true ->
  get_or jd side (VDict []) = VDict (side_of jd side)
  /\ stats_ok (VDict (side_of jd side)) = true.
Proof.
  unfold absent_or, get_or, side_of.
  destruct (assoc side jd) as [[| | | | | |s]|]; simpl; try discriminate; auto.
Qed.

Lemma to_float_ready (v : value) :
  float_ready v = true -> exists x, to_float v = Ok x.
Proof.
  destruct v as [|b|n|x| | |]; try discriminate; cbn [float_ready to_float];
    intros H; [eauto | rewrite H; eauto | eauto].
Qed.

(** Two numbers within the range of a double have a sum. *)
Lemma py_add_numbers (a b : value) :
  float_ready a = true -> float_ready b = true ->
  exists v, py_add a b = Ok v /\ is_number v = true.
Proof.
  intros Ha Hb. unfold py_add.
  destruct (int_of a), (int_of b); eauto.
  all: rewrite (float_ready_number a Ha), (float_ready_number b Hb);
    cbn [andb];
    destruct (to_float_ready a Ha) as [x ->];
    destruct (to_float_ready b Hb) as [y ->]; cbn [rbind]; eauto.
Qed.

Lemma get_or_number (d : dict) (k : string) :
  absent_or in_double_range d k = true ->
  float_ready (get_or d k (VInt 0)) = true.
Proof.
  unfold absent_or, get_or. destruct (assoc k d); [|reflexivity].
  intros H. now apply in_double_range_ready.
Qed.

Lemma jobname_of_ok (jd : dict) :
  absent_or is_string jd "jobname" = true ->
  jobname_of (VDict jd) = VStr (job_key (VDict jd)).
Proof.
  unfold job_key, jobname_of, absent_or, get_or.
  destruct (assoc "jobname" jd) as [[]|]; simpl; try discriminate; auto.
Qed.

Lemma job_ok_inv (job : value) :
  job_ok job = true ->
  exists jd,
    job = VDict jd
    /\ absent_or is_string jd "jobname" = true
    /\ absent_or stats_ok jd "read" = true
    /\ absent_or stats_ok jd "write" = true
    /\ absent_or in_double_range jd "usr_cpu" = true
    /\ absent_or in_double_range jd "sys_cpu" = true.
Proof.
  destruct job as [| | | | | |jd]; simpl; try discriminate.
  intros H. repeat (apply andb_true_iff in H; destruct H as [H ?]).
  exists jd. repeat split; assumption.
Qed.

Lemma job_results_ok (job : value) :
  job_ok job = true ->
  job_results job = Ok (VStr (job_key job), job_record job).
Proof.
  intros H. destruct (job_ok_inv job H) as (jd & -> & Hn & Hr & Hw & Hu & Hs).
  destruct (side_of_ok jd "read" Hr) as [Er Sr].
  destruct (side_of_ok jd "write" Hw) as [Ew Sw].
  destruct (py_add_numbers _ _ (get_or_number jd "usr_cpu" Hu)
              (get_or_number jd "sys_cpu" Hs)) as (cpu & Hcpu & _).
  unfold job_results. step_get. rewrite Er, Ew.
  rewrite (io_stats_ok _ Sr), (io_stats_ok _ Sw). cbn [rbind].
  rewrite Hcpu. cbn [rbind].
  fold (jobname_of (VDict jd)). rewrite (jobname_of_ok jd Hn).
  unfold job_record, cpu_of. now rewrite Hcpu.
Qed.

Lemma store_jobs_ok (jobs : list value) :
  Forall (fun j => job_ok j = true) jobs ->
  forall res, store_jobs jobs res = Ok (stored jobs res).
Proof.
  induction 1 as [|job jobs Hj _ IH]; intros res; simpl; auto.
  rewrite (job_results_ok job Hj). simpl. apply IH.
Qed.

Lemma conforms_inv (doc : value) :
  conforms doc = true ->
  exists d,
    doc = VDict d
    /\ get_or d "jobs" (VList []) = VList (jobs_of doc)
    /\ Forall (fun j => job_ok j = true) (jobs_of doc).
Proof.
  destruct doc as [| | | | | |d]; simpl; try discriminate.
  unfold absent_or, get_or. intros H. exists d. split; auto.
  destruct (assoc "jobs" d) as [[| | | | |l|]|]; simpl in *; try discriminate.
  - split; auto. apply Forall_forall. intros j Hin.
    rewrite forallb_forall in H. auto.
  - split; auto.
Qed.

Lemma process_fio_results_ok (now : string) (test_name doc : value) :
  conforms doc = true ->
  exists d,
    doc = VDict d
    /\ process_fio_results now test_name doc
       = Ok (VDict (stored (jobs_of doc) (metadata now test_name d))).
Proof.
  intros H. destruct (conforms_inv doc H) as (d & -> & Ej & Hjobs).
  exists d. split; auto.
  unfold process_fio_results. step_get. rewrite Ej. cbn [py_iter rbind].
  rewrite (store_jobs_ok _ Hjobs). reflexivity.
Qed.

(** *** What is stored under a job's name *)

Lemma stored_app (pre post : list value) (res : dict) :
  stored (pre ++ post) res = stored post (stored pre res).
Proof.
  unfold stored. apply fold_left_app.
Qed.

Lemma stored_keeps (k : string) (v : value) (post : list value) :
  Forall (fun j => job_key j <> k) post ->
  forall res, assoc k res = Some v -> assoc k (stored post res) = Some v.
Proof.
  induction 1 as [|j post Hj _ IH]; intros res Hk; simpl; auto.
  apply IH. rewrite assoc_dict_set_other; auto.
Qed.

Lemma stored_lookup (pre post : list value) (job : value) (res : dict) :
  Forall (fun j => job_key j <> job_key job) post ->
  assoc (job_key job) (stored (pre ++ job :: post) res)
  = Some (job_record job).
Proof.
  intros H. rewrite stored_app. simpl.
  apply stored_keeps; auto. apply assoc_dict_set_same.
Qed.

Lemma stored_NoDup (jobs : list value) (res : dict) :
  NoDup (keys res) -> NoDup (keys (stored jobs res)).
Proof.
  revert res. induction jobs as [|j jobs IH]; intros res H; simpl; auto.
  apply IH. now apply dict_set_NoDup.
Qed.

Lemma stored_has_key (k : string) (jobs : list value) (res : dict) :
  has_key res k = true -> has_key (stored jobs res) k = true.
Proof.
  revert res. induction jobs as [|j jobs IH]; intros res H; simpl; auto.
  apply IH. unfold has_key in *.
  destruct (String.eqb k (job_key j)) eqn:E.
  - apply String.eqb_eq in E. subst. now rewrite assoc_dict_set_same.
  - apply String.eqb_neq in E. now rewrite assoc_dict_set_other.
Qed.

(** *** Missing fields *)

Lemma at_path_field (s : dict) (f : string) :
  at_path (VDict s) [f] = assoc f s.
Proof.
  simpl. now destruct (assoc f s).
Qed.

Lemma at_path_side (jd : dict) (side f : string) (p : list string) :
  absent_or stats_ok jd side = true ->
  at_path (VDict jd) (side :: f :: p)
  = at_path (VDict (side_of jd side)) (f :: p).
Proof.
  unfold absent_or, side_of. cbn [at_path].
  destruct (assoc side jd) as [[| | | | | |s]|]; simpl; try discriminate; auto.
Qed.

Lemma at_path_lat (s : dict) (f : string) :
  absent_or lat_ok s "lat_ns" = true ->
  at_path (VDict s) ["lat_ns"; f] = assoc f (lat_of s).
Proof.
  unfold absent_or, lat_of. cbn [at_path].
  destruct (assoc "lat_ns" s) as [[| | | | | |l]|]; simpl; try discriminate;
    auto.
  now destruct (assoc f l).
Qed.

Lemma job_record_side (jd : dict) (side : string) (p : list string) :
  In side sides ->
  at_path (job_record (VDict jd)) (side :: p)
  = at_path (io_record (side_of jd side)) p.
Proof.
  intros [<-|[<-|[]]]; reflexivity.
Qed.

Lemma us_field_absent (l : dict) (f : string) :
  assoc f l = None -> us_field l f = VFloat float_zero.
Proof.
  unfold us_field, field_ns, get_or. now intros ->.
Qed.

Lemma stats_ok_inv (s : dict) :
  stats_ok (VDict s) = true ->
  absent_or lat_ok s "lat_ns" = true /\ absent_or clat_ok s "clat_ns" = true.
Proof.
  simpl. intros H. apply andb_true_iff in H. destruct H as [H Hclat].
  apply andb_true_iff in H. destruct H as [_ Hlat]. auto.
Qed.

Lemma io_record_zero (s : dict) :
  stats_ok (VDict s) = true ->
  (forall f, In f ["iops"; "bw_bytes"; "bw_kbps"] ->
     assoc f s = None -> at_path (io_record s) [f] = Some (VInt 0))
  /\ (forall f, In f latency_fields ->
        at_path (VDict s) ["lat_ns"; f] = None ->
        at_path (io_record s) ["latency_ns"; f] = Some (VInt 0)
        /\ at_path (io_record s) ["latency_us"; f]
           = Some (VFloat float_zero))
  /\ (at_path (VDict s) ["clat_ns"; "percentile"] = None ->
      at_path (io_record s) ["percentiles"] = Some (VDict [])).
Proof.
  intros H. destruct (stats_ok_inv s H) as [Hlat Hclat].
  split; [|split].
  - intros f Hf Hn.
    assert (E : at_path (io_record s) [f] = Some (get_or s f (VInt 0)))
      by (destruct Hf as [<-|[<-|[<-|[]]]]; reflexivity).
    rewrite E. unfold get_or. now rewrite Hn.
  - intros f Hf Hn. rewrite (at_path_lat s f Hlat) in Hn.
    assert (E1 : at_path (io_record s) ["latency_ns"; f]
                 = Some (get_or (lat_of s) f (VInt 0)))
      by (destruct Hf as [<-|[<-|[<-|[]]]]; reflexivity).
    assert (E2 : at_path (io_record s) ["latency_us"; f]
                 = Some (us_field (lat_of s) f))
      by (destruct Hf as [<-|[<-|[<-|[]]]]; reflexivity).
    rewrite E1, E2, (us_field_absent _ _ Hn). unfold get_or.
    now rewrite Hn.
  - intros Hn.
    change (at_path (io_record s) ["percentiles"])
      with (Some (percentiles_of s)).
    f_equal. unfold percentiles_of, get_or. cbn [at_path] in Hn.
    destruct (assoc "clat_ns" s) as [[| | | | | |c]|]; auto.
    destruct (assoc "percentile" c); [discriminate | reflexivity].
Qed.

Lemma job_record_zero (job : value) :
  job_ok job = true -> zero_filled job (job_record job).
Proof.
  intros H. destruct (job_ok_inv job H) as (jd & -> & Hn & Hr & Hw & Hu & Hs).
  assert (Hside : forall side, In side sides ->
                    absent_or stats_ok jd side = true)
    by (intros side [<-|[<-|[]]]; assumption).
  split; [|split; [|split]].
  - intros side f Hin Hf Hnone.
    rewrite (at_path_side jd side f [] (Hside side Hin)) in Hnone.
    rewrite at_path_field in Hnone.
    rewrite (job_record_side jd side [f] Hin).
    destruct (side_of_ok jd side (Hside side Hin)) as [_ Sok].
    now apply (io_record_zero _ Sok).
  - intros side f Hin Hf Hnone.
    rewrite (at_path_side jd side "lat_ns" [f] (Hside side Hin)) in Hnone.
    rewrite !(job_record_side jd side _ Hin).
    destruct (side_of_ok jd side (Hside side Hin)) as [_ Sok].
    now apply (io_record_zero _ Sok).
  - intros side Hin Hnone.
    rewrite (at_path_side jd side "clat_ns" ["percentile"] (Hside side Hin))
      in Hnone.
    rewrite (job_record_side jd side _ Hin).
    destruct (side_of_ok jd side (Hside side Hin)) as [_ Sok].
    now apply (io_record_zero _ Sok).
  - rewrite !at_path_field. intros Hu0 Hs0.
    change (at_path (job_record (VDict jd)) ["cpu"]) with (Some (cpu_of jd)).
    unfold cpu_of, get_or. now rewrite Hu0, Hs0.
Qed.

Lemma job_key_differs (j job : value) :
  job_ok j = true -> job_ok job = true ->
  jobname_of j <> jobname_of job -> job_key j <> job_key job.
Proof.
  intros Hj Hjob Hne E. apply Hne.
  destruct (job_ok_inv j Hj) as (jd & -> & Hn & _).
  destruct (job_ok_inv job Hjob) as (jd' & -> & Hn' & _).
  rewrite (jobname_of_ok jd Hn), (jobname_of_ok jd' Hn'). now rewrite E.
Qed.

(** What the normalizer stores for a job that no later job of the document
    overwrites. *)
Lemma stored_job (now : string) (test_name doc : value)
  (pre post : list value) (job : value) :
  conforms doc = true ->
  jobs_of doc = pre ++ job :: post ->
  Forall (fun j => jobname_of j <> jobname_of job) post ->
  exists res,
    process_fio_results now test_name doc = Ok (VDict res)
    /\ job_ok job = true
    /\ jobname_of job = VStr (job_key job)
    /\ job_results job = Ok (VStr (job_key job), job_record job)
    /\ assoc (job_key job) res = Some (job_record job).
Proof.
  intros H Hsplit Hlast.
  destruct (process_fio_results_ok now test_name doc H) as (d & Ed & Hrun).
  destruct (conforms_inv doc H) as (d' & _ & _ & Hjobs).
  rewrite Hsplit in Hjobs. apply Forall_app in Hjobs.
  destruct Hjobs as [_ Hjobs]. inversion Hjobs as [|? ? Hjob Hpost]; subst.
  eexists. split; [exact Hrun|]. split; [exact Hjob|].
  destruct (job_ok_inv job Hjob) as (jd & Ejob & Hn & _).
  split; [rewrite Ejob; now apply jobname_of_ok|].
  split; [now apply job_results_ok|].
  rewrite Hsplit. apply stored_lookup.
  rewrite Forall_forall in *. intros j Hin.
  apply job_key_differs; auto.
Qed.

(** C7.  A document of the tool's schema, whatever fields it leaves out, is
    normalized without an exception (the schema takes the latencies and the
    CPU usages to be numbers within the range of a double; beyond it
    Python's arithmetic raises [OverflowError], see
    [huge_latency_overflows]).  For every job that no later job of
    the same name overwrites, the result holds the job's sub-record under
    the job's name, and in it every missing numeric field ([iops],
    [bw_bytes], [bw_kbps], the [lat_ns] sub-fields in nanoseconds and in
    microseconds, the combined CPU usage) is zero and a missing percentile
    table is an empty mapping. *)
Theorem C7_missing_fields_zero (now : string) (test_name doc : value) :
  conforms doc = true ->
  exists res,
    process_fio_results now test_name doc = Ok (VDict res)
    /\ forall pre job post,
         jobs_of doc = pre ++ job :: post ->
         Forall (fun j => jobname_of j <> jobname_of job) post ->
         exists n rec,
           job_results job = Ok (VStr n, rec)
           /\ assoc n res = Some rec
           /\ zero_filled job rec.
Proof.
  intros H.
  destruct (process_fio_results_ok now test_name doc H) as (d & Ed & Hrun).
  eexists. split; [exact Hrun|].
  intros pre job post Hsplit Hlast.
  destruct (stored_job now test_name doc pre post job H Hsplit Hlast)
    as (res & Hrun' & Hjob & _ & Hres & Hassoc).
  rewrite Hrun in Hrun'. injection Hrun' as <-.
  exists (job_key job), (job_record job).
  split; [exact Hres|]. split; [exact Hassoc|].
  now apply job_record_zero.
Qed.

(** ** Results the report generator can read *)

Lemma percentile_ok_p95 (v : value) :
  percentile_ok v = true ->
  exists p, v = VDict p /\ absent_or in_double_range p "95.000000" = true.
Proof.
  destruct v as [| | | | | |p]; simpl; try discriminate.
  intros H. exists p. split; auto. unfold absent_or.
  destruct (assoc "95.000000" p) as [x|] eqn:E; auto.
  apply assoc_In in E. rewrite forallb_forall in H. apply (H _ E).
Qed.

Lemma io_record_side_ok (s : dict) :
  stats_ok (VDict s) = true -> side_ok (io_record s) = true.
Proof.
  intros H. destruct (stats_ok_inv s H) as [_ Hclat].
  destruct (percentiles_of_ok s Hclat) as (c & _ & _ & Hp).
  destruct (percentile_ok_p95 _ Hp) as (p & Ep & Hp95).
  unfold side_ok, io_record, has_key. cbn [assoc String.eqb Ascii.eqb Bool.eqb].
  cbn. rewrite Ep. exact Hp95.
Qed.

Lemma job_record_ok (job : value) :
  job_ok job = true -> job_data_ok (job_record job) = true.
Proof.
  intros H. destruct (job_ok_inv job H) as (jd & -> & Hn & Hr & Hw & Hu & Hs).
  destruct (side_of_ok jd "read" Hr) as [_ Sr].
  destruct (side_of_ok jd "write" Hw) as [_ Sw].
  change (job_data_ok (job_record (VDict jd)))
    with (side_ok (io_record (side_of jd "read"))
          && side_ok (io_record (side_of jd "write"))).
  now rewrite (io_record_side_ok _ Sr), (io_record_side_ok _ Sw).
Qed.

Lemma dict_set_Forall (P : string * value -> Prop) (k : string) (v : value)
  (d : dict) :
  Forall P d -> P (k, v) -> Forall P (dict_set k v d).
Proof.
  intros H Hk. induction H as [|[k' v'] d Hx Hd IH]; simpl.
  - auto.
  - destruct (String.eqb k k') eqn:E.
    + apply String.eqb_eq in E. subst. now constructor.
    + now constructor.
Qed.

Lemma stored_entry_ok (jobs : list value) :
  Forall (fun j => job_ok j = true) jobs ->
  forall res,
    Forall (fun kv => entry_ok kv = true) res ->
    Forall (fun kv => entry_ok kv = true) (stored jobs res).
Proof.
  induction 1 as [|j jobs Hj _ IH]; intros res H; simpl; auto.
  apply IH. apply dict_set_Forall; auto.
  unfold entry_ok. simpl. rewrite (job_record_ok j Hj). apply orb_true_r.
Qed.

Lemma normalized_reportable (now : string) (test_name doc : value) :
  conforms doc = true ->
  exists res,
    process_fio_results now test_name doc = Ok (VDict res)
    /\ NoDup (keys res)
    /\ reportable (VDict res) = true.
Proof.
  intros H.
  destruct (process_fio_results_ok now test_name doc H) as (d & Ed & Hrun).
  destruct (conforms_inv doc H) as (d' & _ & _ & Hjobs).
  eexists. split; [exact Hrun|]. split.
  - apply stored_NoDup. simpl.
    repeat constructor; simpl; intuition discriminate.
  - simpl. apply andb_true_iff. split.
    + now apply stored_has_key.
    + apply forallb_forall. apply Forall_forall.
      apply stored_entry_ok; auto.
      repeat constructor.
Qed.

(** ** Key metrics *)

Lemma side_ok_inv (v : value) :
  side_ok v = true ->
  exists r iops bw p,
    v = VDict r
    /\ assoc "iops" r = Some iops
    /\ assoc "bw_kbps" r = Some bw
    /\ assoc "percentiles" r = Some (VDict p)
    /\ us_ready (get_or p "95.000000" (VInt 0)) = true.
Proof.
  destruct v as [| | | | | |r]; simpl; try discriminate.
  unfold has_key.
  destruct (assoc "iops" r) as [iops|] eqn:Hi; [|discriminate].
  destruct (assoc "bw_kbps" r) as [bw|] eqn:Hb; [|discriminate].
  destruct (assoc "percentiles" r) as [[| | | | | |p]|] eqn:Hp;
    try discriminate.
  simpl. intros H. exists r, iops, bw, p.
  repeat split; auto.
  unfold absent_or in H. unfold get_or.
  destruct (assoc "95.000000" p); [|reflexivity].
  now apply in_double_range_ready.
Qed.

Lemma job_metrics_ok (jd : value) :
  job_data_ok jd = true ->
  exists jm, job_metrics jd = Ok jm /\ p95_looked_up jd jm.
Proof.
  destruct jd as [| | | | | |d]; simpl; try discriminate.
  destruct (assoc "read" d) as [rd|] eqn:Hrd; [|discriminate].
  destruct (assoc "write" d) as [wr|] eqn:Hwr; [|discriminate].
  intros H. apply andb_true_iff in H. destruct H as [Hr Hw].
  destruct (side_ok_inv rd Hr) as (r & ri & rb & pr & -> & Hri & Hrb & Hrp & Hrn).
  destruct (side_ok_inv wr Hw) as (w' & wi & wb & pw & -> & Hwi & Hwb & Hwp & Hwn).
  destruct (truediv_1000 _ Hrn) as [xr Hxr].
  destruct (truediv_1000 _ Hwn) as [xw Hxw].
  eexists. split.
  - unfold job_metrics, py_getitem. rewrite Hrd, Hwr. cbn [rbind].
    rewrite Hri, Hwi, Hrp, Hwp, Hrb, Hwb. cbn [rbind]. step_get.
    rewrite Hxr. cbn [rbind]. step_get.
    rewrite Hxw. cbn [rbind]. reflexivity.
  - exists pr, pw, xr, xw. cbn [at_path]. rewrite Hrd, Hwr, Hrp, Hwp.
    repeat split; auto.
    + intros Hn. unfold get_or in Hxr. rewrite Hn, truediv_zero in Hxr.
      now injection Hxr as <-.
    + intros Hn. unfold get_or in Hxw. rewrite Hn, truediv_zero in Hxw.
      now injection Hxw as <-.
Qed.

Lemma is_metadata_keys (k : string) :
  is_metadata k = true <-> In k metadata_names.
Proof.
  unfold is_metadata. rewrite existsb_exists. split.
  - intros (x & Hin & E). apply String.eqb_eq in E. now subst.
  - intros H. exists k. split; auto. apply String.eqb_refl.
Qed.

Lemma collect_metrics_skips (items : dict) :
  forall acc metrics,
    collect_metrics items acc = Ok metrics ->
    forall n, is_metadata n = true \/ assoc n items = None ->
              assoc n metrics = assoc n acc.
Proof.
  induction items as [|[k jd] items IH]; simpl; intros acc metrics H n Hn.
  - now injection H as <-.
  - destruct (is_metadata k) eqn:Ek.
    + apply (IH _ _ H). destruct Hn as [Hn|Hn]; auto.
      destruct (String.eqb n k); [discriminate | auto].
    + destruct (job_metrics jd) as [jm|e]; [|discriminate]. cbn [rbind] in H.
      rewrite (IH _ _ H n).
      * apply assoc_dict_set_other. intros ->.
        destruct Hn as [Hn|Hn]; [congruence|].
        rewrite String.eqb_refl in Hn. discriminate.
      * destruct Hn as [Hn|Hn]; auto.
        destruct (String.eqb n k); [discriminate | auto].
Qed.

Lemma collect_metrics_ok (items : dict) :
  Forall (fun kv => entry_ok kv = true) items ->
  NoDup (keys items) ->
  forall acc,
    exists metrics,
      collect_metrics items acc = Ok metrics
      /\ forall j jd,
           assoc j items = Some jd -> is_metadata j = false ->
           exists jm, assoc j metrics = Some jm /\ job_metrics jd = Ok jm.
Proof.
  induction items as [|[k v] items IH]; simpl; intros Hok Hnd acc.
  - exists acc. split; auto. discriminate.
  - inversion Hok as [|? ? Hkv Hrest]; subst.
    inversion Hnd as [|? ? Hnotin Hnd']; subst.
    destruct (is_metadata k) eqn:Ek.
    + destruct (IH Hrest Hnd' acc) as (metrics & Hrun & Hlook).
      exists metrics. split; auto. intros j jd Hj Hm.
      destruct (String.eqb j k) eqn:E.
      * apply String.eqb_eq in E. congruence.
      * eauto.
    + unfold entry_ok in Hkv. simpl in Hkv. rewrite Ek in Hkv. simpl in Hkv.
      destruct (job_metrics_ok v Hkv) as (jm & Hjm & _). rewrite Hjm.
      cbn [rbind].
      destruct (IH Hrest Hnd' (dict_set k jm acc)) as (metrics & Hrun & Hlook).
      exists metrics. split; auto. intros j jd Hj Hm.
      destruct (String.eqb j k) eqn:E.
      * apply String.eqb_eq in E. subst j. injection Hj as <-.
        exists jm. split; auto.
        rewrite (collect_metrics_skips _ _ _ Hrun k).
        -- apply assoc_dict_set_same.
        -- right. now apply assoc_None_notin.
      * eauto.
Qed.

Lemma extract_key_metrics_ok (res : dict) :
  reportable (VDict res) = true ->
  NoDup (keys res) ->
  exists metrics,
    extract_key_metrics (VDict res) = Ok (VDict metrics)
    /\ (forall j jd,
          assoc j res = Some jd -> is_metadata j = false ->
          exists jm, assoc j metrics = Some jm /\ p95_looked_up jd jm)
    /\ (forall j, assoc j metrics <> None ->
                  is_metadata j = false /\ assoc j res <> None).
Proof.
  simpl. intros H Hnd. apply andb_true_iff in H. destruct H as [_ H].
  rewrite forallb_forall in H. apply Forall_forall in H.
  destruct (collect_metrics_ok res H Hnd []) as (metrics & Hrun & Hlook).
  exists metrics. unfold extract_key_metrics. cbn [py_items rbind].
  rewrite Hrun. split; [reflexivity|]. split.
  - intros j jd Hj Hm. destruct (Hlook j jd Hj Hm) as (jm & Hjm & Hrun').
    exists jm. split; auto.
    assert (Hin : In (j, jd) res) by now apply assoc_In.
    rewrite Forall_forall in H. specialize (H _ Hin).
    unfold entry_ok in H. simpl in H. rewrite Hm in H. simpl in H.
    destruct (job_metrics_ok jd H) as (jm' & Hjm' & Hp).
    congruence.
  - intros j Hj.
    destruct (is_metadata j) eqn:Em.
    + exfalso. apply Hj.
      rewrite (collect_metrics_skips _ _ _ Hrun j); auto.
    + split; auto. intros Hn. apply Hj.
      rewrite (collect_metrics_skips _ _ _ Hrun j); auto.
Qed.

Lemma aggregate_latest (rs : list value) (agg : value) :
  rs <> [] ->
  aggregate_test_results rs = Ok agg ->
  exists metrics,
    extract_key_metrics (last rs VNone) = Ok metrics
    /\ at_path agg ["latest_metrics"] = Some metrics
    /\ at_path agg ["runs_count"] = Some (py_len rs).
Proof.
  intros Hne. unfold aggregate_test_results.
  destruct rs as [|r rs]; [contradiction|].
  destruct (py_getitem (last (r :: rs) VNone) "timestamp") as [ts|];
    [|discriminate]. cbn [rbind].
  destruct (extract_key_metrics (last (r :: rs) VNone)) as [metrics|];
    [|discriminate]. cbn [rbind].
  intros [= <-]. exists metrics. auto.
Qed.

(** ** The report *)

Lemma reportable_inv (r : value) :
  reportable r = true ->
  exists d ts,
    r = VDict d /\ assoc "timestamp" d = Some ts
    /\ Forall (fun kv => entry_ok kv = true) d.
Proof.
  destruct r as [| | | | | |d]; simpl; try discriminate.
  unfold has_key. destruct (assoc "timestamp" d) as [ts|] eqn:E;
    [|discriminate].
  simpl. intros H. exists d, ts. repeat split; auto.
  apply Forall_forall. now apply forallb_forall.
Qed.

Lemma collect_metrics_total (items : dict) :
  Forall (fun kv => entry_ok kv = true) items ->
  forall acc, exists metrics, collect_metrics items acc = Ok metrics.
Proof.
  induction 1 as [|[k v] items Hkv _ IH]; simpl; intros acc; eauto.
  destruct (is_metadata k) eqn:Ek; auto.
  unfold entry_ok in Hkv. simpl in Hkv. rewrite Ek in Hkv. simpl in Hkv.
  destruct (job_metrics_ok v Hkv) as (jm & -> & _). cbn [rbind]. auto.
Qed.

Lemma aggregate_ok (rs : list value) :
  rs <> [] ->
  Forall (fun r => reportable r = true) rs ->
  exists ts metrics,
    aggregate_test_results rs =
    Ok (VDict [("last_run", ts); ("runs_count", py_len rs);
               ("latest_metrics", metrics)]).
Proof.
  intros Hne Hall.
  assert (Hlast : reportable (last rs VNone) = true).
  { rewrite Forall_forall in Hall. apply Hall.
    destruct rs as [|r rs]; [contradiction|].
    apply exists_last in Hne. destruct Hne as (l & x & E). rewrite E.
    rewrite last_last. apply in_or_app. right. now left. }
  destruct (reportable_inv _ Hlast) as (d & ts & Ed & Hts & Hok).
  destruct (collect_metrics_total d Hok []) as [metrics Hm].
  exists ts, (VDict metrics).
  unfold aggregate_test_results. destruct rs as [|r rs]; [contradiction|].
  rewrite Ed. unfold py_getitem, extract_key_metrics. rewrite Hts.
  cbn [rbind py_items]. now rewrite Hm.
Qed.

Lemma matching_ok (n : string) (h : list value) :
  Forall (fun r => reportable r = true) h ->
  matching n h = Ok (filter (test_name_is n) h).
Proof.
  induction 1 as [|r h Hr _ IH]; simpl; auto.
  destruct (reportable_inv r Hr) as (d & ts & -> & _ & _).
  step_get. rewrite IH. cbn [rbind]. reflexivity.
Qed.

Lemma has_name_inv (c : value) :
  has_name c = true ->
  exists s, py_getitem c "name" = Ok (VStr s)
            /\ forall n, config_named n c = String.eqb s n.
Proof.
  destruct c as [| | | | | |d]; simpl; try discriminate.
  destruct (assoc "name" d) as [[| | | |s| |]|]; try discriminate.
  intros _. exists s. auto.
Qed.

Lemma filter_Forall {A} (P : A -> Prop) (f : A -> bool) (l : list A) :
  Forall P l -> Forall P (filter f l).
Proof.
  induction 1; simpl; auto. destruct (f x); auto.
Qed.

Lemma summarize_ok (cs h : list value) :
  Forall (fun c => has_name c = true) cs ->
  Forall (fun r => reportable r = true) h ->
  forall acc,
    exists summary,
      summarize cs h acc = Ok summary
      /\ forall n,
           (existsb (config_named n) cs = true ->
            filter (test_name_is n) h <> [] ->
            exists agg,
              assoc n summary = Some agg
              /\ aggregate_test_results (filter (test_name_is n) h) = Ok agg)
           /\ (existsb (config_named n) cs = false
               \/ filter (test_name_is n) h = [] ->
               assoc n summary = assoc n acc).
Proof.
  intros Hcs Hh. induction Hcs as [|c cs Hc _ IH]; intros acc.
  - exists acc. split; auto. intros n. split; [discriminate | auto].
  - destruct (has_name_inv c Hc) as (s & Hs & Hnamed).
    cbn [summarize]. rewrite Hs. cbn [rbind as_key].
    rewrite (matching_ok s h Hh). cbn [rbind].
    destruct (filter (test_name_is s) h) as [|r rs] eqn:Ef.
    + destruct (IH acc) as (summary & Hrun & Hsum).
      exists summary. split; auto. intros n.
      destruct (Hsum n) as [HA HB]. cbn [existsb]. rewrite Hnamed. split.
      * intros Hex Hne. apply HA; auto.
        destruct (String.eqb s n) eqn:E; auto.
        apply String.eqb_eq in E. subst. contradiction.
      * intros [Hex|Hemp]; apply HB; auto.
        apply orb_false_iff in Hex. tauto.
    + assert (Hagg : exists agg,
                 aggregate_test_results (r :: rs) = Ok agg).
      { destruct (aggregate_ok (r :: rs)) as (ts & metrics & E).
        - discriminate.
        - rewrite <- Ef. now apply filter_Forall.
        - eauto. }
      destruct Hagg as [agg Hagg]. rewrite Hagg. cbn [rbind].
      destruct (IH (dict_set s agg acc)) as (summary & Hrun & Hsum).
      exists summary. split; auto. intros n.
      destruct (Hsum n) as [HA HB]. cbn [existsb]. rewrite Hnamed. split.
      * intros Hex Hne.
        destruct (existsb (config_named n) cs) eqn:Ecs; [now apply HA|].
        rewrite orb_false_r in Hex. apply String.eqb_eq in Hex. subst n.
        exists agg. rewrite Ef. split; auto.
        rewrite HB; auto. apply assoc_dict_set_same.
      * intros Hn. rewrite HB.
        -- apply assoc_dict_set_other. intros ->.
           destruct Hn as [Hex|Hemp].
           ++ rewrite String.eqb_refl in Hex. discriminate.
           ++ congruence.
        -- destruct Hn as [Hex|Hemp]; auto.
           apply orb_false_iff in Hex. tauto.
Qed.

(** The summary of a report: an entry with the number of runs for every
    configured test that has records, nothing for a test without records. *)
Lemma report_summary (w : world) (m : monitor) (cs : list value) :
  configs m = VList cs ->
  Forall (fun c => has_name c = true) cs ->
  Forall (fun r => reportable r = true) (history m) ->
  history m <> [] ->
  exists report m',
    generate_report w m = (Ok report, m')
    /\ read_file report_file (disk m') = Some report
    /\ history m' = history m
    /\ forall n,
         (existsb (config_named n) cs = true ->
          filter (test_name_is n) (history m) <> [] ->
          at_path report ["summary"; n; "runs_count"]
          = Some (py_len (filter (test_name_is n) (history m))))
         /\ (filter (test_name_is n) (history m) = [] ->
             at_path report ["summary"; n] = None).
Proof.
  intros Hc Hcs Hh Hne.
  destruct (summarize_ok cs (history m) Hcs Hh []) as (summary & Hrun & Hsum).
  unfold generate_report. destruct (history m) as [|r0 h0] eqn:Eh;
    [contradiction|]. rewrite <- Eh in *.
  unfold sbind, isoformat_now, lift, write_json, sret. rewrite Hc.
  cbn [py_iter]. rewrite Hrun.
  eexists. eexists. split; [reflexivity|].
  split; [reflexivity|]. split; [reflexivity|].
  intros n. destruct (Hsum n) as [HA HB].
  match goal with
  | |- context [at_path ?r ["summary"; n]] =>
      assert (E : forall p, at_path r ("summary" :: n :: p)
                            = match assoc n summary with
                              | Some v => at_path v p
                              | None => None
                              end) by reflexivity
  end.
  rewrite !E. split.
  - intros Hex Hne'. destruct (HA Hex Hne') as (agg & -> & Hagg).
    destruct (aggregate_latest _ _ Hne' Hagg) as (metrics & _ & _ & Hcount).
    exact Hcount.
  - intros Hemp. rewrite HB; auto.
Qed.

Lemma at_path_app (v v' : value) (p q : list string) :
  at_path v p = Some v' -> at_path v (p ++ q) = at_path v' q.
Proof.
  revert v. induction p as [|k p IH]; simpl; intros v H.
  - now injection H as ->.
  - destruct v as [| | | | | |d]; try discriminate.
    destruct (assoc k d) as [x|]; [now apply IH | discriminate].
Qed.

(** The summary entry of a configured test that has records is the
    aggregation of its records. *)
Lemma report_entry (w : world) (m : monitor) (cs : list value) (n : string) :
  configs m = VList cs ->
  Forall (fun c => has_name c = true) cs ->
  Forall (fun r => reportable r = true) (history m) ->
  existsb (config_named n) cs = true ->
  filter (test_name_is n) (history m) <> [] ->
  exists report m' agg,
    generate_report w m = (Ok report, m')
    /\ at_path report ["summary"; n] = Some agg
    /\ aggregate_test_results (filter (test_name_is n) (history m)) = Ok agg.
Proof.
  intros Hc Hcs Hh Hex Hne.
  destruct (summarize_ok cs (history m) Hcs Hh []) as (summary & Hrun & Hsum).
  destruct (Hsum n) as [HA _]. destruct (HA Hex Hne) as (agg & Hagg & Hval).
  unfold generate_report. destruct (history m) as [|r0 h0] eqn:Eh;
    [contradiction|]. rewrite <- Eh in *.
  unfold sbind, isoformat_now, lift, write_json, sret. rewrite Hc.
  cbn [py_iter]. rewrite Hrun.
  eexists. eexists. exists agg. split; [reflexivity|]. split; [|exact Hval].
  match goal with
  | |- at_path ?r ["summary"; n] = _ =>
      change (at_path r ["summary"; n])
        with (match assoc n summary with
              | Some v => Some v
              | None => None
              end)
  end.
  now rewrite Hagg.
Qed.

Lemma last_filter_In {A} (f : A -> bool) (l : list A) (d : A) :
  filter f l <> [] -> In (last (filter f l) d) l.
Proof.
  intros Hne. apply exists_last in Hne. destruct Hne as (l' & x & E).
  rewrite E, last_last.
  assert (Hin : In x (filter f l)) by (rewrite E; apply in_or_app; simpl; auto).
  now apply filter_In in Hin.
Qed.

(** C3.  For the result the normalizer gives for a document of the tool's
    schema, [extract_key_metrics] succeeds, has an entry for exactly the
    keys of the result that are not metadata names, and in the entry of
    each job the read and write p95 latencies are the values under the
    literal key [95.000000] of the job's read and write percentile tables,
    the integer zero when the key is absent, divided by 1000 as Python
    divides (so 0.0 when the key is absent).  These metrics are what a
    report shows as the latest metrics of a test: [aggregate_test_results]
    extracts them from the last record, and the report generated over a
    history of well-formed results shows, for every configured test that
    has records and every job of the last of these records, p95 latencies
    looked up in this way in that job's percentile tables.  For the example
    of the specification, run through the stub tool, the report shows 4.0
    for [read_latency_us_p95] and 5.0 for [write_latency_us_p95]. *)
Theorem C3_p95_metrics :
  (forall now test_name doc,
      conforms doc = true ->
      exists res metrics,
        process_fio_results now test_name doc = Ok (VDict res)
        /\ extract_key_metrics (VDict res) = Ok (VDict metrics)
        /\ (forall j jd,
              assoc j res = Some jd -> is_metadata j = false ->
              exists jm, assoc j metrics = Some jm /\ p95_looked_up jd jm)
        /\ (forall j, assoc j metrics <> None ->
                      is_metadata j = false /\ assoc j res <> None))
  /\ (forall rs agg,
        rs <> [] -> aggregate_test_results rs = Ok agg ->
        exists metrics,
          extract_key_metrics (last rs VNone) = Ok metrics
          /\ at_path agg ["latest_metrics"] = Some metrics)
  /\ (forall w m cs n latest,
        configs m = VList cs ->
        Forall (fun c => has_name c = true) cs ->
        Forall (fun r => reportable r = true) (history m) ->
        existsb (config_named n) cs = true ->
        filter (test_name_is n) (history m) <> [] ->
        last (filter (test_name_is n) (history m)) VNone = VDict latest ->
        NoDup (keys latest) ->
        exists report m',
          generate_report w m = (Ok report, m')
          /\ forall j jd,
               assoc j latest = Some jd -> is_metadata j = false ->
               exists jm,
                 at_path report ["summary"; n; "latest_metrics"; j] = Some jm
                 /\ p95_looked_up jd jm)
  /\ (exists report,
        fst (single_run example_world (new_monitor (VList [example_config])))
        = Ok report
        /\ at_path report ["summary"; "t1"; "latest_metrics"; "j1";
                           "read_latency_us_p95"]
           = Some (VFloat (float_of_int 4))
        /\ at_path report ["summary"; "t1"; "latest_metrics"; "j1";
                           "write_latency_us_p95"]
           = Some (VFloat (float_of_int 5))).
Proof.
  split; [|split; [|split]].
  - intros now test_name doc H.
    destruct (normalized_reportable now test_name doc H)
      as (res & Hrun & Hnd & Hrep).
    destruct (extract_key_metrics_ok res Hrep Hnd) as (metrics & Hex & H1 & H2).
    exists res, metrics. auto.
  - intros rs agg Hne Hagg.
    destruct (aggregate_latest rs agg Hne Hagg) as (metrics & H1 & H2 & _).
    eauto.
  - intros w m cs n latest Hc Hcs Hh Hex Hne Hlast Hnd.
    destruct (report_entry w m cs n Hc Hcs Hh Hex Hne)
      as (report & m' & agg & Hrun & Hentry & Hagg).
    exists report, m'. split; [exact Hrun|].
    destruct (aggregate_latest _ _ Hne Hagg) as (metrics & Hm & Hlatest & _).
    assert (Hrep : reportable (VDict latest) = true).
    { rewrite <- Hlast. rewrite Forall_forall in Hh. apply Hh.
      now apply last_filter_In. }
    rewrite Hlast in Hm.
    destruct (extract_key_metrics_ok latest Hrep Hnd)
      as (metrics' & Hm' & Hlook & _).
    rewrite Hm' in Hm. injection Hm as <-.
    intros j jd Hj Hmeta. destruct (Hlook j jd Hj Hmeta) as (jm & Hjm & Hp).
    exists jm. split; [|exact Hp].
    change ["summary"; n; "latest_metrics"; j]
      with (["summary"; n] ++ ["latest_metrics"; j]).
    rewrite (at_path_app _ _ _ _ Hentry).
    change ["latest_metrics"; j] with (["latest_metrics"] ++ [j]).
    rewrite (at_path_app _ _ _ _ Hlatest). simpl. now rewrite Hjm.
  - eexists. split; [vm_compute; reflexivity|]. split; reflexivity.
Qed.

(** C6.  The configured tests include a test named A; the history holds
    exactly 3 records whose test name is A and none whose test name is B.
    Then [generate_report] returns and writes a report whose summary has an
    entry for A with [runs_count] 3 and no entry for B. *)
Theorem C6_report_counts (w : world) (m : monitor) (cs : list value) :
  configs m = VList cs ->
  Forall (fun c => has_name c = true) cs ->
  existsb (config_named "A") cs = true ->
  Forall (fun r => reportable r = true) (history m) ->
  List.length (filter (test_name_is "A") (history m)) = 3%nat ->
  filter (test_name_is "B") (history m) = [] ->
  exists report m',
    generate_report w m = (Ok report, m')
    /\ read_file report_file (disk m') = Some report
    /\ at_path report ["summary"; "A"; "runs_count"] = Some (VInt 3)
    /\ at_path report ["summary"; "B"] = None.
Proof.
  intros Hc Hcs HA Hh H3 H0.
  assert (HneA : filter (test_name_is "A") (history m) <> [])
    by (intros E; rewrite E in H3; discriminate).
  assert (Hne : history m <> [])
    by (intros E; rewrite E in HneA; now apply HneA).
  destruct (report_summary w m cs Hc Hcs Hh Hne)
    as (report & m' & Hrun & Hfile & _ & Hsum).
  exists report, m'. split; [exact Hrun|]. split; [exact Hfile|].
  destruct (Hsum "A") as [Hcount _]. destruct (Hsum "B") as [_ Hnone].
  split.
  - rewrite (Hcount HA HneA). unfold py_len. now rewrite H3.
  - now apply Hnone.
Qed.

(** ** Job names and metadata names *)

Lemma job_rows_names (timestamp test_name : value) (items : dict) :
  forall data rows,
    job_rows timestamp test_name items data = Ok rows ->
    forall row, In row rows ->
      In row data
      \/ exists n, at_path row ["job_name"] = Some (VStr n)
                   /\ is_metadata n = false.
Proof.
  induction items as [|[k jd] items IH]; simpl; intros data rows H row Hin.
  - injection H as <-. auto.
  - destruct (is_metadata k) eqn:Ek; [now apply (IH _ _ H)|].
    destruct (job_row timestamp test_name k jd) as [r|e] eqn:Er;
      [|discriminate]. cbn [rbind] in H.
    destruct (IH _ _ H row Hin) as [Hd|Hn]; auto.
    apply in_app_or in Hd. destruct Hd as [Hd|[<-|[]]]; auto.
    right. exists k. split; auto.
    revert Er. unfold job_row, rbind.
    repeat match goal with
           | |- match ?c with _ => _ end = _ -> _ =>
               destruct c; try discriminate
           end.
    intros [= <-]. reflexivity.
Qed.

Lemma result_rows_names (w : world) (hist : list value) :
  forall data rows,
    result_rows w hist data = Ok rows ->
    forall row, In row rows ->
      In row data
      \/ exists n, at_path row ["job_name"] = Some (VStr n)
                   /\ is_metadata n = false.
Proof.
  induction hist as [|res hist IH]; simpl; intros data rows H row Hin.
  - injection H as <-. auto.
  - destruct (py_getitem res "timestamp") as [ts|]; [|discriminate].
    cbn [rbind] in H.
    destruct (fromisoformat w ts) as [timestamp|]; [|discriminate].
    cbn [rbind] in H.
    destruct (py_getitem res "test_name") as [tn|]; [|discriminate].
    cbn [rbind] in H.
    destruct (py_items res) as [items|]; [|discriminate]. cbn [rbind] in H.
    destruct (job_rows timestamp tn items data) as [data'|] eqn:Ej;
      [|discriminate]. cbn [rbind] in H.
    destruct (IH _ _ H row Hin) as [Hd|Hn]; auto.
    apply (job_rows_names _ _ _ _ _ Ej row Hd).
Qed.

(** C10.  The normalizer stores the sub-record of a job under the job's
    name, [unknown] when the job has none, as a top-level key of the result
    beside the metadata fields: for a job that no later job of the same name
    overwrites, the result holds under that name the job's sub-record with
    its [read], [write] and [cpu] entries, also when the name is
    [timestamp], [test_name] or [global_options], in which case the
    metadata field is gone.  The metrics of [extract_key_metrics] have no
    entry under any of these three names, and no row of the analyzer's
    table has one of them as its job name. *)
Theorem C10_shared_namespace :
  (forall now test_name doc pre job post,
      conforms doc = true ->
      jobs_of doc = pre ++ job :: post ->
      Forall (fun j => jobname_of j <> jobname_of job) post ->
      exists res n rd wr cpu,
        process_fio_results now test_name doc = Ok (VDict res)
        /\ jobname_of job = VStr n
        /\ (at_path job ["jobname"] = None -> n = "unknown")
        /\ job_results job
           = Ok (VStr n, VDict [("read", rd); ("write", wr); ("cpu", cpu)])
        /\ assoc n res
           = Some (VDict [("read", rd); ("write", wr); ("cpu", cpu)]))
  /\ (forall res metrics n,
        extract_key_metrics res = Ok (VDict metrics) ->
        In n metadata_names -> assoc n metrics = None)
  /\ (forall w d rows row,
        timeseries_rows w d = Ok rows -> In row rows ->
        exists n, at_path row ["job_name"] = Some (VStr n)
                  /\ ~ In n metadata_names).
Proof.
  split; [|split].
  - intros now test_name doc pre job post H Hsplit Hlast.
    destruct (stored_job now test_name doc pre post job H Hsplit Hlast)
      as (res & Hrun & Hjob & Hname & Hres & Hassoc).
    destruct (job_ok_inv job Hjob) as (jd & -> & _).
    exists res, (job_key (VDict jd)). do 3 eexists.
    split; [exact Hrun|]. split; [exact Hname|].
    split; [|split; [exact Hres | exact Hassoc]].
    rewrite at_path_field. unfold job_key, jobname_of, get_or.
    now intros ->.
  - intros res metrics n Hex Hn. unfold extract_key_metrics in Hex.
    destruct (py_items res) as [items|]; [|discriminate]. cbn [rbind] in Hex.
    destruct (collect_metrics items []) as [ms|] eqn:Hc; [|discriminate].
    injection Hex as <-.
    rewrite (collect_metrics_skips _ _ _ Hc n); auto.
    left. now apply is_metadata_keys.
  - intros w d rows row Hrows Hin. unfold timeseries_rows in Hrows.
    destruct (negb (truthy (load_history d))).
    + injection Hrows as <-. destruct Hin.
    + destruct (py_iter (load_history d)) as [records|]; [|discriminate].
      cbn [rbind] in Hrows.
      destruct (result_rows_names w _ _ _ Hrows row Hin) as [[]|(n & Hn & Hm)].
      exists n. split; auto. rewrite <- is_metadata_keys. congruence.
Qed.

(** ** At the border of the schema *)

(** A field that is present with another type than the schema's makes the
    normalizer raise; [run_fio_test] catches the exception and returns
    [None]. *)
Example read_null_raises :
  process_fio_results "2024-01-01T00:00:00" (VStr "t1")
    (VDict [("jobs", VList [VDict [("read", VNone)]])])
  = Raise AttributeError.
Proof. reflexivity. Qed.

(** A latency beyond the range of a double makes the normalizer raise
    [OverflowError] where it divides by 1000, and so does a CPU usage beyond
    that range where it is added to a float; [run_fio_test] catches the
    exception and returns [None]. *)
Example huge_latency_overflows :
  process_fio_results "2024-01-01T00:00:00" (VStr "t1")
    (VDict [("jobs",
             VList [VDict [("read",
                            VDict [("lat_ns",
                                    VDict [("min", VInt (10 ^ 400))])])]])])
  = Raise OverflowError.
Proof. vm_compute. reflexivity. Qed.

Example huge_cpu_overflows :
  process_fio_results "2024-01-01T00:00:00" (VStr "t1")
    (VDict [("jobs",
             VList [VDict [("usr_cpu", VInt (10 ^ 400));
                           ("sys_cpu", VFloat (int_quotient 3 2))]])])
  = Raise OverflowError.
Proof. vm_compute. reflexivity. Qed.

(** A job without a name is stored under [unknown]. *)
Example nameless_job_unknown :
  exists res rec,
    process_fio_results "2024-01-01T00:00:00" (VStr "t1")
      (VDict [("jobs", VList [VDict [("usr_cpu", VInt 2)]])])
    = Ok (VDict res)
    /\ assoc "unknown" res = Some rec
    /\ at_path rec ["cpu"] = Some (VInt 2).
Proof. do 2 eexists. repeat split; reflexivity. Qed.

(** A runtime parameter that is a string: the sum with 30 raises inside the
    [try] statement, no process is launched and the result is [None]. *)
Example string_runtime_not_launched :
  run_fio_test example_world
    (VDict [("name", VStr "t1");
            ("parameters", VDict [("runtime", VStr "10")])])
    example_monitor
  = (Ok VNone, example_monitor).
Proof. reflexivity. Qed.

(** The end-to-end example of the specification: the normalized result. *)
Example example_normalized :
  at_path (example_result "t1") ["j1"; "read"; "iops"] = Some (VInt 100)
  /\ at_path (example_result "t1") ["j1"; "read"; "latency_us"; "mean"]
     = Some (VFloat (float_of_int 2))
  /\ at_path (example_result "t1") ["j1"; "write"; "latency_us"; "mean"]
     = Some (VFloat (float_of_int 3)).
Proof. repeat split; reflexivity. Qed.

(** * The statements at concrete inputs *)

Lemma C1_history_persisted_witness :
  Forall (fun r => truthy r = true) [example_result "A"; example_result "B"]
  /\ exists mk,
       save_all example_world [example_result "A"; example_result "B"]
                example_monitor = (Ok tt, mk)
       /\ read_file history_file (disk mk)
          = Some (VList [example_result "A"; example_result "B"])
       /\ load_history (disk mk)
          = VList [example_result "A"; example_result "B"].
Proof.
  assert (H : Forall (fun r => truthy r = true)
                     [example_result "A"; example_result "B"])
    by (repeat constructor).
  split; [exact H|].
  destruct (C1_history_persisted example_world _ example_monitor H)
    as [Hk _].
  destruct (Hk 2%nat) as (mk & Hrun & Hh & _ & Hfile & Hload & _);
    [simpl; lia|].
  exists mk. rewrite Hfile, Hload, Hh. auto.
Defined.

Lemma C2_latency_us_witness :
  (forall f, In f latency_fields ->
             us_ready (field_ns partial_latency f) = true)
  /\ (exists us,
        convert_latency_to_us (VDict partial_latency) = Ok (VDict us)
        /\ assoc "min" us = Some (VFloat (float_of_int 1))
        /\ assoc "max" us = Some (VFloat float_zero)
        /\ assoc "mean" us = Some (VFloat (int_quotient 5 2)))
  /\ (forall f, In f latency_fields ->
                is_number (field_ns huge_latency f) = true)
  /\ us_ready (field_ns huge_latency "min") = false
  /\ convert_latency_to_us (VDict huge_latency) = Raise OverflowError.
Proof.
  assert (H : forall f, In f latency_fields ->
                        us_ready (field_ns partial_latency f) = true)
    by (intros f [<-|[<-|[<-|[]]]]; reflexivity).
  assert (N : forall f, In f latency_fields ->
                        is_number (field_ns huge_latency f) = true)
    by (intros f [<-|[<-|[<-|[]]]]; reflexivity).
  assert (R : us_ready (field_ns huge_latency "min") = false)
    by (vm_compute; reflexivity).
  split; [exact H|]. split; [|split; [exact N|split; [exact R|]]].
  - destruct (proj1 (C2_latency_us partial_latency) H) as (us & Hrun & _).
    exists us. split; [exact Hrun|].
    vm_compute in Hrun. injection Hrun as <-.
    repeat split; vm_compute; reflexivity.
  - apply (proj2 (proj2 (C2_latency_us huge_latency)) N).
    exists "min". split; [simpl; auto | exact R].
Defined.

(** C2 as it is worded does not hold for all non-negative inputs: a
    minimum of [10 ^ 400] nanoseconds is not negative, and the conversion of
    a summary with this minimum raises [OverflowError], so that no
    microsecond value exists for any of the three fields. *)
Lemma C2_no_value_beyond_range :
  0 <= 10 ^ 400
  /\ field_ns huge_latency "min" = VInt (10 ^ 400)
  /\ convert_latency_to_us (VDict huge_latency) = Raise OverflowError
  /\ ~ (exists us, convert_latency_to_us (VDict huge_latency) = Ok us).
Proof.
  assert (E : convert_latency_to_us (VDict huge_latency) = Raise OverflowError)
    by (vm_compute; reflexivity).
  split; [vm_compute; discriminate|]. split; [reflexivity|].
  split; [exact E|]. intros [us H]. rewrite E in H. discriminate.
Qed.

Lemma C3_p95_metrics_witness :
  conforms example_doc = true
  /\ exists res metrics,
       process_fio_results "2024-01-01T00:00:00" (VStr "t1") example_doc
       = Ok (VDict res)
       /\ extract_key_metrics (VDict res) = Ok (VDict metrics)
       /\ at_path (VDict metrics) ["j1"; "read_latency_us_p95"]
          = Some (VFloat (float_of_int 4)).
Proof.
  split; [reflexivity|].
  destruct (proj1 C3_p95_metrics "2024-01-01T00:00:00" (VStr "t1")
              example_doc eq_refl) as (res & metrics & Hrun & Hex & _).
  exists res, metrics. split; [exact Hrun|]. split; [exact Hex|].
  injection Hrun as <-. injection Hex as <-. reflexivity.
Defined.

Lemma C4_command_line_witness :
  valid_config example_config = true
  /\ fio_command example_world (VStr "t1")
       [("rw", VStr "randrw"); ("bs", VStr "8k"); ("runtime", VInt 10)]
     = Ok (map VStr ["fio"; "--name"; "t1"; "--rw"; "randrw"; "--bs"; "8k";
                     "--runtime"; "10"]).
Proof.
  split; [reflexivity|].
  destruct (C4_command_line example_world example_config eq_refl)
    as (name & ps & Hn & Hp & Hcmd & _).
  injection Hn as <-. injection Hp as <-. exact Hcmd.
Defined.

Lemma C5_malformed_output_witness :
  valid_config example_config = true
  /\ malformed_at garbled_world (clock example_monitor)
  /\ exists m',
       run_fio_test garbled_world example_config example_monitor
       = (Ok VNone, m')
       /\ history m' = []
       /\ run_tests garbled_world [example_config; named_config "A"]
                    example_monitor
          = run_tests garbled_world [named_config "A"] m'.
Proof.
  assert (Hbad : malformed_at garbled_world (clock example_monitor)).
  { intros args timeout rc out err _. reflexivity. }
  split; [reflexivity|]. split; [exact Hbad|].
  destruct (C5_malformed_output garbled_world example_config
              [named_config "A"] example_monitor eq_refl Hbad)
    as (m' & Hrun & Hh & _ & _ & Hloop).
  exists m'. auto.
Defined.

Lemma C6_report_counts_witness :
  configs monitor_3A = VList [named_config "A"; named_config "B"]
  /\ List.length (filter (test_name_is "A") (history monitor_3A)) = 3%nat
  /\ filter (test_name_is "B") (history monitor_3A) = []
  /\ exists report m',
       generate_report example_world monitor_3A = (Ok report, m')
       /\ read_file report_file (disk m') = Some report
       /\ at_path report ["summary"; "A"; "runs_count"] = Some (VInt 3)
       /\ at_path report ["summary"; "B"] = None.
Proof.
  split; [reflexivity|]. split; [reflexivity|]. split; [reflexivity|].
  apply (C6_report_counts example_world monitor_3A
           [named_config "A"; named_config "B"]);
    try reflexivity; repeat constructor.
Defined.

Lemma C7_missing_fields_zero_witness :
  conforms sparse_doc = true
  /\ exists res rec,
       process_fio_results "2024-01-01T00:00:00" (VStr "t1") sparse_doc
       = Ok (VDict res)
       /\ assoc "j1" res = Some rec
       /\ at_path rec ["read"; "iops"] = Some (VInt 7)
       /\ at_path rec ["read"; "bw_kbps"] = Some (VInt 0)
       /\ at_path rec ["write"; "iops"] = Some (VInt 0)
       /\ at_path rec ["write"; "latency_us"; "mean"]
          = Some (VFloat float_zero)
       /\ at_path rec ["write"; "percentiles"] = Some (VDict [])
       /\ at_path rec ["cpu"] = Some (VInt 0).
Proof.
  split; [reflexivity|].
  destruct (C7_missing_fields_zero "2024-01-01T00:00:00" (VStr "t1")
              sparse_doc eq_refl) as (res & Hrun & Hjobs).
  destruct (Hjobs [] sparse_job [] eq_refl (Forall_nil _))
    as (n & rec & Hres & Hassoc & Hzero).
  injection Hres as <- <-.
  destruct Hzero as (Hz1 & Hz2 & Hz3 & Hz4).
  exists res, (job_record sparse_job). split; [exact Hrun|].
  split; [exact Hassoc|]. split; [reflexivity|].
  split; [apply Hz1; simpl; auto|].
  split; [apply Hz1; simpl; auto|].
  split; [apply (Hz2 "write" "mean"); simpl; auto|].
  split; [apply Hz3; simpl; auto|].
  apply Hz4; reflexivity.
Defined.

Lemma C8_no_jobs_witness :
  assoc "jobs" [("jobs", VList [])] = Some (VList [])
  /\ process_fio_results "2024-01-01T00:00:00" (VStr "t1")
       (VDict [("jobs", VList [])])
     = Ok (VDict [("timestamp", VStr "2024-01-01T00:00:00");
                  ("test_name", VStr "t1");
                  ("global_options", VDict [])]).
Proof.
  split; [reflexivity|].
  exact (C8_no_jobs "2024-01-01T00:00:00" (VStr "t1") [("jobs", VList [])]
           eq_refl).
Defined.

Lemma C9_timeout_witness :
  valid_config example_config = true
  /\ at_path example_config ["parameters"; "runtime"] = Some (VInt 10)
  /\ launched (snd (run_fio_test example_world example_config example_monitor))
     = [(["fio"; "--name"; "t1"; "--rw"; "randrw"; "--bs"; "8k";
          "--runtime"; "10"], VInt 40)].
Proof.
  split; [reflexivity|]. split; [reflexivity|].
  destruct (C9_timeout example_world example_config example_monitor eq_refl)
    as (name & ps & Hn & Hp & Hnum & _).
  injection Hn as <-. injection Hp as <-.
  destruct (Hnum (VInt 10) eq_refl eq_refl) as (t & _ & Hl & Hi & _).
  rewrite (Hi 10 eq_refl) in Hl. exact Hl.
Defined.

(** C9 as it is worded does not hold for every TestConfig.  For a valid
    TestConfig without a runtime parameter the tool is launched with a
    timeout of 150, which is not the sum of a runtime parameter and 30; and
    for a valid TestConfig whose runtime parameter is the text [60s] the sum
    with 30 does not exist and the tool is not launched at all. *)
Lemma C9_not_every_config :
  valid_config no_runtime_config = true
  /\ at_path no_runtime_config ["parameters"; "runtime"] = None
  /\ launched (snd (run_fio_test example_world no_runtime_config
                      example_monitor))
     = [(["fio"; "--name"; "t1"; "--bs"; "8k"], VInt 150)]
  /\ ~ timeout_is_runtime_plus_30 example_world no_runtime_config
        example_monitor
  /\ valid_config text_runtime_config = true
  /\ launched (snd (run_fio_test example_world text_runtime_config
                      example_monitor)) = []
  /\ ~ timeout_is_runtime_plus_30 example_world text_runtime_config
        example_monitor.
Proof.
  split; [reflexivity|]. split; [reflexivity|]. split; [reflexivity|].
  split; [|split; [reflexivity|split; [reflexivity|]]].
  - intros (r & t & args & Hr & _). discriminate.
  - intros (r & t & args & Hr & Ht & _).
    injection Hr as <-. discriminate.
Qed.

Lemma C10_shared_namespace_witness :
  conforms clash_doc = true
  /\ jobs_of clash_doc = [] ++ clash_job :: []
  /\ exists res rec,
       process_fio_results "2024-01-01T00:00:00" (VStr "t1") clash_doc
       = Ok (VDict res)
       /\ assoc "timestamp" res = Some rec
       /\ at_path rec ["read"; "iops"] = Some (VInt 7).
Proof.
  split; [reflexivity|]. split; [reflexivity|].
  destruct (proj1 C10_shared_namespace "2024-01-01T00:00:00" (VStr "t1")
              clash_doc [] clash_job [] eq_refl eq_refl (Forall_nil _))
    as (res & n & rd & wr & cpu & Hrun & Hname & _ & Hres & Hassoc).
  injection Hname as <-. injection Hres as <- _ _.
  exists res. eexists. split; [exact Hrun|]. split; [exact Hassoc|].
  reflexivity.
Defined.

(** * Further properties of the program *)

(** ** What [run_fio_test] touches *)

Lemma only_launches_refl (m : monitor) : only_launches m m.
Proof.
  unfold only_launches. repeat split; auto.
Qed.

Lemma only_launches_tick (m : monitor) : only_launches m (tick m).
Proof.
  unfold only_launches. simpl. repeat split; auto.
Qed.

Lemma only_launches_launch (m : monitor) (args : list string) (t : value) :
  only_launches m (launch m args t)
  /\ only_launches m (tick (launch m args t)).
Proof.
  unfold only_launches. simpl. repeat split; eauto.
Qed.

Lemma run_fio_test_frame (w : world) (config : value) (m : monitor) :
  only_launches m (snd (run_fio_test w config m)).
Proof.
  unfold run_fio_test, sbind, lift.
  destruct (py_getitem config "name") as [test_name|];
    [|apply only_launches_refl].
  destruct (py_getitem config "parameters") as [parameters|];
    [|apply only_launches_refl].
  destruct (py_items parameters) as [items|]; [|apply only_launches_refl].
  destruct (fio_command w test_name items) as [cmd|];
    [|apply only_launches_refl].
  unfold try_except, sbind, lift.
  destruct (py_get parameters "runtime" (VInt 120)) as [runtime|[]];
    try apply only_launches_refl.
  destruct (py_add runtime (VInt 30)) as [timeout|[]];
    try apply only_launches_refl.
  unfold run_subprocess.
  destruct (strings_of cmd) as [args|]; [|apply only_launches_refl].
  destruct (only_launches_launch m args timeout) as [H1 H2].
  destruct (subprocess_run w (clock m) args timeout) as [rc out err| |];
    try exact H1.
  destruct (negb (rc =? 0)); [exact H1|].
  unfold loads, isoformat_now, sret.
  destruct (json_loads w out) as [doc|]; [|exact H1].
  destruct (process_fio_results _ test_name doc) as [res|[]]; exact H2.
Qed.

(** X1.  Whatever the configuration and whatever the tool does,
    [run_fio_test] leaves the configurations, the history and the files of
    the monitor as they were; it launches at most one process. *)
Theorem X1_run_fio_test_only_launches (w : world) (config : value)
  (m : monitor) :
  only_launches m (snd (run_fio_test w config m)).
Proof.
  apply run_fio_test_frame.
Qed.

(** ** The outcomes of [run_fio_test] *)

Lemma dict_set_nonempty (k : string) (v : value) (d : dict) :
  dict_set k v d <> [].
Proof.
  destruct d as [|[k' v'] d]; simpl; [discriminate|].
  destruct (String.eqb k k'); discriminate.
Qed.

Lemma store_jobs_keeps_keys (jobs : list value) :
  forall res res' k,
    store_jobs jobs res = Ok res' ->
    has_key res k = true -> has_key res' k = true.
Proof.
  induction jobs as [|job jobs IH]; simpl; intros res res' k H Hk.
  - now injection H as <-.
  - destruct (job_results job) as [[n rec]|]; [|discriminate].
    cbn [rbind fst snd] in H.
    destruct (as_key n) as [key|]; [|discriminate]. cbn [rbind] in H.
    apply (IH _ _ k H). unfold has_key in *.
    destruct (String.eqb k key) eqn:E.
    + apply String.eqb_eq in E. subst. now rewrite assoc_dict_set_same.
    + apply String.eqb_neq in E. now rewrite assoc_dict_set_other.
Qed.

(** A result of the normalizer is a dictionary that still has its three
    metadata keys, so it is never empty. *)
Lemma process_fio_results_shape (now : string) (test_name doc v : value) :
  process_fio_results now test_name doc = Ok v ->
  exists res,
    v = VDict res
    /\ truthy v = true
    /\ forall k, In k metadata_names -> has_key res k = true.
Proof.
  unfold process_fio_results.
  destruct (py_get doc "global options" (VDict [])) as [go|]; [|discriminate].
  cbn [rbind].
  destruct (py_get doc "jobs" (VList [])) as [jobs|]; [|discriminate].
  cbn [rbind].
  destruct (py_iter jobs) as [js|]; [|discriminate]. cbn [rbind].
  destruct (store_jobs js _) as [res|] eqn:Hs; [|discriminate].
  cbn [rbind]. intros [= <-]. exists res.
  assert (Hkeys : forall k, In k metadata_names -> has_key res k = true).
  { intros k Hk. apply (store_jobs_keeps_keys _ _ _ k Hs).
    destruct Hk as [<-|[<-|[<-|[]]]]; reflexivity. }
  split; [reflexivity|]. split; [|exact Hkeys].
  specialize (Hkeys "timestamp" (or_introl eq_refl)).
  destruct res; [discriminate | reflexivity].
Qed.

(** X2.  On a valid TestConfig [run_fio_test] raises no Python exception,
    whatever the tool does: it returns [None] or a result of the
    normalizer for the configuration's test name, and such a result is
    never empty.  (The one outcome left is the border of the embedding, a
    job name that is not a string.) *)
Theorem X2_run_fio_test_outcomes (w : world) (c : value) (m : monitor) :
  valid_config c = true ->
  exists name,
    at_path c ["name"] = Some (VStr name)
    /\ (forall e, fst (run_fio_test w c m) = Raise e -> e = OutsideModel)
    /\ (forall v, fst (run_fio_test w c m) = Ok v ->
          v = VNone
          \/ (truthy v = true
              /\ exists now doc,
                   process_fio_results now (VStr name) doc = Ok v)).
Proof.
  intros H.
  destruct (valid_config_inv c H) as (cd & name & ps & -> & Hn & Hp & Hs).
  exists name. split; [simpl; now rewrite Hn|].
  rewrite (run_fio_test_valid w cd name ps m Hn Hp Hs).
  destruct (py_add (get_or ps "runtime" (VInt 120)) (VInt 30)) as [t|e0].
  - cbv zeta.
    destruct (subprocess_run w (clock m) (command_line w name ps) t)
      as [rc out err| |];
      try (split; [discriminate | intros v [= <-]; auto]).
    destruct (negb (rc =? 0));
      try (split; [discriminate | intros v [= <-]; auto]).
    destruct (json_loads w out) as [doc|];
      try (split; [discriminate | intros v [= <-]; auto]).
    destruct (process_fio_results _ (VStr name) doc) as [res|e1] eqn:Hr.
    + split; [discriminate|]. intros v [= <-]. right.
      destruct (process_fio_results_shape _ _ _ _ Hr) as (r & _ & Ht & _).
      split; [exact Ht|]. eauto.
    + destruct e1;
        (split;
         [ intros e Heq; simpl in Heq;
           first [discriminate Heq | now injection Heq as <-]
         | intros v; try discriminate; intros [= <-]; auto ]).
  - destruct e0;
      (split;
       [ intros e Heq; simpl in Heq;
         first [discriminate Heq | now injection Heq as <-]
       | intros v; try discriminate; intros [= <-]; auto ]).
Qed.

Lemma run_tests_cons_none (w : world) (c : value) (rest : list value)
  (m m' : monitor) :
  run_fio_test w c m = (Ok VNone, m') ->
  run_tests w (c :: rest) m = run_tests w rest m'.
Proof.
  intros H. simpl. unfold sbind at 1. rewrite H. reflexivity.
Qed.

Lemma run_tests_cons_raise (w : world) (c : value) (rest : list value)
  (m m' : monitor) (e : exn) :
  run_fio_test w c m = (Raise e, m') ->
  run_tests w (c :: rest) m = (Raise e, m').
Proof.
  intros H. simpl. unfold sbind at 1. now rewrite H.
Qed.

(** X3.  A configuration without the key [name] or without the key
    [parameters] makes [run_fio_test] raise [KeyError] before its [try]
    statement, with nothing launched; the loop over the configured tests
    stops there, the tests that follow are not run, and a monitoring cycle
    that meets such a configuration first ends with that exception and
    writes no report. *)
Theorem X3_missing_key_aborts (w : world) (cd : dict) (rest : list value)
  (m : monitor) :
  assoc "name" cd = None \/ assoc "parameters" cd = None ->
  run_fio_test w (VDict cd) m = (Raise KeyError, m)
  /\ run_tests w (VDict cd :: rest) m = (Raise KeyError, m)
  /\ (configs m = VList (VDict cd :: rest) ->
      forall interval n,
        run_cycles w interval (S n) m = (Raise KeyError, m)).
Proof.
  intros H.
  assert (Hrun : run_fio_test w (VDict cd) m = (Raise KeyError, m)).
  { unfold run_fio_test, sbind, lift, py_getitem.
    destruct (assoc "name" cd) as [nm|] eqn:En.
    - destruct H as [H|H]; [discriminate|]. now rewrite H.
    - reflexivity. }
  split; [exact Hrun|].
  assert (Hloop : run_tests w (VDict cd :: rest) m = (Raise KeyError, m))
    by now apply run_tests_cons_raise.
  split; [exact Hloop|].
  intros Hc interval n. cbn [run_cycles]. unfold sbind at 1.
  unfold monitoring_cycle. unfold sbind at 1.
  unfold run_configured_tests. unfold sbind at 1. unfold lift.
  rewrite Hc. cbn [py_iter]. now rewrite Hloop.
Qed.

(** X4.  When the tool does not end with exit code 0 (a non-zero exit code
    whatever it printed, a timeout, a failure to start), [run_fio_test] on
    a valid TestConfig returns [None], changes neither the history nor the
    files, and the loop goes on with the tests that remain. *)
Theorem X4_no_success_no_result (w : world) (c : value) (rest : list value)
  (m : monitor) :
  valid_config c = true ->
  (forall args timeout out err,
      subprocess_run w (clock m) args timeout <> Completed 0 out err) ->
  exists m',
    run_fio_test w c m = (Ok VNone, m')
    /\ only_launches m m'
    /\ run_tests w (c :: rest) m = run_tests w rest m'.
Proof.
  intros H Hfail.
  assert (Hrun : exists m', run_fio_test w c m = (Ok VNone, m')).
  { destruct (valid_config_inv c H) as (cd & name & ps & -> & Hn & Hp & Hs).
    rewrite (run_fio_test_valid w cd name ps m Hn Hp Hs).
    destruct (py_add (get_or ps "runtime" (VInt 120)) (VInt 30)) as [t|e] eqn:Ht.
    - cbv zeta.
      destruct (subprocess_run w (clock m) (command_line w name ps) t)
        as [rc out err| |] eqn:Eo; eauto.
      destruct (rc =? 0) eqn:Erc; simpl; eauto.
      apply Z.eqb_eq in Erc. subst rc. now apply Hfail in Eo.
    - exists m. destruct (py_add_raises _ _ _ Ht) as [-> | ->]; auto. }
  destruct Hrun as [m' Hrun]. exists m'. split; [exact Hrun|].
  split.
  - pose proof (run_fio_test_frame w c m) as Hf. now rewrite Hrun in Hf.
  - now apply run_tests_cons_none.
Qed.

(** X6.  A runtime parameter that is present and is not a number (a string
    such as [60s], or null) makes the sum with 30 fail inside the [try]
    statement: [run_fio_test] returns [None] and the tool is not launched
    at all, the monitor is left exactly as it was. *)
Theorem X6_runtime_not_a_number (w : world) (c r : value) (m : monitor) :
  valid_config c = true ->
  at_path c ["parameters"; "runtime"] = Some r ->
  is_number r = false ->
  run_fio_test w c m = (Ok VNone, m).
Proof.
  intros H Hr Hnum.
  destruct (valid_config_inv c H) as (cd & name & ps & -> & Hn & Hp & Hs).
  rewrite (run_fio_test_valid w cd name ps m Hn Hp Hs).
  simpl in Hr. rewrite Hp in Hr. unfold get_or.
  destruct (assoc "runtime" ps) as [r'|] eqn:Er; [|discriminate].
  injection Hr as ->.
  assert (Hsc : is_scalar r = true).
  { rewrite forallb_forall in Hs. apply (Hs ("runtime", r)).
    now apply assoc_In. }
  destruct r; simpl in *; try discriminate; reflexivity.
Qed.

Lemma run_file_not_history (w : world) (t : nat) :
  String.eqb history_file (run_file w t) = false
  /\ String.eqb (run_file w t) history_file = false.
Proof.
  split; reflexivity.
Qed.

(** X5.  The whole path of one test that succeeds.  For a valid TestConfig
    whose runtime parameter, if any, is a number, when the tool ends with
    exit code 0 and prints a document of its schema, [run_fio_test] returns
    the normalized document under the configuration's test name, stamped
    with the time read after the launch; the loop then appends it to the
    history, and writes it to the per-run file and the extended history to
    the history file. *)
Theorem X5_successful_test (w : world) (c : value) (m : monitor)
  (name out err : string) (doc : value) :
  valid_config c = true ->
  at_path c ["name"] = Some (VStr name) ->
  (forall r, at_path c ["parameters"; "runtime"] = Some r ->
             is_number r = true) ->
  (forall args timeout,
      subprocess_run w (clock m) args timeout = Completed 0 out err) ->
  json_loads w out = Some doc ->
  conforms doc = true ->
  exists res m' m'',
    process_fio_results (now_isoformat w (S (clock m))) (VStr name) doc
    = Ok res
    /\ run_fio_test w c m = (Ok res, m')
    /\ clock m' = S (S (clock m))
    /\ run_tests w [c] m = (Ok tt, m'')
    /\ history m'' = history m ++ [res]
    /\ read_file history_file (disk m'') = Some (VList (history m ++ [res]))
    /\ read_file (run_file w (S (S (clock m)))) (disk m'') = Some res.
Proof.
  intros H Hname Hnum Hout Hj Hdoc.
  destruct (valid_config_inv c H) as (cd & name' & ps & -> & Hn & Hp & Hs).
  simpl in Hname. rewrite Hn in Hname. injection Hname as ->.
  destruct (process_fio_results_ok (now_isoformat w (S (clock m)))
              (VStr name) doc Hdoc) as (d & Ed & Hres).
  assert (Ht : exists t, py_add (get_or ps "runtime" (VInt 120)) (VInt 30)
                         = Ok t).
  { assert (Hr : is_number (get_or ps "runtime" (VInt 120)) = true).
    { unfold get_or.
      destruct (assoc "runtime" ps) as [r|] eqn:Er; [|reflexivity].
      apply Hnum. simpl. now rewrite Hp, Er. }
    destruct (py_add_30 _ Hr) as (t & Ht & _). eauto. }
  destruct Ht as [t Ht].
  assert (Hrun : run_fio_test w (VDict cd) m
                 = (Ok (VDict (stored (jobs_of doc)
                                  (metadata (now_isoformat w (S (clock m)))
                                            (VStr name) d))),
                    tick (launch m (command_line w name ps) t))).
  { rewrite (run_fio_test_valid w cd name ps m Hn Hp Hs), Ht. cbv zeta.
    rewrite Hout. cbn [negb Z.eqb]. rewrite Hj.
    change (clock (launch m (command_line w name ps) t)) with (S (clock m)).
    now rewrite Hres. }
  destruct (process_fio_results_shape _ _ _ _ Hres) as (r & Er & Htruthy & _).
  do 3 eexists. split; [exact Hres|]. split; [exact Hrun|].
  split; [reflexivity|].
  cbn [run_tests]. unfold sbind at 1. rewrite Hrun. rewrite Htruthy.
  unfold sbind at 1.
  rewrite (save_results_truthy w _ _ Htruthy). unfold sret.
  split; [reflexivity|]. split; [reflexivity|].
  split; [reflexivity|].
  unfold read_file. cbn [disk assoc].
  change (clock (tick (launch m (command_line w name ps) t)))
    with (S (S (clock m))).
  fold (run_file w (S (S (clock m)))).
  destruct (run_file_not_history w (S (S (clock m)))) as [_ ->].
  now rewrite String.eqb_refl.
Qed.

(** ** The history in memory and on disk *)

Lemma grows_by_refl (m : monitor) : grows_by 0 m m.
Proof.
  unfold grows_by. split; auto. split; auto.
  exists []. rewrite app_nil_r. auto.
Qed.

Lemma grows_by_weaken (a b : nat) (m m' : monitor) :
  (a <= b)%nat -> grows_by a m m' -> grows_by b m m'.
Proof.
  intros Hab (Hc & (new & Hh & Ht & Hl) & Hs).
  split; auto. split; auto. exists new. repeat split; auto. lia.
Qed.

Lemma grows_by_trans (a b : nat) (m1 m2 m3 : monitor) :
  grows_by a m1 m2 -> grows_by b m2 m3 -> grows_by (a + b) m1 m3.
Proof.
  intros (Hc1 & (n1 & Hh1 & Ht1 & Hl1) & Hs1)
         (Hc2 & (n2 & Hh2 & Ht2 & Hl2) & Hs2).
  split; [congruence|]. split; [|auto].
  exists (n1 ++ n2). split; [now rewrite Hh2, Hh1, app_assoc|].
  split; [now apply Forall_app|]. rewrite length_app. lia.
Qed.

Lemma only_launches_grows (m m' : monitor) :
  only_launches m m' -> grows_by 0 m m'.
Proof.
  intros (Hc & Hh & Hd & _). split; auto. split.
  - exists []. rewrite app_nil_r. auto.
  - unfold synced. now rewrite Hh, Hd.
Qed.

Lemma grows_by_sbind {A B} (a b : nat) (c : St A) (k : A -> St B) :
  (forall m, grows_by a m (snd (c m))) ->
  (forall x m, grows_by b m (snd (k x m))) ->
  forall m, grows_by (a + b) m (snd (sbind c k m)).
Proof.
  intros Hc Hk m. unfold sbind. specialize (Hc m).
  destruct (c m) as [[x|e] m1]; simpl in *.
  - eapply grows_by_trans; eauto.
  - eapply grows_by_weaken; [|exact Hc]. lia.
Qed.

Lemma save_results_grows (w : world) (r : value) (m : monitor) :
  grows_by 1 m (snd (save_results w r m)).
Proof.
  destruct (truthy r) eqn:E.
  - rewrite (save_results_truthy w r m E). cbn [snd].
    split; [reflexivity|]. split.
    + exists [r]. simpl. auto.
    + intros _. right. reflexivity.
  - rewrite (save_results_falsy w r m E).
    apply (grows_by_weaken 0); [lia | apply grows_by_refl].
Qed.

Lemma run_tests_grows (w : world) (cs : list value) :
  forall m, grows_by (List.length cs) m (snd (run_tests w cs m)).
Proof.
  induction cs as [|c cs IH]; intros m.
  - apply grows_by_refl.
  - cbn [run_tests List.length].
    change (S (List.length cs)) with (0 + (1 + List.length cs))%nat.
    apply grows_by_sbind.
    + intros m0. apply only_launches_grows, run_fio_test_frame.
    + intros v m0. apply grows_by_sbind; [|intros _; exact IH].
      intros m1. destruct (truthy v).
      * apply save_results_grows.
      * apply (grows_by_weaken 0); [lia | apply grows_by_refl].
Qed.

Lemma write_json_other (name : string) (doc : value) (m : monitor) :
  String.eqb history_file name = false ->
  grows_by 0 m (snd (write_json name doc m)).
Proof.
  intros Hne. split; [reflexivity|]. split.
  - exists []. simpl. rewrite app_nil_r. auto.
  - unfold synced, read_file, write_json. cbn [snd disk history assoc].
    rewrite Hne. auto.
Qed.

Lemma generate_report_grows (w : world) (m : monitor) :
  grows_by 0 m (snd (generate_report w m)).
Proof.
  unfold generate_report. destruct (history m) as [|r0 h0] eqn:Eh.
  - apply grows_by_refl.
  - rewrite <- Eh. clear Eh r0 h0.
    unfold sbind, isoformat_now, lift, sret.
    assert (Ht : grows_by 0 m (tick m))
      by apply only_launches_grows, only_launches_tick.
    destruct (py_iter (configs m)) as [cfgs|]; [|exact Ht].
    destruct (summarize cfgs (history m) []) as [summary|]; [|exact Ht].
    match goal with
    | |- context [write_json ?n ?d ?m0] =>
        pose proof (write_json_other n d m0 eq_refl) as Hw
    end.
    change 0%nat with (0 + 0)%nat.
    eapply grows_by_trans; [exact Ht|]. exact Hw.
Qed.

Lemma run_configured_tests_grows (w : world) (m : monitor) :
  grows_by (config_count m) m (snd (run_configured_tests w m)).
Proof.
  unfold run_configured_tests, config_count, sbind, lift.
  destruct (py_iter (configs m)) as [cs|].
  - apply run_tests_grows.
  - apply grows_by_refl.
Qed.

Lemma grows_by_config_count (b : nat) (m m' : monitor) :
  grows_by b m m' -> config_count m' = config_count m.
Proof.
  intros (Hc & _). unfold config_count. now rewrite Hc.
Qed.

Lemma time_sleep_state (w : world) (seconds : Z) (m : monitor) :
  snd (time_sleep w seconds m) = m.
Proof.
  unfold time_sleep. destruct (seconds <? 0); [reflexivity|].
  destruct (sleep_refused w seconds); reflexivity.
Qed.

Lemma time_sleep_ok (w : world) (interval : Z) (m : monitor) :
  can_sleep w interval = true -> time_sleep w (interval * 60) m = (Ok tt, m).
Proof.
  unfold can_sleep, time_sleep. intros H. apply andb_true_iff in H.
  destruct H as [H0 H1]. apply Z.leb_le in H0.
  destruct (interval * 60 <? 0) eqn:E; [apply Z.ltb_lt in E; lia|].
  destruct (sleep_refused w (interval * 60)); [discriminate | reflexivity].
Qed.

Lemma time_sleep_negative (w : world) (interval : Z) (m : monitor) :
  interval < 0 -> time_sleep w (interval * 60) m = (Raise ValueError, m).
Proof.
  unfold time_sleep. intros H.
  destruct (interval * 60 <? 0) eqn:E; [reflexivity|].
  apply Z.ltb_ge in E. lia.
Qed.

Lemma monitoring_cycle_grows (w : world) (interval : Z) (m : monitor) :
  grows_by (config_count m) m (snd (monitoring_cycle w interval m)).
Proof.
  unfold monitoring_cycle, sbind.
  pose proof (run_configured_tests_grows w m) as H1.
  destruct (run_configured_tests w m) as [[[]|e] m1]; simpl in *; auto.
  pose proof (generate_report_grows w m1) as H2.
  pose proof (time_sleep_state w (interval * 60)) as H3.
  destruct (generate_report w m1) as [[v|e] m2]; simpl in *.
  - specialize (H3 m2).
    destruct (time_sleep w (interval * 60) m2) as [r m3]. simpl in H3.
    subst m3.
    replace (config_count m) with (config_count m + 0)%nat by lia.
    destruct r; eapply grows_by_trans; eauto.
  - replace (config_count m) with (config_count m + 0)%nat by lia.
    eapply grows_by_trans; eauto.
Qed.

Lemma run_cycles_grows (w : world) (interval : Z) (n : nat) :
  forall m,
    grows_by (n * config_count m) m (snd (run_cycles w interval n m)).
Proof.
  induction n as [|n IH]; intros m.
  - apply grows_by_refl.
  - cbn [run_cycles]. unfold sbind.
    pose proof (monitoring_cycle_grows w interval m) as H1.
    destruct (monitoring_cycle w interval m) as [[[]|e] m1]; simpl in *.
    + specialize (IH m1).
      rewrite (grows_by_config_count _ _ _ H1) in IH.
      eapply grows_by_trans; eauto.
    + eapply grows_by_weaken; [|exact H1]. lia.
Qed.

(** X7.  Through any number of monitoring cycles, whatever the tool does
    and also when a cycle ends with an exception, the history is only ever
    extended: the records it held stay in place, every record added is a
    result that is not empty, at most one is added per configured test and
    cycle, and the configurations do not change. *)
Theorem X7_history_append_only (w : world) (interval : Z) (n : nat)
  (m : monitor) :
  exists new,
    history (snd (run_cycles w interval n m)) = history m ++ new
    /\ Forall (fun r => truthy r = true) new
    /\ (List.length new <= n * config_count m)%nat
    /\ configs (snd (run_cycles w interval n m)) = configs m.
Proof.
  destruct (run_cycles_grows w interval n m)
    as (Hc & (new & Hh & Ht & Hl) & _).
  exists new. auto.
Qed.

(** X8.  If the history file holds the history in memory (or the history is
    still empty), it does so again after any number of monitoring cycles,
    whatever the tool does and also when a cycle ends with an exception:
    the files written for a single run and for the report never stand in
    for the history file. *)
Theorem X8_history_file_in_step (w : world) (interval : Z) (n : nat)
  (m : monitor) :
  synced m -> synced (snd (run_cycles w interval n m)).
Proof.
  destruct (run_cycles_grows w interval n m) as (_ & _ & Hs). exact Hs.
Qed.

(** ** Files of single runs *)

(** X9.  [save_results] names the per-run file after the time to the
    second.  Two results that are saved within the same second go to the
    same per-run file, which then holds only the second one; the history
    in memory and the history file hold both. *)
Theorem X9_same_second_overwrites (w : world) (r1 r2 : value) (m : monitor) :
  truthy r1 = true ->
  truthy r2 = true ->
  now_strftime w (S (clock m)) = now_strftime w (clock m) ->
  exists m1 m2,
    save_results w r1 m = (Ok tt, m1)
    /\ read_file (run_file w (clock m)) (disk m1) = Some r1
    /\ save_results w r2 m1 = (Ok tt, m2)
    /\ read_file (run_file w (clock m)) (disk m2) = Some r2
    /\ history m2 = history m ++ [r1; r2]
    /\ read_file history_file (disk m2) = Some (VList (history m ++ [r1; r2])).
Proof.
  intros H1 H2 Hsame.
  do 2 eexists.
  split; [apply (save_results_truthy w r1 m H1)|].
  destruct (run_file_not_history w (clock m)) as [_ Hne].
  split.
  { unfold read_file. cbn [disk assoc]. fold (run_file w (clock m)).
    rewrite Hne. now rewrite String.eqb_refl. }
  split; [apply (save_results_truthy w r2 _ H2)|].
  cbn [history disk clock]. rewrite Hsame. fold (run_file w (clock m)).
  split.
  { unfold read_file. cbn [assoc]. rewrite Hne.
    now rewrite String.eqb_refl. }
  rewrite <- app_assoc. split; reflexivity.
Qed.

(** X10.  A monitor is created with an empty history and never reads the
    history file.  So when the output directory already holds a history
    file, the first result that is saved replaces it: afterwards the file
    holds that one result, whatever it held before. *)
Theorem X10_restart_replaces_history (w : world) (fs : string -> fs_entry)
  (config_file : option string) (d : list (string * value))
  (m : monitor) (r : value) :
  FIOMonitor_init w fs config_file d = Ok m ->
  truthy r = true ->
  disk m = d
  /\ history m = []
  /\ load_history (disk (snd (save_results w r m))) = VList [r].
Proof.
  unfold FIOMonitor_init. intros Hinit Hr.
  destruct (load_configs w fs config_file) as [cfgs|]; [|discriminate].
  cbn [rbind] in Hinit. injection Hinit as <-.
  split; [reflexivity|]. split; [reflexivity|].
  rewrite (save_results_truthy w r _ Hr). reflexivity.
Qed.

(** ** A tool that always fails *)

Lemma failing_test (w : world) (c : value) (m : monitor) :
  valid_config c = true ->
  always_fails w ->
  exists m', run_fio_test w c m = (Ok VNone, m') /\ only_launches m m'.
Proof.
  intros H Hfail.
  assert (Hrun : exists m', run_fio_test w c m = (Ok VNone, m')).
  { destruct (valid_config_inv c H) as (cd & name & ps & -> & Hn & Hp & Hs).
    rewrite (run_fio_test_valid w cd name ps m Hn Hp Hs).
    destruct (py_add (get_or ps "runtime" (VInt 120)) (VInt 30)) as [t|e] eqn:Ht.
    - cbv zeta.
      destruct (subprocess_run w (clock m) (command_line w name ps) t)
        as [rc out err| |] eqn:Eo; eauto.
      destruct (rc =? 0) eqn:Erc; simpl; eauto.
      apply Z.eqb_eq in Erc. subst rc.
      destruct (Hfail _ _ _ _ _ _ Eo) as [Hrc|Hj]; [contradiction|].
      rewrite Hj. eauto.
    - exists m. destruct (py_add_raises _ _ _ Ht) as [-> | ->]; auto. }
  destruct Hrun as [m' Hrun]. exists m'. split; [exact Hrun|].
  pose proof (run_fio_test_frame w c m) as Hf. now rewrite Hrun in Hf.
Qed.

Lemma failing_tests (w : world) (cs : list value) :
  Forall (fun c => valid_config c = true) cs ->
  always_fails w ->
  forall m,
    exists m',
      run_tests w cs m = (Ok tt, m')
      /\ configs m' = configs m /\ history m' = history m
      /\ disk m' = disk m.
Proof.
  intros Hcs Hfail. induction Hcs as [|c cs Hc _ IH]; intros m.
  - exists m. auto.
  - destruct (failing_test w c m Hc Hfail) as (m1 & Hrun & Hc1 & Hh1 & Hd1 & _).
    rewrite (run_tests_cons_none w c cs m m1 Hrun).
    destruct (IH m1) as (m' & Hrest & Hc2 & Hh2 & Hd2).
    exists m'. repeat split; congruence.
Qed.

(** X11.  With a tool that never succeeds (every run ends with a non-zero
    exit code, a timeout, a failure to start or output that is not JSON),
    monitoring cycles over valid TestConfigs write nothing: the history
    stays empty and no per-run file, no history file and no report appear.
    With an interval that can be slept, any number of cycles end normally;
    with a negative interval the loop ends with [ValueError] in its first
    cycle, where [time.sleep] refuses the negative duration. *)
Theorem X11_nothing_written_on_failure (w : world) (cs : list value)
  (interval : Z) (n : nat) (m : monitor) :
  always_fails w ->
  configs m = VList cs ->
  Forall (fun c => valid_config c = true) cs ->
  history m = [] ->
  (can_sleep w interval = true ->
   exists m',
     run_cycles w interval n m = (Ok tt, m')
     /\ history m' = []
     /\ disk m' = disk m)
  /\ (interval < 0 ->
      exists m',
        run_cycles w interval (S n) m = (Raise ValueError, m')
        /\ history m' = []
        /\ disk m' = disk m).
Proof.
  intros Hfail Hc Hcs Hh.
  assert (Hpass : forall m0,
             configs m0 = VList cs -> history m0 = [] ->
             exists m1,
               monitoring_cycle w interval m0
               = time_sleep w (interval * 60) m1
               /\ configs m1 = VList cs /\ history m1 = []
               /\ disk m1 = disk m0).
  { intros m0 Hc0 Hh0.
    destruct (failing_tests w cs Hcs Hfail m0) as (m1 & Hrun & Hc1 & Hh1 & Hd1).
    exists m1. split; [|repeat split; congruence].
    unfold monitoring_cycle, sbind, run_configured_tests, sbind, lift.
    rewrite Hc0. cbn [py_iter]. rewrite Hrun.
    unfold generate_report. rewrite Hh1, Hh0. reflexivity. }
  split.
  - intros Hsleep. revert m Hc Hh. induction n as [|n IH]; intros m Hc Hh.
    + exists m. auto.
    + destruct (Hpass m Hc Hh) as (m1 & Hcycle & Hc1 & Hh1 & Hd1).
      cbn [run_cycles]. unfold sbind. rewrite Hcycle.
      rewrite (time_sleep_ok w interval m1 Hsleep).
      destruct (IH m1 Hc1 Hh1) as (m' & Hrest & Hh' & Hd').
      exists m'. repeat split; congruence.
  - intros Hneg. destruct (Hpass m Hc Hh) as (m1 & Hcycle & Hc1 & Hh1 & Hd1).
    exists m1. cbn [run_cycles]. unfold sbind. rewrite Hcycle.
    rewrite (time_sleep_negative w interval m1 Hneg). auto.
Qed.

(** ** Aggregation and the report *)

Lemma aggregate_snoc (rs : list value) (r : value) :
  aggregate_test_results (rs ++ [r]) =
  (last_run <- py_getitem r "timestamp" ;;
   latest_metrics <- extract_key_metrics r ;;
   Ok (VDict [("last_run", last_run);
              ("runs_count", VInt (Z.of_nat (S (List.length rs))));
              ("latest_metrics", latest_metrics)]))%py.
Proof.
  unfold aggregate_test_results, py_len.
  rewrite last_last, length_app. cbn [List.length].
  replace (List.length rs + 1)%nat with (S (List.length rs)) by lia.
  destruct (rs ++ [r]) eqn:E; [|reflexivity].
  apply app_eq_nil in E. destruct E as [_ E]. discriminate.
Qed.

Lemma py_getitem_at_path (v x : value) (k : string) :
  py_getitem v k = Ok x <-> at_path v [k] = Some x.
Proof.
  unfold py_getitem. cbn [at_path].
  destruct v; try (split; discriminate).
  destruct (assoc k d); split; congruence.
Qed.

(** X12.  [aggregate_test_results] reads only the last record of the list
    it is given and the length of the list: the earlier records may be
    anything.  The last run is the timestamp of the last record, the run
    count is the length of the list, and when the last record has no
    timestamp the aggregation raises [KeyError]. *)
Theorem X12_aggregate_reads_last (rs rs' : list value) (r : value) :
  List.length rs = List.length rs' ->
  aggregate_test_results (rs ++ [r]) = aggregate_test_results (rs' ++ [r])
  /\ (forall agg,
        aggregate_test_results (rs ++ [r]) = Ok agg ->
        at_path agg ["last_run"] = at_path r ["timestamp"]
        /\ at_path agg ["runs_count"]
           = Some (VInt (Z.of_nat (S (List.length rs))))
        /\ Ok (at_path agg ["latest_metrics"])
           = (metrics <- extract_key_metrics r ;; Ok (Some metrics))%py)
  /\ (forall d, r = VDict d -> assoc "timestamp" d = None ->
                aggregate_test_results (rs ++ [r]) = Raise KeyError).
Proof.
  intros Hlen. rewrite !aggregate_snoc, Hlen.
  split; [reflexivity|]. split.
  - intros agg.
    destruct (py_getitem r "timestamp") as [ts|] eqn:Ets; [|discriminate].
    cbn [rbind].
    destruct (extract_key_metrics r) as [lm|]; [|discriminate].
    cbn [rbind]. intros [= <-].
    apply py_getitem_at_path in Ets. rewrite Ets. auto.
  - intros d -> Hn. unfold py_getitem. now rewrite Hn.
Qed.

Lemma generate_report_ok (w : world) (m : monitor) (cs : list value)
  (summary : dict) :
  configs m = VList cs ->
  history m <> [] ->
  summarize cs (history m) [] = Ok summary ->
  exists m',
    generate_report w m
    = (Ok (VDict [("generated_at", VStr (now_isoformat w (clock m)));
                  ("total_tests", py_len (history m));
                  ("summary", VDict summary)]), m')
    /\ read_file report_file (disk m')
       = Some (VDict [("generated_at", VStr (now_isoformat w (clock m)));
                      ("total_tests", py_len (history m));
                      ("summary", VDict summary)])
    /\ history m' = history m.
Proof.
  intros Hc Hne Hrun.
  unfold generate_report. destruct (history m) as [|r0 h0] eqn:Eh;
    [contradiction|]. rewrite <- Eh in *.
  unfold sbind, isoformat_now, lift, write_json, sret. rewrite Hc.
  cbn [py_iter]. rewrite Hrun.
  eexists. split; [reflexivity|]. split; reflexivity.
Qed.

(** X13.  For a history of well-formed results that is not empty and
    configurations that all have a name, the report gives the time of its
    generation, counts as [total_tests] every record of the history, also
    the records of tests that are not configured, and has a summary entry
    for exactly the configured names that have at least one record; the
    entry's [last_run] is the timestamp of the last such record. *)
Theorem X13_report_contents (w : world) (m : monitor) (cs : list value) :
  configs m = VList cs ->
  Forall (fun c => has_name c = true) cs ->
  Forall (fun r => reportable r = true) (history m) ->
  history m <> [] ->
  exists report m',
    generate_report w m = (Ok report, m')
    /\ at_path report ["generated_at"]
       = Some (VStr (now_isoformat w (clock m)))
    /\ at_path report ["total_tests"]
       = Some (VInt (Z.of_nat (List.length (history m))))
    /\ (forall n,
          at_path report ["summary"; n] <> None
          <-> existsb (config_named n) cs = true
              /\ filter (test_name_is n) (history m) <> [])
    /\ (forall n,
          existsb (config_named n) cs = true ->
          filter (test_name_is n) (history m) <> [] ->
          at_path report ["summary"; n; "last_run"]
          = at_path (last (filter (test_name_is n) (history m)) VNone)
                    ["timestamp"]).
Proof.
  intros Hc Hcs Hh Hne.
  destruct (summarize_ok cs (history m) Hcs Hh []) as (summary & Hrun & Hsum).
  destruct (generate_report_ok w m cs summary Hc Hne Hrun)
    as (m' & Hgen & _ & _).
  eexists. exists m'. split; [exact Hgen|].
  split; [reflexivity|]. split; [reflexivity|].
  match goal with
  | |- context [at_path ?r ["summary"; _]] =>
      assert (E : forall n p, at_path r ("summary" :: n :: p)
                              = match assoc n summary with
                                | Some v => at_path v p
                                | None => None
                                end) by reflexivity
  end.
  split.
  - intros n. rewrite E. destruct (Hsum n) as [HA HB]. split.
    + intros Hsome.
      destruct (existsb (config_named n) cs) eqn:Ecs.
      * split; auto. intros Hemp. apply Hsome. rewrite HB; auto.
      * exfalso. apply Hsome. rewrite HB; auto.
    + intros [Hex Hrec]. destruct (HA Hex Hrec) as (agg & -> & _).
      discriminate.
  - intros n Hex Hrec. rewrite E. destruct (Hsum n) as [HA _].
    destruct (HA Hex Hrec) as (agg & -> & Hagg).
    destruct (exists_last Hrec) as (l & r & El). rewrite El in *.
    rewrite last_last. rewrite aggregate_snoc in Hagg.
    destruct (py_getitem r "timestamp") as [ts|] eqn:Ets; [|discriminate].
    cbn [rbind] in Hagg.
    destruct (extract_key_metrics r) as [lm|]; [|discriminate].
    cbn [rbind] in Hagg. injection Hagg as <-.
    apply py_getitem_at_path in Ets. now rewrite Ets.
Qed.

(** ** Metrics of the report and rows of the analyzer *)

Lemma getitem_path2 (a b c : value) (k1 k2 : string) :
  py_getitem a k1 = Ok b -> py_getitem b k2 = Ok c ->
  at_path a [k1; k2] = Some c.
Proof.
  intros H1 H2. apply py_getitem_at_path in H1, H2.
  cbn [at_path] in *. destruct a; try discriminate.
  destruct (assoc k1 d); [|discriminate]. injection H1 as ->. exact H2.
Qed.

Ltac open_binds :=
  repeat match goal with
         | |- rbind ?c _ = Ok _ -> _ =>
             let E := fresh "E" in
             destruct c eqn:E; cbn [rbind]; [|discriminate]
         end.

Lemma job_metrics_values (jd jm : value) :
  job_metrics jd = Ok jm ->
  at_path jm ["read_iops"] = at_path jd ["read"; "iops"]
  /\ at_path jm ["write_iops"] = at_path jd ["write"; "iops"]
  /\ at_path jm ["read_bandwidth_kbps"] = at_path jd ["read"; "bw_kbps"]
  /\ at_path jm ["write_bandwidth_kbps"] = at_path jd ["write"; "bw_kbps"].
Proof.
  unfold job_metrics. open_binds. intros [= <-].
  repeat split; symmetry; eapply getitem_path2; eassumption.
Qed.

Lemma collect_metrics_keys (items : dict) :
  NoDup (keys items) ->
  forall acc metrics,
    (forall k, In k (keys items) -> ~ In k (keys acc)) ->
    collect_metrics items acc = Ok metrics ->
    keys metrics
    = keys acc ++ filter (fun k => negb (is_metadata k)) (keys items).
Proof.
  induction items as [|[k jd] items IH]; simpl; intros Hnd acc metrics Hd H.
  - injection H as <-. now rewrite app_nil_r.
  - inversion Hnd as [|? ? Hnotin Hnd']; subst.
    destruct (is_metadata k) eqn:Ek; simpl.
    + apply (IH Hnd' acc metrics); auto.
    + destruct (job_metrics jd) as [jm|]; [|discriminate]. cbn [rbind] in H.
      assert (Hfresh : assoc k acc = None).
      { apply assoc_None_notin. apply Hd. now left. }
      rewrite (dict_set_fresh k jm acc Hfresh) in H.
      assert (Hd' : forall k', In k' (keys items) ->
                               ~ In k' (keys (acc ++ [(k, jm)]))).
      { intros k' Hin Hin'. unfold keys in Hin'. rewrite map_app in Hin'.
        apply in_app_or in Hin'. destruct Hin' as [Hin'|[<-|[]]].
        - apply (Hd k'); auto.
        - contradiction. }
      rewrite (IH Hnd' _ _ Hd' H).
      unfold keys. rewrite map_app, <- app_assoc. reflexivity.
Qed.

(** X14.  For a stored result with well-formed job sub-records, the metrics
    of [extract_key_metrics] list the job names in the order of the result,
    the metadata names left out, and carry for every job the read and
    write IOPS and the read and write bandwidth of the sub-record
    unchanged. *)
Theorem X14_metrics_order_and_values (res : dict) :
  reportable (VDict res) = true ->
  NoDup (keys res) ->
  exists metrics,
    extract_key_metrics (VDict res) = Ok (VDict metrics)
    /\ keys metrics = filter (fun k => negb (is_metadata k)) (keys res)
    /\ forall j jm,
         assoc j metrics = Some jm ->
         exists jd,
           assoc j res = Some jd
           /\ at_path jm ["read_iops"] = at_path jd ["read"; "iops"]
           /\ at_path jm ["write_iops"] = at_path jd ["write"; "iops"]
           /\ at_path jm ["read_bandwidth_kbps"]
              = at_path jd ["read"; "bw_kbps"]
           /\ at_path jm ["write_bandwidth_kbps"]
              = at_path jd ["write"; "bw_kbps"].
Proof.
  intros Hrep Hnd.
  assert (Hok : Forall (fun kv => entry_ok kv = true) res).
  { simpl in Hrep. apply andb_true_iff in Hrep. destruct Hrep as [_ H].
    apply Forall_forall. now apply forallb_forall. }
  destruct (collect_metrics_ok res Hok Hnd []) as (metrics & Hrun & Hlook).
  exists metrics. unfold extract_key_metrics. cbn [py_items rbind].
  rewrite Hrun. split; [reflexivity|]. split.
  - apply (collect_metrics_keys res Hnd [] metrics); auto.
  - intros j jm Hj.
    destruct (is_metadata j) eqn:Em.
    { rewrite (collect_metrics_skips _ _ _ Hrun j) in Hj; auto.
      discriminate. }
    destruct (assoc j res) as [jd|] eqn:Ej.
    + destruct (Hlook j jd Ej Em) as (jm' & Hjm' & Hmet).
      assert (jm' = jm) by congruence. subst jm'.
      exists jd. split; auto. now apply job_metrics_values.
    + rewrite (collect_metrics_skips _ _ _ Hrun j) in Hj; auto.
      discriminate.
Qed.

Lemma job_row_of_metrics (timestamp test_name : value) (job_name : string)
  (jd : value) :
  (forall e, job_metrics jd = Raise e ->
             job_row timestamp test_name job_name jd = Raise e)
  /\ (forall jm,
        job_metrics jd = Ok jm ->
        exists row,
          job_row timestamp test_name job_name jd = Ok row
          /\ at_path row ["timestamp"] = Some timestamp
          /\ at_path row ["test_name"] = Some test_name
          /\ at_path row ["job_name"] = Some (VStr job_name)
          /\ forall names, In names metric_names ->
               at_path row [snd names] = at_path jm [fst names]).
Proof.
  unfold job_metrics, job_row. split.
  - intros e.
    repeat match goal with
           | |- rbind ?c _ = Raise _ -> _ =>
               destruct c; cbn [rbind]; [|exact (fun H => H)]
           end.
    discriminate.
  - intros jm. open_binds. intros [= <-]. eexists.
    split; [reflexivity|]. repeat split.
    intros names Hin. simpl in Hin.
    repeat (destruct Hin as [<-|Hin]; [reflexivity|]). destruct Hin.
Qed.

(** X15.  The analyzer's table and the report agree.  For every job
    sub-record the row built by [create_timeseries_analysis] fails with the
    exception with which [extract_key_metrics] fails on that job, and
    otherwise carries the six metrics of the report (IOPS, p95 latency and
    bandwidth, read and write) with the same values under the names of the
    table, next to the timestamp, the test name and the job name. *)
Theorem X15_rows_agree_with_report (timestamp test_name : value)
  (job_name : string) (jd : value) :
  (forall e, job_metrics jd = Raise e ->
             job_row timestamp test_name job_name jd = Raise e)
  /\ (forall jm,
        job_metrics jd = Ok jm ->
        exists row,
          job_row timestamp test_name job_name jd = Ok row
          /\ at_path row ["timestamp"] = Some timestamp
          /\ at_path row ["test_name"] = Some test_name
          /\ at_path row ["job_name"] = Some (VStr job_name)
          /\ forall names, In names metric_names ->
               at_path row [snd names] = at_path jm [fst names]).
Proof.
  apply job_row_of_metrics.
Qed.

Lemma job_rows_ok (timestamp test_name : value) (items : dict) :
  Forall (fun kv => entry_ok kv = true) items ->
  forall data,
    exists rows,
      job_rows timestamp test_name items data = Ok (data ++ rows)
      /\ List.length rows
         = List.length (filter (fun kv => negb (is_metadata (fst kv))) items)
      /\ Forall (fun row => at_path row ["timestamp"] = Some timestamp
                            /\ at_path row ["test_name"] = Some test_name)
                rows.
Proof.
  induction 1 as [|[k jd] items Hkv _ IH]; intros data; cbn [job_rows].
  - exists []. rewrite app_nil_r. auto.
  - cbn [filter fst]. destruct (is_metadata k) eqn:Ek; cbn [negb].
    + apply IH.
    + unfold entry_ok in Hkv. simpl in Hkv. rewrite Ek in Hkv. simpl in Hkv.
      destruct (job_metrics_ok jd Hkv) as (jm & Hjm & _).
      destruct (job_row_of_metrics timestamp test_name k jd) as [_ Hrow].
      destruct (Hrow jm Hjm) as (row & -> & Hts & Htn & _). cbn [rbind].
      destruct (IH (data ++ [row])) as (rows & -> & Hlen & Hall).
      exists (row :: rows). rewrite <- app_assoc. split; [reflexivity|].
      split; [simpl; now rewrite Hlen|]. constructor; auto.
Qed.

Lemma row_ready_inv (w : world) (r : value) :
  row_ready w r = true ->
  exists d s tn,
    r = VDict d
    /\ assoc "timestamp" d = Some (VStr s)
    /\ iso_ok w s = true
    /\ assoc "test_name" d = Some tn
    /\ Forall (fun kv => entry_ok kv = true) d.
Proof.
  unfold row_ready. intros H.
  apply andb_true_iff in H. destruct H as [H Htn].
  apply andb_true_iff in H. destruct H as [Hrep Hts].
  destruct (reportable_inv r Hrep) as (d & ts & -> & Ets & Hok).
  cbn [at_path] in Hts, Htn. rewrite Ets in Hts.
  destruct ts; try discriminate.
  destruct (assoc "test_name" d) as [tn|] eqn:Etn; [|discriminate].
  exists d, s, tn. auto.
Qed.

Lemma result_rows_ok (w : world) (hist : list value) :
  Forall (fun r => row_ready w r = true) hist ->
  forall data,
    exists rows,
      result_rows w hist data = Ok (data ++ rows)
      /\ List.length rows = list_sum (map job_count hist)
      /\ Forall (fun row =>
                   exists r, In r hist
                             /\ at_path row ["timestamp"]
                                = at_path r ["timestamp"]
                             /\ at_path row ["test_name"]
                                = at_path r ["test_name"]) rows.
Proof.
  induction 1 as [|r hist Hr _ IH]; intros data; cbn [result_rows].
  - exists []. rewrite app_nil_r. auto.
  - destruct (row_ready_inv w r Hr) as (d & s & tn & -> & Ets & Hiso & Etn & Hok).
    unfold py_getitem. rewrite Ets, Etn. cbn [rbind fromisoformat].
    rewrite Hiso. cbn [rbind py_items].
    destruct (job_rows_ok (VStr s) tn d Hok data) as (rows1 & -> & Hl1 & Ha1).
    cbn [rbind].
    destruct (IH (data ++ rows1)) as (rows2 & -> & Hl2 & Ha2).
    exists (rows1 ++ rows2). rewrite <- app_assoc. split; [reflexivity|].
    split.
    + rewrite length_app, Hl1, Hl2. reflexivity.
    + apply Forall_app. split.
      * apply Forall_forall. intros row Hin.
        rewrite Forall_forall in Ha1. destruct (Ha1 row Hin) as [H1 H2].
        exists (VDict d). split; [now left|].
        cbn [at_path]. rewrite Ets, Etn. auto.
      * apply Forall_forall. intros row Hin.
        rewrite Forall_forall in Ha2.
        destruct (Ha2 row Hin) as (r & Hr' & H1 & H2).
        exists r. split; [now right | auto].
Qed.

(** X16.  When the history file holds results with well-formed job
    sub-records, a test name and an ISO timestamp, the analyzer collects the
    rows of its table without an exception: one row for every job sub-record
    of every result, each with the timestamp and the test name of a result
    of the history.  An empty history gives no row. *)
Theorem X16_analyzer_rows (w : world) (d : list (string * value))
  (hist : list value) :
  read_file history_file d = Some (VList hist) ->
  Forall (fun r => row_ready w r = true) hist ->
  exists rows,
    timeseries_rows w d = Ok rows
    /\ List.length rows = list_sum (map job_count hist)
    /\ Forall (fun row =>
                 exists r, In r hist
                           /\ at_path row ["timestamp"]
                              = at_path r ["timestamp"]
                           /\ at_path row ["test_name"]
                              = at_path r ["test_name"]) rows.
Proof.
  intros Hfile Hall. unfold timeseries_rows, load_history. rewrite Hfile.
  destruct hist as [|r hist].
  - exists []. auto.
  - cbn [truthy negb py_iter rbind].
    destruct (result_rows_ok w (r :: hist) Hall []) as (rows & Hrun & Hl & Ha).
    exists rows. auto.
Qed.

(** ** A job named like the timestamp *)

Lemma stored_last_wins (k : string) (jobs : list value) :
  forall res,
    existsb (fun j => String.eqb (job_key j) k) jobs = true ->
    exists j, In j jobs /\ assoc k (stored jobs res) = Some (job_record j).
Proof.
  induction jobs as [|j jobs IH]; intros res H; [discriminate|].
  cbn [stored fold_left]. fold (stored jobs (dict_set (job_key j) (job_record j) res)).
  destruct (existsb (fun j0 => String.eqb (job_key j0) k) jobs) eqn:E.
  - destruct (IH (dict_set (job_key j) (job_record j) res) eq_refl)
      as (j' & Hin & Hassoc).
    exists j'. split; [now right | exact Hassoc].
  - cbn [existsb] in H. rewrite E, orb_false_r in H.
    apply String.eqb_eq in H. subst k.
    exists j. split; [now left|]. apply stored_keeps.
    + apply Forall_forall. intros j0 Hin Heq.
      assert (Hex : existsb (fun j1 => String.eqb (job_key j1) (job_key j))
                            jobs = true).
      { apply existsb_exists. exists j0. split; auto.
        now apply String.eqb_eq. }
      congruence.
    + apply assoc_dict_set_same.
Qed.

(** X17.  When the tool's document has a job named [timestamp], the stored
    result holds that job's sub-record where the timestamp was, and the
    analyzer, which parses the timestamp of every result before it looks at
    the jobs, raises [TypeError] on a history that starts with this
    result. *)
Theorem X17_analyzer_fails_on_job_named_timestamp (now : string)
  (test_name doc : value) :
  conforms doc = true ->
  existsb (fun j => String.eqb (job_key j) "timestamp") (jobs_of doc) = true ->
  exists res rec,
    process_fio_results now test_name doc = Ok (VDict res)
    /\ assoc "timestamp" res = Some (VDict rec)
    /\ forall w d rest,
         read_file history_file d = Some (VList (VDict res :: rest)) ->
         timeseries_rows w d = Raise TypeError.
Proof.
  intros H Hex.
  destruct (process_fio_results_ok now test_name doc H) as (d0 & Ed & Hrun).
  destruct (conforms_inv doc H) as (d' & _ & _ & Hjobs).
  destruct (stored_last_wins "timestamp" (jobs_of doc)
              (metadata now test_name d0) Hex) as (j & Hin & Hassoc).
  rewrite Forall_forall in Hjobs. specialize (Hjobs j Hin).
  destruct (job_ok_inv j Hjobs) as (jd & -> & _).
  do 2 eexists. split; [exact Hrun|]. split; [exact Hassoc|].
  intros w d rest Hfile.
  unfold timeseries_rows, load_history. rewrite Hfile.
  cbn [truthy negb py_iter rbind result_rows]. unfold py_getitem.
  rewrite Hassoc. reflexivity.
Qed.

(** ** What the normalizer keeps *)

Lemma io_record_kept (s : dict) :
  stats_ok (VDict s) = true ->
  (forall f v, In f ["iops"; "bw_bytes"; "bw_kbps"] ->
     assoc f s = Some v -> at_path (io_record s) [f] = Some v)
  /\ (forall f v, In f latency_fields ->
        at_path (VDict s) ["lat_ns"; f] = Some v ->
        at_path (io_record s) ["latency_ns"; f] = Some v)
  /\ (forall p, at_path (VDict s) ["clat_ns"; "percentile"] = Some p ->
        at_path (io_record s) ["percentiles"] = Some p)
  /\ (forall f, In f latency_fields ->
        exists ns x,
          at_path (io_record s) ["latency_ns"; f] = Some ns
          /\ at_path (io_record s) ["latency_us"; f] = Some (VFloat x)
          /\ py_truediv ns (VInt 1000) = Ok (VFloat x)
          /\ (forall n, ns = VInt n -> x = int_quotient n 1000)).
Proof.
  intros H. destruct (stats_ok_inv s H) as [Hlat Hclat].
  destruct (lat_of_ok s Hlat) as [_ Hl].
  assert (E1 : forall f, In f latency_fields ->
             at_path (io_record s) ["latency_ns"; f]
             = Some (get_or (lat_of s) f (VInt 0)))
    by (intros f [<-|[<-|[<-|[]]]]; reflexivity).
  assert (E2 : forall f, In f latency_fields ->
             at_path (io_record s) ["latency_us"; f]
             = Some (us_field (lat_of s) f))
    by (intros f [<-|[<-|[<-|[]]]]; reflexivity).
  split; [|split; [|split]].
  - intros f v Hf Hv.
    assert (E : at_path (io_record s) [f] = Some (get_or s f (VInt 0)))
      by (destruct Hf as [<-|[<-|[<-|[]]]]; reflexivity).
    rewrite E. unfold get_or. now rewrite Hv.
  - intros f v Hf Hv. rewrite (at_path_lat s f Hlat) in Hv.
    rewrite (E1 f Hf). unfold get_or. now rewrite Hv.
  - intros p Hp.
    change (at_path (io_record s) ["percentiles"])
      with (Some (percentiles_of s)).
    unfold percentiles_of, get_or. cbn [at_path] in Hp.
    destruct (assoc "clat_ns" s) as [[| | | | | |c]|]; try discriminate.
    destruct (assoc "percentile" c); [exact Hp | discriminate].
  - intros f Hf.
    destruct (truediv_1000 _ (lat_ok_fields _ f Hl Hf)) as [x Hx].
    exists (get_or (lat_of s) f (VInt 0)), x.
    split; [apply (E1 f Hf)|].
    split; [rewrite (E2 f Hf); unfold us_field; now rewrite Hx|].
    split; [exact Hx|].
    intros n En. apply (us_value_spec (lat_of s) f x Hx). exact En.
Qed.

Lemma job_record_kept (job : value) :
  job_ok job = true -> fields_kept job (job_record job).
Proof.
  intros H. destruct (job_ok_inv job H) as (jd & -> & Hn & Hr & Hw & Hu & Hs).
  assert (Hside : forall side, In side sides ->
                    absent_or stats_ok jd side = true)
    by (intros side [<-|[<-|[]]]; assumption).
  split; [|split; [|split; [|split]]].
  - intros side f v Hin Hf Hv.
    rewrite (at_path_side jd side f [] (Hside side Hin)) in Hv.
    rewrite at_path_field in Hv.
    rewrite (job_record_side jd side [f] Hin).
    destruct (side_of_ok jd side (Hside side Hin)) as [_ Sok].
    now apply (io_record_kept _ Sok).
  - intros side f v Hin Hf Hv.
    rewrite (at_path_side jd side "lat_ns" [f] (Hside side Hin)) in Hv.
    rewrite (job_record_side jd side _ Hin).
    destruct (side_of_ok jd side (Hside side Hin)) as [_ Sok].
    now apply (io_record_kept _ Sok).
  - intros side p Hin Hp.
    rewrite (at_path_side jd side "clat_ns" ["percentile"] (Hside side Hin))
      in Hp.
    rewrite (job_record_side jd side _ Hin).
    destruct (side_of_ok jd side (Hside side Hin)) as [_ Sok].
    now apply (io_record_kept _ Sok).
  - intros side f Hin Hf.
    rewrite !(job_record_side jd side _ Hin).
    destruct (side_of_ok jd side (Hside side Hin)) as [_ Sok].
    now apply (io_record_kept _ Sok).
  - rewrite !at_path_field.
    pose proof (get_or_number jd "usr_cpu" Hu) as Nu.
    pose proof (get_or_number jd "sys_cpu" Hs) as Ns.
    destruct (py_add_numbers _ _ Nu Ns) as (cv & Hcv & Ncv).
    exists cv.
    change (or_zero (assoc "usr_cpu" jd)) with (get_or jd "usr_cpu" (VInt 0)).
    change (or_zero (assoc "sys_cpu" jd)) with (get_or jd "sys_cpu" (VInt 0)).
    split; [|split; [exact Ncv|split; [exact Hcv|]]].
    + change (at_path (job_record (VDict jd)) ["cpu"]) with (Some (cpu_of jd)).
      unfold cpu_of. now rewrite Hcv.
    + intros a b Ea Eb. rewrite Ea, Eb in Hcv. now injection Hcv as <-.
Qed.

(** X18.  The normalizer keeps what the tool reported.  For a document of
    the tool's schema and every job that no later job of the same name
    overwrites, the stored sub-record holds every present field ([iops],
    [bw_bytes], [bw_kbps], the nanosecond latencies, the percentile table)
    with the value of the document; its microsecond latencies are Python's
    quotients of its nanosecond latencies by 1000, and its [cpu] is Python's
    sum of [usr_cpu] and [sys_cpu], each counted as zero when missing. *)
Theorem X18_present_fields_kept (now : string) (test_name doc : value) :
  conforms doc = true ->
  exists res,
    process_fio_results now test_name doc = Ok (VDict res)
    /\ forall pre job post,
         jobs_of doc = pre ++ job :: post ->
         Forall (fun j => jobname_of j <> jobname_of job) post ->
         exists n rec,
           jobname_of job = VStr n
           /\ assoc n res = Some rec
           /\ fields_kept job rec.
Proof.
  intros H.
  destruct (process_fio_results_ok now test_name doc H) as (d & Ed & Hrun).
  eexists. split; [exact Hrun|].
  intros pre job post Hsplit Hlast.
  destruct (stored_job now test_name doc pre post job H Hsplit Hlast)
    as (res & Hrun' & Hjob & Hname & _ & Hassoc).
  rewrite Hrun in Hrun'. injection Hrun' as <-.
  exists (job_key job), (job_record job).
  split; [exact Hname|]. split; [exact Hassoc|].
  now apply job_record_kept.
Qed.

(** ** The keys of a result *)

Lemma has_key_In (d : dict) (k : string) :
  has_key d k = true <-> In k (keys d).
Proof.
  unfold has_key. destruct (assoc k d) eqn:E.
  - split; auto. intros _. apply assoc_In in E.
    unfold keys. apply in_map_iff. now exists (k, v).
  - split; [discriminate|]. intros H. apply assoc_None_notin in E.
    contradiction.
Qed.

Lemma keys_dict_set_In (k k' : string) (v : value) (d : dict) :
  In k (keys (dict_set k' v d)) <-> In k (keys d) \/ k = k'.
Proof.
  rewrite keys_dict_set. destruct (has_key d k') eqn:E.
  - apply has_key_In in E. split; auto. intros [H| ->]; auto.
  - rewrite in_app_iff. simpl. split; intros [H|H]; auto.
    + destruct H as [<-|[]]. auto.
Qed.

Lemma keys_stored (jobs : list value) :
  forall res,
    (exists extra, keys (stored jobs res) = keys res ++ extra)
    /\ (forall k, In k (keys (stored jobs res))
                  <-> In k (keys res)
                      \/ exists j, In j jobs /\ job_key j = k).
Proof.
  induction jobs as [|j jobs IH]; intros res.
  - split; [exists []; now rewrite app_nil_r|].
    intros k. simpl. split; auto. intros [H|(j & [] & _)]; auto.
  - cbn [stored fold_left].
    fold (stored jobs (dict_set (job_key j) (job_record j) res)).
    destruct (IH (dict_set (job_key j) (job_record j) res)) as [[ex Hex] Hin].
    split.
    + rewrite Hex, keys_dict_set.
      destruct (has_key res (job_key j)); [eauto|].
      rewrite <- app_assoc. eauto.
    + intros k. rewrite Hin, keys_dict_set_In. split.
      * intros [[H|H]|(j' & Hj & Hk)]; auto.
        -- right. exists j. split; [now left | auto].
        -- right. exists j'. split; [now right | auto].
      * intros [H|(j' & [<-|Hj] & Hk)]; auto.
        right. eauto.
Qed.

Lemma stored_other (k : string) (jobs : list value) :
  Forall (fun j => job_key j <> k) jobs ->
  forall res, assoc k (stored jobs res) = assoc k res.
Proof.
  induction 1 as [|j jobs Hj _ IH]; intros res; simpl; auto.
  fold (stored jobs (dict_set (job_key j) (job_record j) res)).
  rewrite IH. apply assoc_dict_set_other. auto.
Qed.

Lemma job_key_name (j : value) (k : string) :
  job_ok j = true -> (jobname_of j = VStr k <-> job_key j = k).
Proof.
  intros H. destruct (job_ok_inv j H) as (jd & -> & Hn & _).
  rewrite (jobname_of_ok jd Hn). split; congruence.
Qed.

(** X19.  The result the normalizer gives for a document of the tool's
    schema has pairwise distinct keys: first [timestamp], [test_name] and
    [global_options], in this order, then the names of the jobs; a key is
    in the result exactly when it is one of the three or the name of a job
    of the document. *)
Theorem X19_result_keys (now : string) (test_name doc : value) :
  conforms doc = true ->
  exists res,
    process_fio_results now test_name doc = Ok (VDict res)
    /\ NoDup (keys res)
    /\ firstn 3 (keys res) = metadata_names
    /\ forall k,
         In k (keys res)
         <-> In k metadata_names
             \/ exists job, In job (jobs_of doc) /\ jobname_of job = VStr k.
Proof.
  intros H.
  destruct (process_fio_results_ok now test_name doc H) as (d & Ed & Hrun).
  destruct (conforms_inv doc H) as (d' & _ & _ & Hjobs).
  destruct (keys_stored (jobs_of doc) (metadata now test_name d))
    as [[extra Hex] Hin].
  eexists. split; [exact Hrun|]. split.
  { apply stored_NoDup. simpl. repeat constructor; simpl; intuition discriminate. }
  split; [rewrite Hex; reflexivity|].
  intros k. rewrite Hin. rewrite Forall_forall in Hjobs.
  split; (intros [Hm|(j & Hj & Hk)]; [left; exact Hm | right]);
    exists j; (split; [exact Hj|]); now apply (job_key_name j k (Hjobs j Hj)).
Qed.

Lemma no_job_named (doc : value) (k : string) :
  conforms doc = true ->
  Forall (fun j => jobname_of j <> VStr k) (jobs_of doc) ->
  Forall (fun j => job_key j <> k) (jobs_of doc).
Proof.
  intros H Hno. destruct (conforms_inv doc H) as (d' & _ & _ & Hjobs).
  rewrite Forall_forall in *. intros j Hj Hk.
  apply (Hno j Hj). now apply (job_key_name j k (Hjobs j Hj)).
Qed.

(** X20.  A metadata field of the result keeps its value when no job of
    the document bears its name: the timestamp is the time of the
    normalization, the test name is the one given, and the global options
    are those of the document, an empty mapping when it has none.  When the
    timestamp and the test name are kept and the timestamp is an ISO text,
    the result is one the analyzer can turn into rows. *)
Theorem X20_metadata_kept (now : string) (test_name doc : value) :
  conforms doc = true ->
  exists res,
    process_fio_results now test_name doc = Ok (VDict res)
    /\ (Forall (fun j => jobname_of j <> VStr "timestamp") (jobs_of doc) ->
        assoc "timestamp" res = Some (VStr now))
    /\ (Forall (fun j => jobname_of j <> VStr "test_name") (jobs_of doc) ->
        assoc "test_name" res = Some test_name)
    /\ (Forall (fun j => jobname_of j <> VStr "global_options") (jobs_of doc) ->
        assoc "global_options" res
        = Some (match at_path doc ["global options"] with
                | Some g => g
                | None => VDict []
                end))
    /\ (forall w,
          iso_ok w now = true ->
          Forall (fun j => jobname_of j <> VStr "timestamp") (jobs_of doc) ->
          Forall (fun j => jobname_of j <> VStr "test_name") (jobs_of doc) ->
          row_ready w (VDict res) = true).
Proof.
  intros H.
  destruct (process_fio_results_ok now test_name doc H) as (d & -> & Hrun).
  destruct (normalized_reportable now test_name (VDict d) H)
    as (res & Hrun' & _ & Hrep).
  rewrite Hrun in Hrun'. injection Hrun' as <-.
  eexists. split; [exact Hrun|].
  assert (Hts : Forall (fun j => jobname_of j <> VStr "timestamp")
                       (jobs_of (VDict d)) ->
                assoc "timestamp"
                      (stored (jobs_of (VDict d)) (metadata now test_name d))
                = Some (VStr now)).
  { intros Hno. now rewrite (stored_other _ _ (no_job_named _ _ H Hno)). }
  assert (Htn : Forall (fun j => jobname_of j <> VStr "test_name")
                       (jobs_of (VDict d)) ->
                assoc "test_name"
                      (stored (jobs_of (VDict d)) (metadata now test_name d))
                = Some test_name).
  { intros Hno. now rewrite (stored_other _ _ (no_job_named _ _ H Hno)). }
  split; [exact Hts|]. split; [exact Htn|]. split.
  - intros Hno. rewrite (stored_other _ _ (no_job_named _ _ H Hno)).
    cbn [at_path]. unfold metadata, get_or. cbn [assoc String.eqb Ascii.eqb Bool.eqb].
    simpl. destruct (assoc "global options" d); reflexivity.
  - intros w Hiso Hno1 Hno2. unfold row_ready.
    apply andb_true_iff. split; [apply andb_true_iff; split|].
    + exact Hrep.
    + cbn [at_path]. now rewrite (Hts Hno1).
    + cbn [at_path]. now rewrite (Htn Hno2).
Qed.

(** ** Cycles *)


(** One turn of the loop is the single run followed by the sleep. *)
Lemma monitoring_cycle_single_run (w : world) (interval : Z) (m : monitor) :
  monitoring_cycle w interval m
  = match single_run w m with
    | (Ok _, m') => time_sleep w (interval * 60) m'
    | (Raise e, m') => (Raise e, m')
    end.
Proof.
  unfold single_run, monitoring_cycle, sbind.
  destruct (run_configured_tests w m) as [[[]|e] m1]; [|reflexivity].
  destruct (generate_report w m1) as [[v|e] m2]; reflexivity.
Qed.

(** X22.  The periodic loop and the single run.  A cycle count of zero or
    less runs nothing.  Otherwise the loop first does what the single-run
    branch of [main] does and ends with the exception of that run if there
    is one; after a run that ended normally it sleeps for the interval:
    with a negative interval [time.sleep] raises [ValueError] and the loop
    ends there, after one pass over the tests, whatever the cycle count;
    with a duration the platform refuses the loop ends with the platform's
    exception; and otherwise the loop goes on with one cycle less. *)
Theorem X22_loop_and_interval (w : world) (interval cycles : Z)
  (m : monitor) :
  (cycles <= 0 -> run_monitoring_cycle w interval cycles m = (Ok tt, m))
  /\ (0 < cycles ->
      (forall e m',
          single_run w m = (Raise e, m') ->
          run_monitoring_cycle w interval cycles m = (Raise e, m'))
      /\ (forall v m',
            single_run w m = (Ok v, m') ->
            (interval < 0 ->
             run_monitoring_cycle w interval cycles m = (Raise ValueError, m'))
            /\ (forall e,
                  0 <= interval ->
                  sleep_refused w (interval * 60) = Some e ->
                  run_monitoring_cycle w interval cycles m = (Raise e, m'))
            /\ (can_sleep w interval = true ->
                run_monitoring_cycle w interval cycles m
                = run_monitoring_cycle w interval (cycles - 1) m'))).
Proof.
  split.
  - intros Hle. unfold run_monitoring_cycle.
    replace (Z.to_nat cycles) with 0%nat; [reflexivity|].
    destruct cycles; try reflexivity; lia.
  - intros Hpos.
    assert (E : run_monitoring_cycle w interval cycles m
                = sbind (monitoring_cycle w interval)
                        (fun _ => run_monitoring_cycle w interval (cycles - 1))
                        m).
    { unfold run_monitoring_cycle.
      replace (Z.to_nat cycles) with (S (Z.to_nat (cycles - 1))) by lia.
      reflexivity. }
    rewrite E. unfold sbind. rewrite monitoring_cycle_single_run.
    split.
    + intros e m' ->. reflexivity.
    + intros v m' ->. split; [|split].
      * intros Hneg. now rewrite (time_sleep_negative w interval m' Hneg).
      * intros e H0 Hre. unfold time_sleep. rewrite Hre.
        destruct (interval * 60 <? 0) eqn:El; [|reflexivity].
        apply Z.ltb_lt in El. lia.
      * intros Hs. now rewrite (time_sleep_ok w interval m' Hs).
Qed.

(** ** A tool that always succeeds *)









(** ** The built-in configuration *)

Lemma save_results_launched (w : world) (r : value) (m : monitor) :
  launched (snd (save_results w r m)) = launched m.
Proof.
  unfold save_results. destruct (truthy r); reflexivity.
Qed.

Lemma generate_report_launched (w : world) (m : monitor) :
  launched (snd (generate_report w m)) = launched m.
Proof.
  unfold generate_report. destruct (history m) as [|r0 h0]; [reflexivity|].
  unfold sbind, isoformat_now, lift, sret, write_json.
  destruct (py_iter (configs m)) as [cfgs|]; [|reflexivity].
  destruct (summarize cfgs (r0 :: h0) []) as [summary|]; reflexivity.
Qed.

Lemma single_run_one_config (w : world) (c : value) (m : monitor) :
  configs m = VList [c] ->
  launched (snd (single_run w m)) = launched (snd (run_fio_test w c m)).
Proof.
  intros Hc. unfold single_run, sbind, run_configured_tests, sbind, lift.
  rewrite Hc. cbn [py_iter run_tests]. unfold sbind, sret.
  destruct (run_fio_test w c m) as [[v|e] m1]; [|reflexivity].
  cbn [snd].
  destruct (truthy v).
  - pose proof (save_results_launched w v m1) as Hs.
    destruct (save_results w v m1) as [[[]|e] m2]; cbn [snd] in *.
    + rewrite <- Hs. apply generate_report_launched.
    + exact Hs.
  - apply generate_report_launched.
Qed.

(** X21.  When the path given for the configuration names no file,
    [load_configs] falls back on the built-in configuration without an
    error, and the single-run branch of [main] launches the tool exactly
    once, with the command line of that configuration and a timeout of
    150.  When the path names a text file, the configurations are the
    parsed content of the file as it is, and text that is not JSON ends
    [main] with [JSONDecodeError] before anything is launched. *)
Theorem X21_configuration_file (w : world) (fs : string -> fs_entry)
  (d : list (string * value)) (interval cycles : Z) :
  (forall config_file,
      names_no_file fs config_file ->
      load_configs w fs config_file = Ok default_configs
      /\ exists out m',
           main w fs config_file d true interval cycles = Ok (out, m')
           /\ launched m' = [(default_command, VInt 150)])
  /\ (forall path text single,
        path <> EmptyString ->
        fs path = FileText text ->
        load_configs w fs (Some path) = loads w text
        /\ (json_loads w text = None ->
            main w fs (Some path) d single interval cycles
            = Raise JSONDecodeError)).
Proof.
  split.
  - intros config_file Hno.
    assert (Hload : load_configs w fs config_file = Ok default_configs).
    { unfold load_configs. destruct config_file as [path|]; [|reflexivity].
      destruct Hno as [->|Hfs]; [reflexivity|]. rewrite Hfs.
      now destruct (negb (String.eqb path EmptyString)). }
    split; [exact Hload|].
    unfold main, FIOMonitor_init. rewrite Hload. cbn [rbind].
    match goal with
    | |- context [single_run w ?m0] =>
        pose proof (single_run_one_config w _ m0 eq_refl) as Hl;
        destruct (single_run w m0) as [[v|e] m1]
    end; cbn [snd] in Hl; do 2 eexists; (split; [reflexivity|]);
      rewrite Hl;
      match goal with
      | |- launched (snd (run_fio_test w (VDict ?cd) ?m0)) = _ =>
          match eval cbv in (assoc "parameters" cd) with
          | Some (VDict ?ps) =>
              rewrite (run_fio_test_launch w cd "pgsql_8k_60r_40w_QD32" ps
                         (VInt 150) m0 eq_refl eq_refl eq_refl eq_refl)
          end
      end; reflexivity.
  - intros path text single Hne Hfs.
    assert (Hload : load_configs w fs (Some path) = loads w text).
    { unfold load_configs. rewrite Hfs.
      destruct (String.eqb path EmptyString) eqn:E; [|reflexivity].
      apply String.eqb_eq in E. contradiction. }
    split; [exact Hload|].
    intros Hj. unfold main, FIOMonitor_init. rewrite Hload.
    unfold loads. now rewrite Hj.
Qed.

(** X24.  A valid TestConfig without a runtime parameter is run with the
    runtime taken as 120: the tool is launched once, with the command line
    of the configuration and a timeout of 150. *)
Theorem X24_default_runtime (w : world) (c : value) (m : monitor) :
  valid_config c = true ->
  at_path c ["parameters"; "runtime"] = None ->
  exists name ps,
    at_path c ["name"] = Some (VStr name)
    /\ at_path c ["parameters"] = Some (VDict ps)
    /\ launched (snd (run_fio_test w c m))
       = launched m ++ [(command_line w name ps, VInt 150)].
Proof.
  intros H Hr.
  destruct (valid_config_inv c H) as (cd & name & ps & -> & Hn & Hp & Hs).
  exists name, ps. cbn [at_path] in *. rewrite Hn, Hp in *.
  split; [reflexivity|]. split; [reflexivity|].
  apply run_fio_test_launch; auto.
  unfold get_or. destruct (assoc "runtime" ps); [discriminate | reflexivity].
Qed.

(** ** Report generation is not guarded *)

Lemma matching_dicts (n : string) (h : list value) :
  Forall (fun r => is_dict r = true) h ->
  matching n h = Ok (filter (test_name_is n) h).
Proof.
  induction 1 as [|r h Hr _ IH]; simpl; auto.
  destruct r; try discriminate. step_get. rewrite IH. reflexivity.
Qed.

(** X25.  No [try] statement surrounds the generation of the report.  When
    the aggregation of the records of the first configured test raises an
    exception (as it does when a stored percentile table is not a mapping,
    which the normalizer lets through), [generate_report] raises that
    exception and writes no report, the history stays as it is, and the
    single run and the monitoring cycle that called it end with the
    exception, after the results of the cycle were saved. *)
Theorem X25_report_exception_propagates (w : world) (m : monitor)
  (c : value) (cs : list value) (s : string) (e : exn) :
  configs m = VList (c :: cs) ->
  py_getitem c "name" = Ok (VStr s) ->
  Forall (fun r => is_dict r = true) (history m) ->
  filter (test_name_is s) (history m) <> [] ->
  aggregate_test_results (filter (test_name_is s) (history m)) = Raise e ->
  generate_report w m = (Raise e, tick m)
  /\ (forall m0,
        run_configured_tests w m0 = (Ok tt, m) ->
        single_run w m0 = (Raise e, tick m)
        /\ forall interval n,
             run_cycles w interval (S n) m0 = (Raise e, tick m)).
Proof.
  intros Hc Hname Hd Hrec Hagg.
  assert (Hgen : generate_report w m = (Raise e, tick m)).
  { unfold generate_report.
    destruct (history m) as [|r0 h0] eqn:Eh; [contradiction|].
    rewrite <- Eh in *.
    unfold sbind, isoformat_now, lift. rewrite Hc. cbn [py_iter].
    cbn [summarize]. rewrite Hname. cbn [rbind as_key].
    rewrite (matching_dicts s (history m) Hd). cbn [rbind].
    destruct (filter (test_name_is s) (history m)) as [|r1 rs1] eqn:Ef;
      [contradiction|].
    rewrite Hagg. reflexivity. }
  split; [exact Hgen|].
  intros m0 Hrun. split.
  - unfold single_run, sbind. now rewrite Hrun, Hgen.
  - intros interval n. cbn [run_cycles]. unfold sbind at 1.
    unfold monitoring_cycle, sbind. now rewrite Hrun, Hgen.
Qed.

(** * The further statements at concrete inputs *)

Lemma X2_run_fio_test_outcomes_witness :
  valid_config example_config = true
  /\ forall e,
       fst (run_fio_test example_world example_config example_monitor)
       = Raise e -> e = OutsideModel.
Proof.
  split; [reflexivity|].
  destruct (X2_run_fio_test_outcomes example_world example_config
              example_monitor eq_refl) as (name & _ & H & _).
  exact H.
Defined.

Lemma X3_missing_key_aborts_witness :
  (assoc "name" [("parameters", VDict [("runtime", VInt 10)])] = None
   \/ assoc "parameters" [("parameters", VDict [("runtime", VInt 10)])] = None)
  /\ run_tests example_world [nameless_config; example_config] example_monitor
     = (Raise KeyError, example_monitor).
Proof.
  assert (H : assoc "name" [("parameters", VDict [("runtime", VInt 10)])]
              = None
              \/ assoc "parameters" [("parameters", VDict [("runtime", VInt 10)])]
                 = None) by (left; reflexivity).
  split; [exact H|].
  destruct (X3_missing_key_aborts example_world _ [example_config]
              example_monitor H) as (_ & Hloop & _).
  exact Hloop.
Defined.

Lemma X4_no_success_no_result_witness :
  valid_config example_config = true
  /\ (forall args timeout out err,
        subprocess_run nonzero_world (clock example_monitor) args timeout
        <> Completed 0 out err)
  /\ exists m',
       run_fio_test nonzero_world example_config example_monitor
       = (Ok VNone, m')
       /\ history m' = [].
Proof.
  assert (H : forall args timeout out err,
             subprocess_run nonzero_world (clock example_monitor) args timeout
             <> Completed 0 out err) by (intros; discriminate).
  split; [reflexivity|]. split; [exact H|].
  destruct (X4_no_success_no_result nonzero_world example_config []
              example_monitor eq_refl H) as (m' & Hrun & (_ & Hh & _) & _).
  exists m'. auto.
Defined.

Lemma X5_successful_test_witness :
  valid_config example_config = true
  /\ json_loads example_world "stub" = Some example_doc
  /\ conforms example_doc = true
  /\ exists res m'',
       run_tests example_world [example_config] example_monitor = (Ok tt, m'')
       /\ history m'' = [res]
       /\ at_path res ["test_name"] = Some (VStr "t1").
Proof.
  split; [reflexivity|]. split; [reflexivity|]. split; [reflexivity|].
  destruct (X5_successful_test example_world example_config example_monitor
              "t1" "stub" EmptyString example_doc eq_refl eq_refl)
    as (res & m' & m'' & Hres & _ & _ & Hrun & Hh & _);
    try reflexivity.
  - intros r [= <-]. reflexivity.
  - exists res, m''. split; [exact Hrun|]. split; [exact Hh|].
    injection Hres as <-. reflexivity.
Defined.

Lemma X6_runtime_not_a_number_witness :
  valid_config text_runtime_config = true
  /\ at_path text_runtime_config ["parameters"; "runtime"]
     = Some (VStr "60s")
  /\ is_number (VStr "60s") = false
  /\ run_fio_test example_world text_runtime_config example_monitor
     = (Ok VNone, example_monitor).
Proof.
  split; [reflexivity|]. split; [reflexivity|]. split; [reflexivity|].
  exact (X6_runtime_not_a_number example_world text_runtime_config
           (VStr "60s") example_monitor eq_refl eq_refl eq_refl).
Defined.

Lemma X8_history_file_in_step_witness :
  synced example_monitor
  /\ synced (snd (run_cycles example_world 60 2 example_monitor)).
Proof.
  assert (H : synced example_monitor) by (left; reflexivity).
  split; [exact H|].
  exact (X8_history_file_in_step example_world 60 2 example_monitor H).
Defined.

Lemma X9_same_second_overwrites_witness :
  truthy (example_result "A") = true
  /\ truthy (example_result "B") = true
  /\ now_strftime example_world 1 = now_strftime example_world 0
  /\ exists m1 m2,
       save_results example_world (example_result "A") example_monitor
       = (Ok tt, m1)
       /\ save_results example_world (example_result "B") m1 = (Ok tt, m2)
       /\ read_file (run_file example_world 0) (disk m2)
          = Some (example_result "B")
       /\ history m2 = [example_result "A"; example_result "B"].
Proof.
  split; [reflexivity|]. split; [reflexivity|]. split; [reflexivity|].
  destruct (X9_same_second_overwrites example_world (example_result "A")
              (example_result "B") example_monitor eq_refl eq_refl eq_refl)
    as (m1 & m2 & H1 & _ & H2 & Hf & Hh & _).
  exists m1, m2. auto.
Defined.

Lemma X10_restart_replaces_history_witness :
  FIOMonitor_init example_world (fun _ => NoEntry) None old_disk
  = Ok restarted_monitor
  /\ truthy (example_result "A") = true
  /\ load_history old_disk
     = VList [example_result "old"; example_result "old"]
  /\ load_history
       (disk (snd (save_results example_world (example_result "A")
                     restarted_monitor)))
     = VList [example_result "A"].
Proof.
  split; [reflexivity|]. split; [reflexivity|]. split; [reflexivity|].
  destruct (X10_restart_replaces_history example_world (fun _ => NoEntry)
              None old_disk restarted_monitor (example_result "A")
              eq_refl eq_refl) as (_ & _ & H).
  exact H.
Defined.

Lemma X11_nothing_written_on_failure_witness :
  always_fails garbled_world
  /\ configs example_monitor = VList [example_config]
  /\ Forall (fun c => valid_config c = true) [example_config]
  /\ history example_monitor = []
  /\ can_sleep garbled_world 60 = true
  /\ (exists m',
        run_cycles garbled_world 60 2 example_monitor = (Ok tt, m')
        /\ history m' = []
        /\ disk m' = [])
  /\ -1 < 0
  /\ (exists m',
        run_cycles garbled_world (-1) 2 example_monitor
        = (Raise ValueError, m')
        /\ history m' = []
        /\ disk m' = []).
Proof.
  assert (Hf : always_fails garbled_world)
    by (intros t args timeout rc out err _; right; reflexivity).
  assert (Hv : Forall (fun c => valid_config c = true) [example_config])
    by (repeat constructor).
  split; [exact Hf|]. split; [reflexivity|]. split; [exact Hv|].
  split; [reflexivity|]. split; [reflexivity|].
  split; [|split; [reflexivity|]].
  - exact (proj1 (X11_nothing_written_on_failure garbled_world
                    [example_config] 60 2 example_monitor Hf eq_refl Hv
                    eq_refl) eq_refl).
  - exact (proj2 (X11_nothing_written_on_failure garbled_world
                    [example_config] (-1) 1 example_monitor Hf eq_refl Hv
                    eq_refl) eq_refl).
Defined.

Lemma X12_aggregate_reads_last_witness :
  List.length [VNone] = List.length [VInt 1]
  /\ aggregate_test_results ([VNone] ++ [example_result "A"])
     = aggregate_test_results ([VInt 1] ++ [example_result "A"]).
Proof.
  split; [reflexivity|].
  destruct (X12_aggregate_reads_last [VNone] [VInt 1] (example_result "A")
              eq_refl) as (H & _).
  exact H.
Defined.

Lemma X13_report_contents_witness :
  configs monitor_3A = VList [named_config "A"; named_config "B"]
  /\ history monitor_3A <> []
  /\ exists report m',
       generate_report example_world monitor_3A = (Ok report, m')
       /\ at_path report ["total_tests"] = Some (VInt 3)
       /\ (at_path report ["summary"; "B"] <> None
           <-> existsb (config_named "B")
                       [named_config "A"; named_config "B"] = true
               /\ filter (test_name_is "B") (history monitor_3A) <> []).
Proof.
  assert (Hne : history monitor_3A <> []) by discriminate.
  split; [reflexivity|]. split; [exact Hne|].
  destruct (X13_report_contents example_world monitor_3A
              [named_config "A"; named_config "B"] eq_refl)
    as (report & m' & Hgen & _ & Htotal & Hkeys & _);
    [repeat constructor | repeat constructor | exact Hne |].
  exists report, m'. split; [exact Hgen|]. split; [exact Htotal|].
  apply Hkeys.
Defined.

Lemma X14_metrics_order_and_values_witness :
  reportable (VDict example_entries) = true
  /\ NoDup (keys example_entries)
  /\ exists metrics,
       extract_key_metrics (VDict example_entries) = Ok (VDict metrics)
       /\ keys metrics = ["j1"].
Proof.
  assert (Hnd : NoDup (keys example_entries)).
  { change (keys example_entries)
      with ["timestamp"; "test_name"; "global_options"; "j1"].
    repeat constructor; simpl; intuition discriminate. }
  split; [reflexivity|]. split; [exact Hnd|].
  destruct (X14_metrics_order_and_values example_entries eq_refl Hnd)
    as (metrics & Hex & Hkeys & _).
  exists metrics. split; [exact Hex|]. rewrite Hkeys. reflexivity.
Defined.

Lemma X15_rows_agree_with_report_witness :
  job_metrics example_job_data = Ok example_job_metrics
  /\ exists row,
       job_row (VStr "2024-01-01T00:00:00") (VStr "t1") "j1" example_job_data
       = Ok row
       /\ at_path row ["read_latency_p95_us"]
          = at_path example_job_metrics ["read_latency_us_p95"].
Proof.
  split; [reflexivity|].
  destruct (proj2 (X15_rows_agree_with_report (VStr "2024-01-01T00:00:00")
                     (VStr "t1") "j1" example_job_data)
              example_job_metrics eq_refl)
    as (row & Hrow & _ & _ & _ & Hvals).
  exists row. split; [exact Hrow|].
  apply (Hvals ("read_latency_us_p95", "read_latency_p95_us")).
  simpl. auto.
Defined.

Lemma X16_analyzer_rows_witness :
  read_file history_file
    [(history_file, VList [example_result "A"; example_result "B"])]
  = Some (VList [example_result "A"; example_result "B"])
  /\ Forall (fun r => row_ready example_world r = true)
            [example_result "A"; example_result "B"]
  /\ exists rows,
       timeseries_rows example_world
         [(history_file, VList [example_result "A"; example_result "B"])]
       = Ok rows
       /\ List.length rows = 2%nat.
Proof.
  assert (H : Forall (fun r => row_ready example_world r = true)
                     [example_result "A"; example_result "B"])
    by (repeat constructor).
  split; [reflexivity|]. split; [exact H|].
  destruct (X16_analyzer_rows example_world
              [(history_file, VList [example_result "A"; example_result "B"])]
              [example_result "A"; example_result "B"] eq_refl H)
    as (rows & Hrun & Hlen & _).
  exists rows. auto.
Defined.

Lemma X17_analyzer_fails_on_job_named_timestamp_witness :
  conforms clash_doc = true
  /\ existsb (fun j => String.eqb (job_key j) "timestamp") (jobs_of clash_doc)
     = true
  /\ exists res,
       process_fio_results "2024-01-01T00:00:00" (VStr "t1") clash_doc
       = Ok (VDict res)
       /\ timeseries_rows example_world [(history_file, VList [VDict res])]
          = Raise TypeError.
Proof.
  split; [reflexivity|]. split; [reflexivity|].
  destruct (X17_analyzer_fails_on_job_named_timestamp "2024-01-01T00:00:00"
              (VStr "t1") clash_doc eq_refl eq_refl)
    as (res & rec & Hrun & _ & Hfail).
  exists res. split; [exact Hrun|].
  apply (Hfail example_world _ []). reflexivity.
Defined.

Lemma X18_present_fields_kept_witness :
  conforms sparse_doc = true
  /\ exists res rec,
       process_fio_results "2024-01-01T00:00:00" (VStr "t1") sparse_doc
       = Ok (VDict res)
       /\ assoc "j1" res = Some rec
       /\ at_path rec ["read"; "iops"] = Some (VInt 7).
Proof.
  split; [reflexivity|].
  destruct (X18_present_fields_kept "2024-01-01T00:00:00" (VStr "t1")
              sparse_doc eq_refl) as (res & Hrun & Hjobs).
  destruct (Hjobs [] sparse_job [] eq_refl (Forall_nil _))
    as (n & rec & Hname & Hassoc & Hkept & _).
  injection Hname as <-.
  exists res, rec. split; [exact Hrun|]. split; [exact Hassoc|].
  apply Hkept; simpl; auto.
Defined.

Lemma X19_result_keys_witness :
  conforms example_doc = true
  /\ exists res,
       process_fio_results "2024-01-01T00:00:00" (VStr "t1") example_doc
       = Ok (VDict res)
       /\ NoDup (keys res)
       /\ In "j1" (keys res).
Proof.
  split; [reflexivity|].
  destruct (X19_result_keys "2024-01-01T00:00:00" (VStr "t1") example_doc
              eq_refl) as (res & Hrun & Hnd & _ & Hin).
  exists res. split; [exact Hrun|]. split; [exact Hnd|].
  apply Hin. right. eexists. split; [left; reflexivity | reflexivity].
Defined.

Lemma X20_metadata_kept_witness :
  conforms example_doc = true
  /\ Forall (fun j => jobname_of j <> VStr "timestamp") (jobs_of example_doc)
  /\ exists res,
       process_fio_results "2024-01-01T00:00:00" (VStr "t1") example_doc
       = Ok (VDict res)
       /\ assoc "timestamp" res = Some (VStr "2024-01-01T00:00:00").
Proof.
  assert (H : Forall (fun j => jobname_of j <> VStr "timestamp")
                     (jobs_of example_doc))
    by (repeat constructor; discriminate).
  split; [reflexivity|]. split; [exact H|].
  destruct (X20_metadata_kept "2024-01-01T00:00:00" (VStr "t1") example_doc
              eq_refl) as (res & Hrun & Hts & _).
  exists res. split; [exact Hrun | exact (Hts H)].
Defined.

Lemma X21_configuration_file_witness :
  names_no_file (fun _ => NoEntry) (Some "tests.json")
  /\ load_configs example_world (fun _ => NoEntry) (Some "tests.json")
     = Ok default_configs.
Proof.
  assert (H : names_no_file (fun _ => NoEntry) (Some "tests.json"))
    by (right; reflexivity).
  split; [exact H|].
  destruct (proj1 (X21_configuration_file example_world (fun _ => NoEntry)
                     [] 60 1) (Some "tests.json") H) as (Hload & _).
  exact Hload.
Defined.

Lemma X22_loop_and_interval_witness :
  0 < 3
  /\ -1 < 0
  /\ exists v m',
       single_run example_world example_monitor = (Ok v, m')
       /\ run_monitoring_cycle example_world (-1) 3 example_monitor
          = (Raise ValueError, m')
       /\ List.length (history m') = 1%nat.
Proof.
  assert (E : exists v m',
             single_run example_world example_monitor = (Ok v, m')
             /\ List.length (history m') = 1%nat)
    by (do 2 eexists; split; [vm_compute; reflexivity | reflexivity]).
  destruct E as (v & m' & E & Hl).
  split; [reflexivity|]. split; [reflexivity|].
  exists v, m'. split; [exact E|]. split; [|exact Hl].
  destruct (X22_loop_and_interval example_world (-1) 3 example_monitor)
    as [_ H].
  destruct (H eq_refl) as [_ H2]. destruct (H2 v m' E) as [Hneg _].
  exact (Hneg eq_refl).
Defined.


Lemma X24_default_runtime_witness :
  valid_config no_runtime_config = true
  /\ at_path no_runtime_config ["parameters"; "runtime"] = None
  /\ launched (snd (run_fio_test example_world no_runtime_config
                      example_monitor))
     = [(["fio"; "--name"; "t1"; "--bs"; "8k"], VInt 150)].
Proof.
  split; [reflexivity|]. split; [reflexivity|].
  destruct (X24_default_runtime example_world no_runtime_config
              example_monitor eq_refl eq_refl)
    as (name & ps & Hn & Hp & Hl).
  injection Hn as <-. injection Hp as <-. exact Hl.
Defined.

Lemma X25_report_exception_propagates_witness :
  configs odd_monitor = VList [example_config]
  /\ filter (test_name_is "t1") (history odd_monitor) <> []
  /\ aggregate_test_results (filter (test_name_is "t1") (history odd_monitor))
     = Raise AttributeError
  /\ generate_report example_world odd_monitor
     = (Raise AttributeError, tick odd_monitor)
  /\ read_file report_file (disk (tick odd_monitor)) = None.
Proof.
  assert (Hne : filter (test_name_is "t1") (history odd_monitor) <> [])
    by discriminate.
  split; [reflexivity|]. split; [exact Hne|]. split; [reflexivity|].
  destruct (X25_report_exception_propagates example_world odd_monitor
              example_config [] "t1" AttributeError eq_refl eq_refl)
    as (Hgen & _);
    [repeat constructor | exact Hne | reflexivity |].
  split; [exact Hgen | reflexivity].
Defined.
